(** * OneBox-AI: the retrieval-augmented reply pipeline and its embedding layer

    A shallow embedding of the two backend services that implement reply
    suggestion:

    - [VectorService]  (services/vector.service.ts): rate-limited embedding
      requests with retry and a local fallback embedding, the knowledge store
      with its disconnected mode, and seeding;
    - [RAGService]: intent classification, retrieval, the three reply
      strategies and the error fallback.

    Modelling conventions.

    - A JavaScript string is a [string]: a sequence of code units below 256
      (Latin-1).  [toLowerCase], [trim] and [charCodeAt] are given for that
      range.
    - A JavaScript number that the code only compares, scales and clamps
      (delays, similarities, confidences) is a rational [Q], so that the
      definitions run.  The components of an embedding, which go through
      [Math.sin] and [Math.sqrt], are real numbers [R]: IEEE-754 rounding is
      not modelled.
    - An [async] function that can reject is a function into [outcome]; the
      external collaborators (OpenAI, ChromaDB, the clock, [uuidv4], the
      process environment) are explicit arguments or fields of the state.
      Every external call is assumed to settle.
    - [console.log] output is not modelled. *)

From Stdlib Require Import Bool Arith List String Ascii ZArith QArith Qminmax Qround.
From Stdlib Require Import Reals Psatz Lia DecimalString.
Import ListNotations.

Close Scope Q_scope.
Close Scope R_scope.
Open Scope string_scope.
Open Scope nat_scope.

(* ------------------------------------------------------------------ *)
(** ** JavaScript strings *)

Module JS.

Definition charCode (c : ascii) : nat := nat_of_ascii c.

(** [String.prototype.toLowerCase] on code units below 256: the letters
    A-Z and the Latin-1 capitals 192-222 other than the multiplication
    sign 215 move up by 32. *)
Definition lowerChar (c : ascii) : ascii :=
  let n := charCode c in
  if ((65 <=? n) && (n <=? 90)) || ((192 <=? n) && (n <=? 222) && negb (n =? 215))
  then ascii_of_nat (n + 32)
  else c.

Fixpoint toLowerCase (s : string) : string :=
  match s with
  | EmptyString => EmptyString
  | String c rest => String (lowerChar c) (toLowerCase rest)
  end.

(** [pat] occurs in [s] at position 0. *)
Fixpoint startsWith (s pat : string) {struct pat} : bool :=
  match pat, s with
  | EmptyString, _ => true
  | String _ _, EmptyString => false
  | String p pat', String c s' => Ascii.eqb p c && startsWith s' pat'
  end.

(** [String.prototype.includes]. *)
Fixpoint includes (s pat : string) : bool :=
  startsWith s pat ||
  match s with
  | EmptyString => false
  | String _ rest => includes rest pat
  end.

(** White space and line terminators below 256: TAB, LF, VT, FF, CR,
    SPACE and NBSP. *)
Definition isWhite (c : ascii) : bool :=
  let n := charCode c in
  ((9 <=? n) && (n <=? 13)) || (n =? 32) || (n =? 160).

Fixpoint trimStart (s : string) : string :=
  match s with
  | EmptyString => EmptyString
  | String c rest => if isWhite c then trimStart rest else s
  end.

(** Removes trailing white space: a character is kept when it is not
    white space or when something is kept after it. *)
Fixpoint trimEnd (s : string) : string :=
  match s with
  | EmptyString => EmptyString
  | String c rest =>
      match trimEnd rest with
      | EmptyString => if isWhite c then EmptyString else String c EmptyString
      | kept => String c kept
      end
  end.

Definition trim (s : string) : string := trimEnd (trimStart s).

(** [s.split(sep)[0]] for a one-character separator: the text before the
    first separator, all of [s] when there is none. *)
Fixpoint splitHead (sep : ascii) (s : string) : string :=
  match s with
  | EmptyString => EmptyString
  | String c rest => if Ascii.eqb c sep then EmptyString else String c (splitHead sep rest)
  end.

(** [a || b] on strings: the empty string is falsy. *)
Definition orElse (a b : string) : string :=
  match a with
  | EmptyString => b
  | _ => a
  end.

Fixpoint drop (n : nat) (s : string) : string :=
  match n, s with
  | O, _ => s
  | S _, EmptyString => EmptyString
  | S k, String _ rest => drop k rest
  end.

(** The replacement text of [String.prototype.replace] for one match of a
    pattern without capture groups: [$$] is a dollar sign, [$&] the matched
    text, [$`] the text before the match, [$'] the text after it; any other
    dollar sign stands for itself. *)
Fixpoint getSubstitution (matched before after repl : string) : string :=
  match repl with
  | EmptyString => EmptyString
  | String c rest =>
      if Ascii.eqb c "$" then
        match rest with
        | String d rest' =>
            if Ascii.eqb d "$" then String "$" (getSubstitution matched before after rest')
            else if Ascii.eqb d "&" then matched ++ getSubstitution matched before after rest'
            else if Ascii.eqb d "`" then before ++ getSubstitution matched before after rest'
            else if Ascii.eqb d "'" then after ++ getSubstitution matched before after rest'
            else String c (getSubstitution matched before after rest)
        | EmptyString => String c EmptyString
        end
      else String c (getSubstitution matched before after rest)
  end.

(** [s.replace(new RegExp(pat, 'g'), repl)] for a pattern [pat] that is a
    non-empty literal text.  The scan goes left to right over [rest];
    [before] is the part of the subject already passed and [skip] counts
    the characters of the current match still to pass. *)
Fixpoint replaceScan (pat repl : string) (skip : nat) (before rest : string) : string :=
  match rest with
  | EmptyString => EmptyString
  | String c rest' =>
      match skip with
      | S k => replaceScan pat repl k (before ++ String c EmptyString) rest'
      | O =>
          if startsWith rest pat
          then getSubstitution pat before (drop (String.length pat) rest) repl
               ++ replaceScan pat repl (String.length pat - 1)
                    (before ++ String c EmptyString) rest'
          else String c (replaceScan pat repl 0 (before ++ String c EmptyString) rest')
      end
  end.

Definition replaceAll (pat repl s : string) : string :=
  replaceScan pat repl 0 EmptyString s.

(** [Array.prototype.join]. *)
Fixpoint join (sep : string) (l : list string) : string :=
  match l with
  | [] => EmptyString
  | [x] => x
  | x :: rest => x ++ sep ++ join sep rest
  end.

(** Decimal text of an integer, as a template literal prints it. *)
Definition showZ (z : Z) : string := NilZero.string_of_int (Z.to_int z).

(** [Math.round]: the nearest integer, halves going up. *)
Definition round (q : Q) : Z := Qfloor (q + (1 # 2))%Q.

Definition nl : string := String (ascii_of_nat 10) EmptyString.

End JS.

(* ------------------------------------------------------------------ *)
(** ** Errors, the program state and the execution monad *)

(** The value a rejected call throws: the OpenAI client sets [status] on
    HTTP errors and [code] on API errors; other failures carry neither. *)
Record JSError := mkError {
  status : option Z;
  code : option string;
  message : string
}.

Inductive outcome (A : Type) : Type :=
| Returned (a : A)
| Raised (e : JSError).
Arguments Returned {A} a.
Arguments Raised {A} e.

Inductive ItemType := Product | Outreach | Template | Faq.

Record ItemMetadata := mkItemMetadata {
  type : ItemType;
  tags : list string;
  priority : nat;
  context : option string
}.

(** [Omit<KnowledgeItem, 'id'>]. *)
Record KnowledgeItem := mkKnowledgeItem {
  ki_content : string;
  ki_category : string;
  ki_metadata : ItemMetadata
}.

(** [Omit<ReplyTemplate, 'id'>]; also the metadata stored with a template. *)
Record ReplyTemplate := mkReplyTemplate {
  scenario : string;
  template : string;
  variables : list string;
  category : string
}.

(** A row of a ChromaDB collection: id, document, metadata, embedding. *)
Record Row (Meta : Type) := mkRow {
  row_id : nat;
  row_document : string;
  row_metadata : Meta;
  row_embedding : list R
}.
Arguments mkRow {Meta}.
Arguments row_id {Meta}.
Arguments row_document {Meta}.
Arguments row_metadata {Meta}.
Arguments row_embedding {Meta}.

(** The fields of the [VectorService] object, followed by the part of the
    world the services act on: the clock, the number of requests sent so far
    to each collaborator, the supply of fresh identifiers and the contents of
    the two ChromaDB collections. *)
Record State := mkState {
  rateLimitDelay : Q;
  lastRequestTime : Q;
  isConnected : bool;
  now : Q;
  embeddingRequests : nat;
  chatRequests : nat;
  chromaRequests : nat;
  uuids : nat;
  knowledge_base : list (Row ItemMetadata);
  reply_templates : list (Row ReplyTemplate)
}.

Inductive EmbeddingReply :=
| Embedded (embedding : list R)
| EmbeddingFailed (e : JSError).

(** [choices[0].message?.content] of a chat completion; a response without
    choices makes the access throw inside the caller's [try] and counts as
    [ChatFailed]. *)
Inductive ChatReply :=
| ChatContent (content : option string)
| ChatFailed (e : JSError).

(** One hit of a ChromaDB query: document, metadata and cosine distance. *)
Record Hit (Meta : Type) := mkHit {
  hit_document : string;
  hit_metadata : Meta;
  hit_distance : Q
}.
Arguments mkHit {Meta}.
Arguments hit_document {Meta}.
Arguments hit_metadata {Meta}.
Arguments hit_distance {Meta}.

(** The collaborators.  Each answers the n-th request it receives:
    [embeddingsCreate n text] is the embeddings endpoint, [chatCreate n prompt]
    the chat endpoint, [chromaUp n] tells whether ChromaDB serves its n-th
    request, and the two rankings are what a served query returns for
    [queryTexts: [query], nResults: limit]. *)
Record Env := mkEnv {
  embeddingsCreate : nat -> string -> EmbeddingReply;
  chatCreate : nat -> string -> ChatReply;
  chromaUp : nat -> bool;
  knowledgeRanking : nat -> string -> nat -> list (Hit ItemMetadata);
  templateRanking : nat -> string -> nat -> list (Hit ReplyTemplate);
  MEETING_LINK : option string
}.

Definition set_rateLimitDelay (d : Q) (st : State) : State :=
  mkState d (lastRequestTime st) (isConnected st) (now st) (embeddingRequests st)
    (chatRequests st) (chromaRequests st) (uuids st) (knowledge_base st) (reply_templates st).
Definition set_lastRequestTime (t : Q) (st : State) : State :=
  mkState (rateLimitDelay st) t (isConnected st) (now st) (embeddingRequests st)
    (chatRequests st) (chromaRequests st) (uuids st) (knowledge_base st) (reply_templates st).
Definition set_isConnected (b : bool) (st : State) : State :=
  mkState (rateLimitDelay st) (lastRequestTime st) b (now st) (embeddingRequests st)
    (chatRequests st) (chromaRequests st) (uuids st) (knowledge_base st) (reply_templates st).
Definition set_now (t : Q) (st : State) : State :=
  mkState (rateLimitDelay st) (lastRequestTime st) (isConnected st) t (embeddingRequests st)
    (chatRequests st) (chromaRequests st) (uuids st) (knowledge_base st) (reply_templates st).
Definition set_embeddingRequests (n : nat) (st : State) : State :=
  mkState (rateLimitDelay st) (lastRequestTime st) (isConnected st) (now st) n
    (chatRequests st) (chromaRequests st) (uuids st) (knowledge_base st) (reply_templates st).
Definition set_chatRequests (n : nat) (st : State) : State :=
  mkState (rateLimitDelay st) (lastRequestTime st) (isConnected st) (now st) (embeddingRequests st)
    n (chromaRequests st) (uuids st) (knowledge_base st) (reply_templates st).
Definition set_chromaRequests (n : nat) (st : State) : State :=
  mkState (rateLimitDelay st) (lastRequestTime st) (isConnected st) (now st) (embeddingRequests st)
    (chatRequests st) n (uuids st) (knowledge_base st) (reply_templates st).
Definition set_uuids (n : nat) (st : State) : State :=
  mkState (rateLimitDelay st) (lastRequestTime st) (isConnected st) (now st) (embeddingRequests st)
    (chatRequests st) (chromaRequests st) n (knowledge_base st) (reply_templates st).
Definition set_knowledge_base (l : list (Row ItemMetadata)) (st : State) : State :=
  mkState (rateLimitDelay st) (lastRequestTime st) (isConnected st) (now st) (embeddingRequests st)
    (chatRequests st) (chromaRequests st) (uuids st) l (reply_templates st).
Definition set_reply_templates (l : list (Row ReplyTemplate)) (st : State) : State :=
  mkState (rateLimitDelay st) (lastRequestTime st) (isConnected st) (now st) (embeddingRequests st)
    (chatRequests st) (chromaRequests st) (uuids st) (knowledge_base st) l.

(** A computation that reads and writes the state and returns or throws. *)
Definition M (A : Type) : Type := State -> outcome A * State.

Definition ret {A} (a : A) : M A := fun st => (Returned a, st).
Definition throw {A} (e : JSError) : M A := fun st => (Raised e, st).
Definition bind {A B} (m : M A) (k : A -> M B) : M B :=
  fun st =>
    match m st with
    | (Returned a, st') => k a st'
    | (Raised e, st') => (Raised e, st')
    end.
(** [try { m } catch (error) { handler error }]. *)
Definition tryCatch {A} (m : M A) (handler : JSError -> M A) : M A :=
  fun st =>
    match m st with
    | (Returned a, st') => (Returned a, st')
    | (Raised e, st') => handler e st'
    end.
Definition gets {A} (f : State -> A) : M A := fun st => (Returned (f st), st).
Definition modify (f : State -> State) : M unit := fun st => (Returned tt, f st).

Declare Scope exec_scope.
Delimit Scope exec_scope with exec.
Notation "x <- m ;; k" := (bind m (fun x => k))
  (at level 61, m at next level, right associativity) : exec_scope.
Notation "m ;;; k" := (bind m (fun _ => k))
  (at level 61, right associativity) : exec_scope.
Open Scope exec_scope.

Definition Qgtb (a b : Q) : bool := negb (Qle_bool a b).
Definition Qltb (a b : Q) : bool := negb (Qle_bool b a).

(** [await new Promise(resolve => setTimeout(resolve, ms))]: the clock moves
    on by [ms]. *)
Definition sleep (ms : Q) : M unit := modify (fun st => set_now (now st + ms)%Q st).

(** [Date.now()]: whole milliseconds. *)
Definition dateNow : M Z := gets (fun st => Qfloor (now st)).

(** [uuidv4()]. *)
Definition uuidv4 : M nat :=
  fun st => (Returned (uuids st), set_uuids (S (uuids st)) st).

(** One request to ChromaDB: counted, and rejected when the server does not
    serve it. *)
Definition chromaRequest (env : Env) : M unit :=
  fun st =>
    let st' := set_chromaRequests (S (chromaRequests st)) st in
    if chromaUp env (chromaRequests st) then (Returned tt, st')
    else (Raised (mkError None None "Failed to connect to chromadb"), st').

(* ------------------------------------------------------------------ *)
(** ** services/vector.service.ts *)

Module VectorService.

(** The state of a freshly constructed service in a world [w]. *)
Definition construct (w : State) : State :=
  set_isConnected false (set_lastRequestTime 0 (set_rateLimitDelay 1000 w)).

(** *** Rate limiting *)

Definition waitForRateLimit : M unit :=
  now <- dateNow ;;
  lastRequestTime <- gets lastRequestTime ;;
  rateLimitDelay <- gets rateLimitDelay ;;
  let timeSinceLastRequest := (inject_Z now - lastRequestTime)%Q in
  (if Qltb timeSinceLastRequest rateLimitDelay
   then sleep (rateLimitDelay - timeSinceLastRequest)%Q
   else ret tt) ;;;
  now' <- dateNow ;;
  modify (set_lastRequestTime (inject_Z now')).

(** *** The fallback embedding *)

(** [embedding[index] += x].  The index the loop computes is below the
    length of the array; outside it the list is left as it is. *)
Fixpoint addAt (index : nat) (x : R) (embedding : list R) {struct embedding} : list R :=
  match embedding, index with
  | [], _ => []
  | val :: rest, O => (val + x)%R :: rest
  | val :: rest, S k => val :: addAt k x rest
  end.

(** The [for] loop from position [i] on, over the rest of the text. *)
Fixpoint hashLoop (i : nat) (text : string) (embedding : list R) : list R :=
  match text with
  | EmptyString => embedding
  | String c rest =>
      let char := JS.charCode c in
      let index := (char + i) mod (List.length embedding) in
      hashLoop (S i) rest (addAt index (sin (INR (char * i)) * 0.01)%R embedding)
  end.

Definition sumSquares (embedding : list R) : R :=
  fold_left (fun sum val => (sum + val * val)%R) embedding 0%R.

Definition generateFallbackEmbedding (text : string) : list R :=
  let embedding := hashLoop 0 text (repeat 0%R 1536) in
  let magnitude := sqrt (sumSquares embedding) in
  if Rlt_dec 0 magnitude
  then map (fun val => (val / magnitude)%R) embedding
  else embedding.

(** *** Embeddings with retry *)

Definition maxRetries : nat := 3.

Definition is429 (e : JSError) : bool :=
  match status e with
  | Some s => Z.eqb s 429
  | None => false
  end.

Definition isInsufficientQuota (e : JSError) : bool :=
  match code e with
  | Some c => String.eqb c "insufficient_quota"
  | None => false
  end.

(** [this.openai.embeddings.create]: the next request to the endpoint. *)
Definition embeddingsRequest (env : Env) (text : string) : M (list R) :=
  fun st =>
    let st' := set_embeddingRequests (S (embeddingRequests st)) st in
    match embeddingsCreate env (embeddingRequests st) text with
    | Embedded v => (Returned v, st')
    | EmbeddingFailed e => (Raised e, st')
    end.

(** The [while (retries < maxRetries)] loop, entered with
    [retries = maxRetries - remaining]. *)
Fixpoint retryLoop (env : Env) (text : string) (remaining : nat) : M (list R) :=
  match remaining with
  | O => ret (generateFallbackEmbedding text)
  | S remaining' =>
      done <- tryCatch
        (waitForRateLimit ;;;
         embedding <- embeddingsRequest env text ;;
         modify (fun st => set_rateLimitDelay (Qmax 1000 (rateLimitDelay st * 0.9)) st) ;;;
         ret (Some embedding))
        (fun error =>
           if is429 error then
             modify (fun st => set_rateLimitDelay (Qmin 30000 (rateLimitDelay st * 2)) st) ;;;
             match remaining' with
             | S _ =>
                 delay <- gets rateLimitDelay ;;
                 sleep delay ;;;
                 ret None
             | O => ret (Some (generateFallbackEmbedding text))
             end
           else if isInsufficientQuota error then
             ret (Some (generateFallbackEmbedding text))
           else throw error) ;;
      match done with
      | Some embedding => ret embedding
      | None => retryLoop env text remaining'
      end
  end.

Definition generateEmbeddings (env : Env) (text : string) : M (list R) :=
  retryLoop env text maxRetries.

(** [CustomEmbeddingFunction.generate]. *)
Fixpoint generate (env : Env) (texts : list string) : M (list (list R)) :=
  match texts with
  | [] => ret []
  | text :: rest =>
      embedding <- tryCatch (generateEmbeddings env text)
                     (fun _ => ret (generateFallbackEmbedding text)) ;;
      embeddings <- generate env rest ;;
      ret (embedding :: embeddings)
  end.

(** *** The knowledge store *)

Record KnowledgeResult := mkKnowledgeResult {
  kr_content : string;
  kr_metadata : ItemMetadata;
  kr_similarity : Q
}.

Record TemplateResult := mkTemplateResult {
  tr_scenario : string;
  tr_template : string;
  tr_variables : list string;
  tr_category : string;
  tr_similarity : Q
}.

Record Stats := mkStats {
  knowledgeItems : nat;
  replyTemplates : nat;
  serviceStatus : string
}.

Fixpoint forEach {A B} (l : list A) (f : A -> M B) : M unit :=
  match l with
  | [] => ret tt
  | x :: rest => f x ;;; forEach rest f
  end.

(** [getOrCreateCollection] for both collections. *)
Definition initializeCollections (env : Env) : M unit :=
  chromaRequest env ;;;
  chromaRequest env.

(** [collection.add] with one document: the client embeds the document
    with the custom embedding function, then sends the row. *)
Definition collectionAdd {Meta} (env : Env) (store : Row Meta -> State -> State)
    (id : nat) (document : string) (metadata : Meta) : M unit :=
  embeddings <- generate env [document] ;;
  chromaRequest env ;;;
  modify (store (mkRow id document metadata (hd [] embeddings))).

(** [collection.query] with one query text: the client embeds the text,
    then the server ranks. *)
Definition collectionQuery {Meta} (env : Env)
    (ranking : nat -> string -> nat -> list (Hit Meta))
    (query : string) (limit : nat) : M (list (Hit Meta)) :=
  generate env [query] ;;;
  n <- gets chromaRequests ;;
  chromaRequest env ;;;
  ret (ranking n query limit).

(** [collection.count]. *)
Definition collectionCount {Meta} (env : Env) (rows : State -> list (Row Meta)) : M nat :=
  chromaRequest env ;;;
  gets (fun st => List.length (rows st)).

Definition addKnowledgeItem (env : Env) (item : KnowledgeItem) : M nat :=
  id <- uuidv4 ;;
  connected <- gets isConnected ;;
  if negb connected then ret id
  else
    collectionAdd env (fun row st => set_knowledge_base (knowledge_base st ++ [row]) st)
      id (ki_content item) (ki_metadata item) ;;;
    ret id.

Definition addReplyTemplate (env : Env) (replyTemplate : ReplyTemplate) : M nat :=
  id <- uuidv4 ;;
  let searchText := scenario replyTemplate ++ " " ++ template replyTemplate in
  connected <- gets isConnected ;;
  if negb connected then ret id
  else
    collectionAdd env (fun row st => set_reply_templates (reply_templates st ++ [row]) st)
      id searchText
      (mkReplyTemplate (scenario replyTemplate) (template replyTemplate)
         (variables replyTemplate) (category replyTemplate)) ;;;
    ret id.

Definition getFallbackKnowledge (_query : string) (limit : nat) : list KnowledgeResult :=
  let fallbackItems :=
    [ mkKnowledgeResult
        "Our AI-powered email management platform OneBox-AI helps businesses organize, classify, and respond to emails intelligently using machine learning."
        (mkItemMetadata Product ["AI"; "email"; "management"] 1 None)
        0.8;
      mkKnowledgeResult
        "Key features: Multi-account IMAP sync, AI email classification, Elasticsearch integration, webhook notifications, modern React frontend, dark/light themes."
        (mkItemMetadata Product ["features"; "IMAP"; "AI"] 1 None)
        0.7;
      mkKnowledgeResult
        "Technical stack: Node.js, Express, TypeScript, React 18, Elasticsearch, Hugging Face AI, ChromaDB for vector search."
        (mkItemMetadata Product ["tech stack"; "Node.js"; "React"] 2 None)
        0.6 ] in
  firstn limit fallbackItems.

Definition getFallbackReplyTemplates (_query : string) (limit : nat) : list TemplateResult :=
  let fallbackTemplates :=
    [ mkTemplateResult
        "Job application follow-up when interviewer shows interest"
        "Thank you for your interest in my application! I'm excited about the opportunity to discuss how I can contribute to your team. You can schedule a convenient time for our interview here: https://cal.com/example"
        ["meeting_link"]
        "job_interview"
        0.8;
      mkTemplateResult
        "Product demo request from potential client"
        "Thank you for your interest in OneBox-AI! I'd be delighted to show you how our AI-powered email management platform can streamline your workflow. You can book a demo session here: https://cal.com/example"
        ["meeting_link"; "product_name"]
        "sales_demo"
        0.7 ] in
  firstn limit fallbackTemplates.

Definition searchKnowledge (env : Env) (query : string) (limit : nat)
  : M (list KnowledgeResult) :=
  connected <- gets isConnected ;;
  if negb connected then ret (getFallbackKnowledge query limit)
  else
    results <- collectionQuery env (knowledgeRanking env) query limit ;;
    ret (map (fun hit =>
                mkKnowledgeResult (hit_document hit) (hit_metadata hit)
                  (1 - hit_distance hit))
             results).

Definition searchReplyTemplates (env : Env) (query : string) (limit : nat)
  : M (list TemplateResult) :=
  connected <- gets isConnected ;;
  if negb connected then ret (getFallbackReplyTemplates query limit)
  else
    results <- collectionQuery env (templateRanking env) query limit ;;
    ret (map (fun hit =>
                let metadata := hit_metadata hit in
                mkTemplateResult (scenario metadata) (template metadata)
                  (variables metadata) (category metadata)
                  (1 - hit_distance hit))
             results).

Definition getStats (env : Env) : M Stats :=
  connected <- gets isConnected ;;
  if negb connected then ret (mkStats 0 0 "disconnected")
  else
    knowledgeCount <- collectionCount env knowledge_base ;;
    templatesCount <- collectionCount env reply_templates ;;
    ret (mkStats knowledgeCount templatesCount "active").

Definition productInfo : list KnowledgeItem :=
  [ mkKnowledgeItem
      "Our AI-powered email management platform OneBox-AI helps businesses organize, classify, and respond to emails intelligently using machine learning."
      "product_overview"
      (mkItemMetadata Product ["AI"; "email"; "management"; "automation"] 1 None);
    mkKnowledgeItem
      "Key features: Multi-account IMAP sync, AI email classification, Elasticsearch integration, webhook notifications, modern React frontend, dark/light themes."
      "product_features"
      (mkItemMetadata Product ["features"; "IMAP"; "AI"; "frontend"] 1 None);
    mkKnowledgeItem
      "Technical stack: Node.js, Express, TypeScript, React 18, Elasticsearch, Hugging Face AI, ChromaDB for vector search."
      "technical_specs"
      (mkItemMetadata Product ["tech stack"; "Node.js"; "React"; "AI"] 2 None) ].

Definition outreachTemplates : list ReplyTemplate :=
  [ mkReplyTemplate
      "Job application follow-up when interviewer shows interest"
      "Thank you for your interest in my application! I'm excited about the opportunity to discuss how I can contribute to your team. You can schedule a convenient time for our interview here: https://cal.com/example"
      ["meeting_link"]
      "job_interview";
    mkReplyTemplate
      "Meeting request response for project collaboration"
      "I'd be happy to discuss the collaboration opportunity! Please find my available slots for a meeting: https://cal.com/example"
      ["meeting_link"; "project_name"]
      "collaboration";
    mkReplyTemplate
      "Product demo request from potential client"
      "Thank you for your interest in OneBox-AI! I'd be delighted to show you how our AI-powered email management platform can streamline your workflow. You can book a demo session here: https://cal.com/example"
      ["meeting_link"; "product_name"]
      "sales_demo";
    mkReplyTemplate
      "Technical support inquiry response"
      "I'd be happy to help you with your technical question about OneBox-AI. Let's schedule a quick call to discuss your specific needs: https://cal.com/example"
      ["meeting_link"; "issue_type"]
      "technical_support" ].

Definition seedKnowledgeBase (env : Env) : M unit :=
  connected <- gets isConnected ;;
  if negb connected then ret tt
  else
    forEach productInfo (addKnowledgeItem env) ;;;
    forEach outreachTemplates (addReplyTemplate env).

Definition initialize (env : Env) : M unit :=
  tryCatch
    (initializeCollections env ;;;
     modify (set_isConnected true) ;;;
     tryCatch
       (stats <- getStats env ;;
        if knowledgeItems stats =? 0 then seedKnowledgeBase env else ret tt)
       (fun _ => seedKnowledgeBase env))
    (fun _ => modify (set_isConnected false)).

End VectorService.

(* ------------------------------------------------------------------ *)
(** ** The reply service (class [RAGService]) *)

Module RAGService.

Import VectorService.

Record EmailContext := mkEmail {
  subject : string;
  body : string;
  from : string;
  to : list string;
  date : string
}.

Inductive Tone := professional | friendly | formal.

Record ReplyContext := mkReplyContext {
  relevantKnowledge : list KnowledgeResult;
  matchedTemplate : option TemplateResult;
  reasoning : string
}.

Record ReplyMetadata := mkReplyMetadata {
  reply_category : string;
  tone : Tone;
  action_required : bool;
  estimated_response_time : string
}.

Record SuggestedReply := mkReply {
  reply_id : string;
  content : string;
  confidence : Q;
  reply_context : ReplyContext;
  reply_metadata : ReplyMetadata
}.

(** [this.openai.chat.completions.create] followed by
    [response.choices[0].message?.content]. *)
Definition chatRequest (env : Env) (prompt : string) : M (option string) :=
  fun st =>
    let st' := set_chatRequests (S (chatRequests st)) st in
    match chatCreate env (chatRequests st) prompt with
    | ChatContent c => (Returned c, st')
    | ChatFailed e => (Raised e, st')
    end.

(** [content?.trim() || fallback]. *)
Definition trimmedOr (content : option string) (fallback : string) : string :=
  match content with
  | Some c => JS.orElse (JS.trim c) fallback
  | None => fallback
  end.

Definition analyzeEmailIntent (env : Env) (email : EmailContext) : M string :=
  let prompt :=
    JS.join JS.nl
      [ "";
        "Analyze this email and classify the intent in one sentence:";
        "";
        "Subject: " ++ subject email;
        "From: " ++ from email;
        "Content: " ++ body email;
        "";
        "What is the main intent or request in this email? Respond with a single sentence describing the intent.";
        "" ] in
  tryCatch
    (response <- chatRequest env prompt ;;
     ret (trimmedOr response "General inquiry"))
    (fun _ => ret "General inquiry").

Definition categorizeEmail (email : EmailContext) (_intent : string) : string :=
  let subject := JS.toLowerCase (subject email) in
  let body := JS.toLowerCase (body email) in
  if JS.includes subject "interview" || JS.includes body "interview" then "job_interview"
  else if JS.includes subject "meeting" || JS.includes body "meeting" then "meeting"
  else if JS.includes subject "demo" || JS.includes body "demo" then "sales_demo"
  else if JS.includes subject "support" || JS.includes body "help" then "technical_support"
  else if JS.includes subject "collaboration" || JS.includes body "project" then "collaboration"
  else "general".

Definition generateTemplateBasedReply (env : Env) (email : EmailContext)
    (template : TemplateResult) (knowledgeResults : list KnowledgeResult)
  : M SuggestedReply :=
  let variables :=
    [ ("meeting_link",
        JS.orElse (match MEETING_LINK env with Some v => v | None => "" end)
          "https://cal.com/example");
      ("product_name", "OneBox-AI");
      ("sender_name", JS.orElse (JS.splitHead "@" (from email)) "there") ] in
  let customizedReply :=
    fold_left
      (fun customizedReply '(key, value) =>
         JS.replaceAll ("{{" ++ key ++ "}}") value customizedReply)
      variables (tr_template template) in
  now <- dateNow ;;
  ret (mkReply
         ("template_" ++ JS.showZ now)
         customizedReply
         (tr_similarity template)
         (mkReplyContext
            (firstn 2 knowledgeResults)
            (Some template)
            ("Matched template for " ++ tr_category template ++ " scenario with "
               ++ JS.showZ (JS.round (tr_similarity template * 100)) ++ "% confidence"))
         (mkReplyMetadata
            (tr_category template)
            professional
            (JS.includes customizedReply "http")
            "immediate")).

Definition generateAIContextualReply (env : Env) (email : EmailContext)
    (knowledgeResults : list KnowledgeResult) (templateResults : list TemplateResult)
    (intent : string) : M SuggestedReply :=
  let contextInfo := JS.join JS.nl (map kr_content knowledgeResults) in
  let templateContext :=
    JS.join (JS.nl ++ JS.nl)
      (map (fun t => "Scenario: " ++ tr_scenario t ++ JS.nl ++ "Template: " ++ tr_template t)
         templateResults) in
  let prompt :=
    JS.join JS.nl
      [ "";
        "You are an AI assistant helping to compose professional email replies. ";
        "";
        "CONTEXT INFORMATION:";
        contextInfo;
        "";
        "AVAILABLE TEMPLATES:";
        templateContext;
        "";
        "INCOMING EMAIL:";
        "Subject: " ++ subject email;
        "From: " ++ from email;
        "Content: " ++ body email;
        "";
        "DETECTED INTENT: " ++ intent;
        "";
        "Generate a professional, contextual reply that:";
        "1. Acknowledges the sender's message appropriately";
        "2. Uses relevant information from the context when applicable";
        "3. Maintains a professional but friendly tone";
        "4. Includes specific details or links when relevant (e.g., https://cal.com/example for meetings)";
        "5. Is concise and actionable";
        "";
        "Reply:";
        "" ] in
  tryCatch
    (response <- chatRequest env prompt ;;
     let content :=
       trimmedOr response
         "Thank you for your email. I'll review your message and respond accordingly." in
     now <- dateNow ;;
     ret (mkReply
            ("ai_" ++ JS.showZ now)
            content
            0.8
            (mkReplyContext
               knowledgeResults
               (hd_error templateResults)
               "AI-generated response using retrieved context and templates")
            (mkReplyMetadata
               (categorizeEmail email intent)
               professional
               (JS.includes content "http" || JS.includes content "schedule")
               "immediate")))
    (fun error => throw error).

Definition generateQuickResponse (email : EmailContext) (_intent : string)
  : M (option SuggestedReply) :=
  let subject := JS.toLowerCase (subject email) in
  let body := JS.toLowerCase (body email) in
  if JS.includes subject "thank" || JS.includes body "thank you" then
    now <- dateNow ;;
    ret (Some (mkReply
                 ("quick_" ++ JS.showZ now)
                 "You're welcome! Feel free to reach out if you have any other questions."
                 0.9
                 (mkReplyContext [] None "Quick response for thank you message")
                 (mkReplyMetadata "acknowledgment" friendly false "immediate")))
  else if JS.includes subject "confirm" || JS.includes body "confirm" then
    now <- dateNow ;;
    ret (Some (mkReply
                 ("quick_" ++ JS.showZ now)
                 "Confirmed! I'll make a note of this. Thank you for letting me know."
                 0.8
                 (mkReplyContext [] None "Quick response for confirmation request")
                 (mkReplyMetadata "confirmation" professional false "immediate")))
  else ret None.

Definition fallbackReply : SuggestedReply :=
  mkReply
    "fallback"
    "Thank you for your email. I will review your message and get back to you soon."
    0.5
    (mkReplyContext [] None "Fallback response due to processing error")
    (mkReplyMetadata "general" professional true "24 hours").

(** The body of the [try] block of [generateReplySuggestions].  The two
    searches of [Promise.all] are run one after the other: when the first
    throws, [Promise.all] rejects with its error, as here. *)
Definition suggest (env : Env) (email : EmailContext) : M (list SuggestedReply) :=
  intent <- analyzeEmailIntent env email ;;
  let searchQuery := subject email ++ " " ++ body email ++ " " ++ intent in
  knowledgeResults <- searchKnowledge env searchQuery 3 ;;
  templateResults <- searchReplyTemplates env searchQuery 2 ;;
  let suggestions : list SuggestedReply := [] in
  suggestions <-
    match templateResults with
    | top :: _ =>
        if Qgtb (tr_similarity top) 0.7 then
          templateSuggestion <- generateTemplateBasedReply env email top knowledgeResults ;;
          ret (suggestions ++ [templateSuggestion])%list
        else ret suggestions
    | [] => ret suggestions
    end ;;
  aiSuggestion <- generateAIContextualReply env email knowledgeResults templateResults intent ;;
  let suggestions := (suggestions ++ [aiSuggestion])%list in
  quickResponse <- generateQuickResponse email intent ;;
  let suggestions :=
    match quickResponse with
    | Some quick => (suggestions ++ [quick])%list
    | None => suggestions
    end in
  ret suggestions.

Definition generateReplySuggestions (env : Env) (email : EmailContext)
  : M (list SuggestedReply) :=
  tryCatch (suggest env email) (fun _ => ret [fallbackReply]).

End RAGService.

(* ------------------------------------------------------------------ *)
(** ** The API server (index.ts): the two endpoints over the reply service *)

Module Server.

Import VectorService RAGService.

(** [RAGService.getStats]: the statistics of the vector service spread into
    an object with three fixed fields. *)
Record RagStats := mkRagStats {
  vectorStats : Stats;
  ragService : string;
  llmModel : string;
  embeddingModel : string
}.

Definition ragGetStats (env : Env) : M RagStats :=
  vectorStats <- getStats env ;;
  ret (mkRagStats vectorStats "active" "gpt-3.5-turbo" "text-embedding-ada-002").

(** The JSON body of a request to [/api/suggest-replies]: a field that is
    absent or [null] is [None]. *)
Record SuggestBody := mkSuggestBody {
  body_subject : option string;
  body_body : option string;
  body_from : option string;
  body_to : option (list string);
  body_date : option string
}.

(** What [res.json] sends.  [generated_at] is the instant of
    [new Date()]; its rendering by [toISOString] is not modelled. *)
Inductive Payload :=
| Suggestions (success : bool) (email_id : string) (suggestions : list SuggestedReply)
    (generated_at : Z)
| Statistics (stats : RagStats)
| Failure (error : string) (details : option string).

Record Response := mkResponse {
  statusCode : nat;
  payload : Payload
}.

(** [!field]: absent, [null] and the empty string are falsy. *)
Definition missing (field : option string) : bool :=
  match field with
  | Some (String _ _) => false
  | _ => true
  end.

Definition orEmpty (field : option string) : string :=
  match field with
  | Some s => s
  | None => EmptyString
  end.

(** The body read as an [EmailContext], once the three required fields are
    there.  The reply service reads neither [to] nor [date]; absent, they are
    taken as empty. *)
Definition emailOf (body : SuggestBody) : EmailContext :=
  mkEmail (orEmpty (body_subject body)) (orEmpty (body_body body)) (orEmpty (body_from body))
    (match body_to body with Some to => to | None => [] end)
    (orEmpty (body_date body)).

(** [app.post('/api/suggest-replies', ...)]. *)
Definition suggestReplies (env : Env) (body : SuggestBody) : M Response :=
  tryCatch
    (let email := emailOf body in
     if missing (body_subject body) || missing (body_body body) || missing (body_from body)
     then ret (mkResponse 400
                 (Failure "Missing required email fields: subject, body, from" None))
     else
       suggestions <- generateReplySuggestions env email ;;
       now <- dateNow ;;
       ret (mkResponse 200 (Suggestions true (subject email) suggestions now)))
    (fun error =>
       ret (mkResponse 500
              (Failure "Failed to generate reply suggestions" (Some (message error))))).

(** [app.get('/api/rag-stats', ...)]. *)
Definition ragStats (env : Env) : M Response :=
  tryCatch
    (stats <- ragGetStats env ;;
     ret (mkResponse 200 (Statistics stats)))
    (fun error =>
       ret (mkResponse 500 (Failure "Failed to get RAG statistics" (Some (message error))))).

End Server.

(* ------------------------------------------------------------------ *)
(** ** The frontend callers (services/api.ts, components/ReplySuggestions.tsx) *)

Module Frontend.

Import RAGService.

(** How a request ends for axios: without an answer (no connection, the
    10 s timeout), or with the server's response. *)
Inductive HttpResult :=
| NoResponse (message : string)
| Answered (response : Server.Response).

(** The error axios rejects with: its message and, when the server answered,
    the response. *)
Record AxiosError := mkAxiosError {
  ax_message : string;
  ax_response : option Server.Response
}.

Definition showCount (n : nat) : string := NilZero.string_of_uint (Nat.to_uint n).

(** [api.post]: axios resolves on a status from 200 to 299 and rejects
    otherwise. *)
Definition post (result : HttpResult) : AxiosError + Server.Response :=
  match result with
  | NoResponse message => inl (mkAxiosError message None)
  | Answered response =>
      if (200 <=? Server.statusCode response) && (Server.statusCode response <? 300)
      then inr response
      else inl (mkAxiosError
                  ("Request failed with status code " ++ showCount (Server.statusCode response))
                  (Some response))
  end.

(** [error.response?.data?.error]. *)
Definition responseError (error : AxiosError) : option string :=
  match ax_response error with
  | Some response =>
      match Server.payload response with
      | Server.Failure e _ => Some e
      | _ => None
      end
  | None => None
  end.

(** [emailService.generateReplySuggestions]: the suggestions, or the message
    of the [Error] it throws. *)
Definition generateReplySuggestions (result : HttpResult) : string + list SuggestedReply :=
  let attempt : AxiosError + list SuggestedReply :=
    match post result with
    | inl error => inl error
    | inr response =>
        match Server.payload response with
        | Server.Suggestions true _ suggestions _ => inr suggestions
        | _ => inl (mkAxiosError "Failed to generate reply suggestions" None)
        end
    end in
  match attempt with
  | inr suggestions => inr suggestions
  | inl error =>
      inl ("Failed to generate reply suggestions: "
             ++ JS.orElse (match responseError error with Some e => e | None => "" end)
                  (ax_message error))
  end.

Inductive Toast :=
| ToastSuccess (text : string)
| ToastInfo (text : string)
| ToastError (text : string).

(** [generateSuggestions] of the component, for a selected email: the new
    value of the [suggestions] state and the toast shown. *)
Definition generateSuggestions (suggestions : list SuggestedReply) (result : HttpResult)
  : list SuggestedReply * Toast :=
  match generateReplySuggestions result with
  | inr replySuggestions =>
      (replySuggestions,
       if 0 <? List.length replySuggestions
       then ToastSuccess ("Generated " ++ showCount (List.length replySuggestions)
                            ++ " reply suggestions")
       else ToastInfo "No reply suggestions available for this email")
  | inl message => (suggestions, ToastError ("Failed to generate suggestions: " ++ message))
  end.

Definition getConfidenceColor (confidence : Q) : string :=
  if Qle_bool 0.8 confidence then "#10b981"
  else if Qle_bool 0.6 confidence then "#f59e0b"
  else "#ef4444".

End Frontend.

(* ------------------------------------------------------------------ *)
(** ** Auxiliary notions for the statements *)

Import VectorService RAGService.

(** The value a run returned; [default] when it threw. *)
Definition returned {A} (default : A) (run : outcome A * State) : A :=
  match fst run with
  | Returned a => a
  | Raised _ => default
  end.

(** The strategy a suggestion comes from shows in its id. *)
Definition isTemplateSuggestion (r : SuggestedReply) : bool :=
  JS.startsWith (reply_id r) "template_".
Definition isAISuggestion (r : SuggestedReply) : bool :=
  JS.startsWith (reply_id r) "ai_".
Definition isQuickSuggestion (r : SuggestedReply) : bool :=
  JS.startsWith (reply_id r) "quick_".

(** The gate of the template strategy on a list of template results. *)
Definition templateGate (templateResults : list TemplateResult) : Prop :=
  exists top rest, templateResults = top :: rest /\ (0.7 < tr_similarity top)%Q.

(** The values substituted for the placeholders of a template. *)
Definition meetingLink (env : Env) : string :=
  JS.orElse (match MEETING_LINK env with Some v => v | None => "" end)
    "https://cal.com/example".
Definition senderName (email : EmailContext) : string :=
  JS.orElse (JS.splitHead "@" (from email)) "there".

Fixpoint noDollar (s : string) : bool :=
  match s with
  | EmptyString => true
  | String c rest => negb (Ascii.eqb c "$") && noDollar rest
  end.

(** The two patterns of the quick response, as the code tests them. *)
Definition thanksPattern (email : EmailContext) : bool :=
  JS.includes (JS.toLowerCase (subject email)) "thank"
  || JS.includes (JS.toLowerCase (body email)) "thank you".
Definition confirmPattern (email : EmailContext) : bool :=
  JS.includes (JS.toLowerCase (subject email)) "confirm"
  || JS.includes (JS.toLowerCase (body email)) "confirm".

(** The query both searches are given. *)
Definition searchQueryOf (email : EmailContext) (intent : string) : string :=
  subject email ++ " " ++ body email ++ " " ++ intent.

(** What the template strategy contributes for the results [templateResults],
    run in state [st]. *)
Definition templatePart (env : Env) (email : EmailContext)
    (knowledgeResults : list KnowledgeResult) (templateResults : list TemplateResult)
    (st : State) (part : list SuggestedReply) : Prop :=
  match templateResults with
  | top :: _ =>
      if Qgtb (tr_similarity top) 0.7
      then exists r,
             generateTemplateBasedReply env email top knowledgeResults st = (Returned r, st)
             /\ part = [r]
      else part = []
  | [] => part = []
  end.

(** What the quick-response strategy contributes. *)
Definition quickPart (email : EmailContext) (intent : string) (st : State)
    (part : list SuggestedReply) : Prop :=
  exists q,
    generateQuickResponse email intent st = (Returned q, st)
    /\ part = match q with Some r => [r] | None => [] end.

(** The four ways the [try] block of [generateReplySuggestions] can end. *)
Inductive Trace (env : Env) (email : EmailContext) (st : State)
  : outcome (list SuggestedReply) * State -> Prop :=
| KnowledgeSearchThrows intent st1 e st2 :
    analyzeEmailIntent env email st = (Returned intent, st1) ->
    searchKnowledge env (searchQueryOf email intent) 3 st1 = (Raised e, st2) ->
    Trace env email st (Raised e, st2)
| TemplateSearchThrows intent st1 knowledgeResults st2 e st3 :
    analyzeEmailIntent env email st = (Returned intent, st1) ->
    searchKnowledge env (searchQueryOf email intent) 3 st1 = (Returned knowledgeResults, st2) ->
    searchReplyTemplates env (searchQueryOf email intent) 2 st2 = (Raised e, st3) ->
    Trace env email st (Raised e, st3)
| AIReplyThrows intent st1 knowledgeResults st2 templateResults st3 e st4 :
    analyzeEmailIntent env email st = (Returned intent, st1) ->
    searchKnowledge env (searchQueryOf email intent) 3 st1 = (Returned knowledgeResults, st2) ->
    searchReplyTemplates env (searchQueryOf email intent) 2 st2 = (Returned templateResults, st3) ->
    generateAIContextualReply env email knowledgeResults templateResults intent st3
      = (Raised e, st4) ->
    Trace env email st (Raised e, st4)
| Synthesized intent st1 knowledgeResults st2 templateResults st3 ai st4 tp qp :
    analyzeEmailIntent env email st = (Returned intent, st1) ->
    searchKnowledge env (searchQueryOf email intent) 3 st1 = (Returned knowledgeResults, st2) ->
    searchReplyTemplates env (searchQueryOf email intent) 2 st2 = (Returned templateResults, st3) ->
    templatePart env email knowledgeResults templateResults st3 tp ->
    generateAIContextualReply env email knowledgeResults templateResults intent st3
      = (Returned ai, st4) ->
    quickPart email intent st4 qp ->
    Trace env email st (Returned (tp ++ ai :: qp)%list, st4).

(** *** Sample runs *)

Definition sampleWorld : State :=
  construct (mkState 0 0 false 1700000000000 0 0 0 0 [] []).

Definition sampleEmail : EmailContext :=
  mkEmail "Thank you for the update" "Thank you so much, confirm the meeting please."
    "alice@example.com" ["bob@co.com"] "2024-01-01T00:00:00Z".

Definition serverError : JSError := mkError (Some 500%Z) None "Internal server error".
Definition unauthorized : JSError := mkError (Some 401%Z) (Some "invalid_api_key") "Unauthorized".
Definition rateLimited : JSError := mkError (Some 429%Z) None "Too many requests".
Definition quotaExceeded : JSError :=
  mkError None (Some "insufficient_quota") "You exceeded your current quota".

Definition sampleTemplate (text : string) : ReplyTemplate :=
  mkReplyTemplate "Meeting request" text ["sender_name"] "meeting".

(** Every collaborator answers; the store ranks one template, at cosine
    distance [distance] from any query. *)
Definition healthyEnv (templateText : string) (distance : Q) : Env :=
  mkEnv
    (fun _ _ => Embedded [])
    (fun _ _ => ChatContent (Some "Happy to schedule a call."))
    (fun _ => true)
    (fun _ _ _ => [])
    (fun _ _ _ => [mkHit "Meeting request" (sampleTemplate templateText) distance])
    None.

(** As [healthyEnv], but the chat endpoint fails from its second request on:
    the intent is classified, the reply is not generated. *)
Definition replyFailsEnv (templateText : string) (distance : Q) : Env :=
  mkEnv
    (fun _ _ => Embedded [])
    (fun n _ => match n with
                | O => ChatContent (Some "Scheduling request")
                | S _ => ChatFailed serverError
                end)
    (fun _ => true)
    (fun _ _ _ => [])
    (fun _ _ _ => [mkHit "Meeting request" (sampleTemplate templateText) distance])
    None.

(** Nothing answers: no chat, no embeddings, no store. *)
Definition outageEnv : Env :=
  mkEnv
    (fun _ _ => EmbeddingFailed serverError)
    (fun _ _ => ChatFailed serverError)
    (fun _ => false)
    (fun _ _ _ => [])
    (fun _ _ _ => [])
    None.

Definition connectedWorld : State := set_isConnected true sampleWorld.

(** A healthy run in which the store ranks one template at distance 0.29,
    that is similarity 0.71. *)
Definition gatingEnv : Env :=
  healthyEnv "Hi {{sender_name}}, let us meet: {{meeting_link}}" 0.29.
Definition gatingIntent : string := "Happy to schedule a call.".
Definition gatingSt1 : State := snd (analyzeEmailIntent gatingEnv sampleEmail connectedWorld).
Definition gatingSt2 : State :=
  snd (searchKnowledge gatingEnv (searchQueryOf sampleEmail gatingIntent) 3 gatingSt1).
Definition gatingSt3 : State :=
  snd (searchReplyTemplates gatingEnv (searchQueryOf sampleEmail gatingIntent) 2 gatingSt2).
Definition gatingTemplates : list TemplateResult :=
  [mkTemplateResult "Meeting request" "Hi {{sender_name}}, let us meet: {{meeting_link}}"
     ["sender_name"] "meeting" 0.71].

(** *** The keyword rules in the words of the specification *)

(** A keyword occurs, in any letter case, in the subject or in the body. *)
Definition keywordOccurs (email : EmailContext) (keyword : string) : bool :=
  JS.includes (JS.toLowerCase (subject email)) keyword
  || JS.includes (JS.toLowerCase (body email)) keyword.

(** The quick-response patterns as stated: keyword [thank], keyword
    [confirm]. *)
Definition statedThanksPattern (email : EmailContext) : bool := keywordOccurs email "thank".
Definition statedConfirmPattern (email : EmailContext) : bool := keywordOccurs email "confirm".

(** The category list as stated: each rule has keywords, any of which may
    occur in the subject or in the body. *)
Definition statedRules : list (list string * string) :=
  [ (["interview"], "job_interview");
    (["meeting"], "meeting");
    (["demo"], "sales_demo");
    (["support"; "help"], "technical_support");
    (["collaboration"; "project"], "collaboration") ].

Fixpoint firstMatch {Rule} (matches : Rule -> bool) (category : Rule -> string)
    (rules : list Rule) (default : string) : string :=
  match rules with
  | [] => default
  | rule :: rest =>
      if matches rule then category rule else firstMatch matches category rest default
  end.

Definition statedCategory (email : EmailContext) : string :=
  firstMatch (fun rule => existsb (keywordOccurs email) (fst rule)) snd statedRules "general".

(** The category list of the code: each rule has one keyword looked up in
    the subject and one looked up in the body. *)
Definition codeRules : list (string * string * string) :=
  [ ("interview", "interview", "job_interview");
    ("meeting", "meeting", "meeting");
    ("demo", "demo", "sales_demo");
    ("support", "help", "technical_support");
    ("collaboration", "project", "collaboration") ].

Definition tableCategory (email : EmailContext) : string :=
  firstMatch
    (fun rule =>
       JS.includes (JS.toLowerCase (subject email)) (fst (fst rule))
       || JS.includes (JS.toLowerCase (body email)) (snd (fst rule)))
    snd codeRules "general".

(** *** The embedding requests of one call *)

(** The state [waitForRateLimit] leaves. *)
Definition afterWait (st : State) : State :=
  let timeSinceLastRequest := (inject_Z (Qfloor (now st)) - lastRequestTime st)%Q in
  let st' :=
    if Qltb timeSinceLastRequest (rateLimitDelay st)
    then set_now (now st + (rateLimitDelay st - timeSinceLastRequest))%Q st
    else st in
  set_lastRequestTime (inject_Z (Qfloor (now st'))) st'.

(** The two updates of the delay. *)
Definition backoff (delay : Q) : Q := Qmin 30000 (delay * 2).
Definition decay (delay : Q) : Q := Qmax 1000 (delay * 0.9).

Definition delayInRange (delay : Q) : Prop := (1000 <= delay <= 30000)%Q.

(** The endpoint answers the [n] requests from number [first] on with a
    rate-limit error. *)
Definition rateLimitedRun (env : Env) (text : string) (first n : nat) : Prop :=
  forall j, j < n ->
    exists e, embeddingsCreate env (first + j) text = EmbeddingFailed e /\ is429 e = true.

Inductive Ending := BySuccess | ByQuota | ByRethrow | ByExhaustion.

(** How a call that may send [limit] requests, the first with number [first],
    ends after [hits] rate-limit errors, and what it yields. *)
Inductive Attempts (env : Env) (text : string) (first limit : nat)
  : nat -> Ending -> outcome (list R) -> Prop :=
| Succeeds hits embedding :
    hits < limit ->
    rateLimitedRun env text first hits ->
    embeddingsCreate env (first + hits) text = Embedded embedding ->
    Attempts env text first limit hits BySuccess (Returned embedding)
| QuotaExhausted hits e :
    hits < limit ->
    rateLimitedRun env text first hits ->
    embeddingsCreate env (first + hits) text = EmbeddingFailed e ->
    is429 e = false ->
    isInsufficientQuota e = true ->
    Attempts env text first limit hits ByQuota (Returned (generateFallbackEmbedding text))
| Rethrows hits e :
    hits < limit ->
    rateLimitedRun env text first hits ->
    embeddingsCreate env (first + hits) text = EmbeddingFailed e ->
    is429 e = false ->
    isInsufficientQuota e = false ->
    Attempts env text first limit hits ByRethrow (Raised e)
| RetriesExhausted :
    rateLimitedRun env text first limit ->
    Attempts env text first limit limit ByExhaustion
      (Returned (generateFallbackEmbedding text)).

(** Requests sent and final delay of such a call. *)
Definition requestsSent (limit hits : nat) (ending : Ending) : nat :=
  match ending with
  | ByExhaustion => limit
  | _ => S hits
  end.

Definition finalDelay (hits : nat) (ending : Ending) (delay : Q) : Q :=
  match ending with
  | BySuccess => decay (Nat.iter hits backoff delay)
  | _ => Nat.iter hits backoff delay
  end.

(** What the embedding layer does not touch. *)
Definition storeView (st : State)
  : bool * nat * nat * nat * list (Row ItemMetadata) * list (Row ReplyTemplate) :=
  (isConnected st, chatRequests st, chromaRequests st, uuids st,
   knowledge_base st, reply_templates st).

(** Endpoints with a fixed answer. *)
Definition embeddingEnv (reply : EmbeddingReply) : Env :=
  mkEnv (fun _ _ => reply) (fun _ _ => ChatFailed serverError) (fun _ => true)
    (fun _ _ _ => []) (fun _ _ _ => []) None.

(** *** The fallback embedding in the words of the specification *)

(** Euclidean norm. *)
Definition norm (v : list R) : R := sqrt (sumSquares v).

(** Component [j] of the perturbed zero vector of dimension [D]: the sum,
    over the characters of [text] at positions [i], [i + 1], ..., of
    [sin(charCode * position) * 0.01] for those characters whose index
    [(charCode + position) mod D] is [j]. *)
Fixpoint perturbation (D : nat) (j : nat) (i : nat) (text : string) : R :=
  match text with
  | EmptyString => 0%R
  | String c rest =>
      ((if (JS.charCode c + i) mod D =? j
        then sin (INR (JS.charCode c * i)) * 0.01
        else 0)
       + perturbation D j (S i) rest)%R
  end.

(** The letter [a] followed by a TAB. *)
Definition letterThenTab : string := String "a" (String (ascii_of_nat 9) EmptyString).

(** *** Seeding *)

(** ChromaDB serves every request. *)
Definition chromaServes (env : Env) : Prop := forall n, chromaUp env n = true.

(** What [getStats] reports in state [st]; zero counts if it throws. *)
Definition statsIn (env : Env) (st : State) : Stats :=
  returned (mkStats 0 0 "") (getStats env st).

(** A computation that leaves the delay in its range when it finds it there,
    whether it returns or throws. *)
Definition keepsDelayInRange {A} (m : M A) : Prop :=
  forall st, delayInRange (rateLimitDelay st) -> delayInRange (rateLimitDelay (snd (m st))).

(** The first suggestion of that run. *)
Definition gatingReply : SuggestedReply :=
  hd fallbackReply
    (returned [] (generateReplySuggestions gatingEnv sampleEmail connectedWorld)).

(** *** Notions for the further properties *)

(** The error of a request ChromaDB does not serve. *)
Definition chromaDown : JSError := mkError None None "Failed to connect to chromadb".

(** ChromaDB serves every request from number [first] on. *)
Definition servedFrom (env : Env) (first : nat) : Prop :=
  forall n, first <= n -> chromaUp env n = true.

(** An embedding the embedding function can give for [text]: one the
    endpoint returned for it, or its fallback embedding. *)
Definition embeddingOf (env : Env) (text : string) (embedding : list R) : Prop :=
  embedding = generateFallbackEmbedding text
  \/ exists n, embeddingsCreate env n text = Embedded embedding.

(** The prompt of the intent classification. *)
Definition intentPrompt (email : EmailContext) : string :=
  JS.join JS.nl
    [ "";
      "Analyze this email and classify the intent in one sentence:";
      "";
      "Subject: " ++ subject email;
      "From: " ++ from email;
      "Content: " ++ body email;
      "";
      "What is the main intent or request in this email? Respond with a single sentence describing the intent.";
      "" ].

(** A text of white space only; the empty text is one. *)
Definition blank (s : string) : bool :=
  match JS.trim s with
  | EmptyString => true
  | _ => false
  end.

Fixpoint lastChar (s : string) : option ascii :=
  match s with
  | EmptyString => None
  | String c EmptyString => Some c
  | String _ rest => lastChar rest
  end.

Definition firstChar (s : string) : option ascii :=
  match s with
  | EmptyString => None
  | String c _ => Some c
  end.

(** No character of [s] is [c]. *)
Fixpoint without (c : ascii) (s : string) : bool :=
  match s with
  | EmptyString => true
  | String d rest => negb (Ascii.eqb d c) && without c rest
  end.

(** The strategies, as the ids tell them. *)
Inductive Kind := TemplateKind | AIKind | QuickKind | FallbackKind | OtherKind.

Definition kindOf (r : SuggestedReply) : Kind :=
  if isTemplateSuggestion r then TemplateKind
  else if isAISuggestion r then AIKind
  else if isQuickSuggestion r then QuickKind
  else if String.eqb (reply_id r) "fallback" then FallbackKind
  else OtherKind.

(** Sorted from the most similar to the least. *)
Fixpoint descending (l : list Q) : Prop :=
  match l with
  | [] => True
  | x :: rest => (match rest with [] => True | y :: _ => (y <= x)%Q end) /\ descending rest
  end.

(** Sorted from the nearest to the farthest. *)
Fixpoint ascending (l : list Q) : Prop :=
  match l with
  | [] => True
  | x :: rest => (match rest with [] => True | y :: _ => (x <= y)%Q end) /\ ascending rest
  end.

(** ChromaDB serves the [k] requests from number [first] on. *)
Definition servedUntil (env : Env) (first k : nat) : Prop :=
  forall j, j < k -> chromaUp env (first + j) = true.

(** A healthy environment whose ChromaDB serves the requests [up] says. *)
Definition servingEnv (up : nat -> bool) : Env :=
  mkEnv
    (fun _ _ => Embedded [])
    (fun _ _ => ChatContent (Some "Happy to schedule a call."))
    up
    (fun _ _ _ => [])
    (fun _ _ _ => [])
    None.

(** *** Templates as texts with placeholders *)

(** A template text read as a sequence of plain texts and placeholders
    [{{key}}]. *)
Inductive Piece :=
| Plain (text : string)
| Placeholder (key : string).

(** A plain text has no opening brace; a key has no brace at all. *)
Definition wellFormed (p : Piece) : bool :=
  match p with
  | Plain text => without "{" text
  | Placeholder key => without "{" key && without "}" key
  end.

Fixpoint render (pieces : list Piece) : string :=
  match pieces with
  | [] => ""
  | Plain text :: rest => text ++ render rest
  | Placeholder key :: rest => "{{" ++ key ++ "}}" ++ render rest
  end.

Fixpoint lookup (key : string) (variables : list (string * string)) : option string :=
  match variables with
  | [] => None
  | (name, value) :: rest => if String.eqb key name then Some value else lookup key rest
  end.

(** Every placeholder that names a variable gives way to the variable's
    value; the others stay. *)
Fixpoint instantiate (variables : list (string * string)) (pieces : list Piece) : string :=
  match pieces with
  | [] => ""
  | Plain text :: rest => text ++ instantiate variables rest
  | Placeholder key :: rest =>
      match lookup key variables with
      | Some value => value
      | None => "{{" ++ key ++ "}}"
      end ++ instantiate variables rest
  end.

(** One placeholder replaced throughout. *)
Definition fill (key value : string) (pieces : list Piece) : list Piece :=
  map (fun p =>
         match p with
         | Placeholder k => if String.eqb k key then Plain value else p
         | Plain _ => p
         end)
      pieces.

(** The variables [generateTemplateBasedReply] knows. *)
Definition templateVariables (env : Env) (email : EmailContext) : list (string * string) :=
  [ ("meeting_link", meetingLink env);
    ("product_name", "OneBox-AI");
    ("sender_name", senderName email) ].

(** *** Replies that are a rate limit and an exhausted quota at once *)

(** An error that carries both the status 429 and the code
    [insufficient_quota]. *)
Definition ambiguous (e : JSError) : bool := is429 e && isInsufficientQuota e.

(** None of the replies to the requests a call can send, the first with
    number [first], is such an error. *)
Definition repliesSeparate (env : Env) (text : string) (first : nat) : bool :=
  forallb
    (fun j =>
       match embeddingsCreate env (first + j) text with
       | EmbeddingFailed e => negb (ambiguous e)
       | Embedded _ => true
       end)
    (seq 0 maxRetries).

(** The endpoint answers the first request with a rate-limit error and every
    later one with a quota error. *)
Definition rateLimitThenQuotaEnv : Env :=
  mkEnv
    (fun n _ => match n with
                | O => EmbeddingFailed rateLimited
                | S _ => EmbeddingFailed quotaExceeded
                end)
    (fun _ _ => ChatFailed serverError) (fun _ => true)
    (fun _ _ _ => []) (fun _ _ _ => []) None.

Definition quotaWithStatus429 : JSError :=
  mkError (Some 429%Z) (Some "insufficient_quota") "You exceeded your current quota".

(* ------------------------------------------------------------------ *)
(** ** Running computations *)

(** *** The string operations on examples *)

Example toLowerCase_ex : JS.toLowerCase "Thank YOU" = "thank you".
Proof. reflexivity. Qed.
Example includes_ex : JS.includes "many thanks" "thank" = true.
Proof. reflexivity. Qed.
Example trim_ex : JS.trim "  a b  " = "a b".
Proof. reflexivity. Qed.
Example replaceAll_ex : JS.replaceAll "{{x}}" "Bob" "Hi {{x}}, {{x}}!" = "Hi Bob, Bob!".
Proof. reflexivity. Qed.
Example replaceAll_ex2 : JS.replaceAll "{{x}}" "[$`]" "Hi {{x}}." = "Hi [Hi ].".
Proof. reflexivity. Qed.
Example showZ_ex : JS.showZ 80 = "80".
Proof. reflexivity. Qed.
Example round_ex : JS.round (0.805 * 100)%Q = 81%Z.
Proof. reflexivity. Qed.

(** *** The monad *)

Lemma bind_run {A B} (m : M A) (k : A -> M B) st :
  bind m k st =
  match m st with
  | (Returned a, st') => k a st'
  | (Raised e, st') => (Raised e, st')
  end.
Proof. reflexivity. Qed.

Lemma bind_Returned {A B} (m : M A) (k : A -> M B) st b st' :
  bind m k st = (Returned b, st') ->
  exists a st1, m st = (Returned a, st1) /\ k a st1 = (Returned b, st').
Proof.
  unfold bind. destruct (m st) as [[a|e] st1]; intros H.
  - exists a, st1. split; [reflexivity | exact H].
  - discriminate H.
Qed.

Lemma Qgtb_true a b : Qgtb a b = true <-> (b < a)%Q.
Proof.
  unfold Qgtb. rewrite negb_true_iff. split; intros H.
  - apply Qnot_le_lt. intros Hle. apply Qle_bool_iff in Hle. congruence.
  - destruct (Qle_bool a b) eqn:E; [|reflexivity].
    apply Qle_bool_iff in E. exfalso. exact (Qlt_not_le _ _ H E).
Qed.

Lemma Qgtb_false a b : Qgtb a b = false <-> (a <= b)%Q.
Proof.
  unfold Qgtb. rewrite negb_false_iff. apply Qle_bool_iff.
Qed.

(** *** Strings *)

Lemma orElse_nonempty a b : b <> "" -> JS.orElse a b <> "".
Proof. destruct a; simpl; [auto | discriminate]. Qed.

Lemma trimmedOr_nonempty c fallback : fallback <> "" -> trimmedOr c fallback <> "".
Proof. destruct c; simpl; [apply orElse_nonempty | auto]. Qed.

Lemma getSubstitution_noDollar matched before after repl :
  noDollar repl = true -> JS.getSubstitution matched before after repl = repl.
Proof.
  induction repl as [|c rest IH]; simpl; [reflexivity|].
  intros H. apply andb_true_iff in H. destruct H as [Hc Hrest].
  apply negb_true_iff in Hc. rewrite Hc. rewrite IH by exact Hrest. reflexivity.
Qed.

Lemma append_nonempty_l a b : a <> "" -> (a ++ b)%string <> "".
Proof. destruct a; simpl; [congruence | discriminate]. Qed.

(** Substituting a non-empty text without dollar signs cannot erase a
    non-empty subject. *)
Lemma replaceAll_nonempty pat repl s :
  repl <> "" -> noDollar repl = true -> s <> "" -> JS.replaceAll pat repl s <> "".
Proof.
  intros Hrepl Hd Hs. destruct s as [|c rest]; [congruence|].
  unfold JS.replaceAll. cbn [JS.replaceScan].
  destruct (JS.startsWith (String c rest) pat).
  - rewrite getSubstitution_noDollar by exact Hd. apply append_nonempty_l. exact Hrepl.
  - discriminate.
Qed.

(** *** The reply strategies, one at a time *)

Lemma analyzeEmailIntent_returns env email st :
  exists intent st', analyzeEmailIntent env email st = (Returned intent, st').
Proof.
  unfold analyzeEmailIntent, tryCatch, bind, chatRequest, ret.
  destruct (chatCreate env (chatRequests st) _); eauto.
Qed.

Lemma generateTemplateBasedReply_returns env email t knowledgeResults st :
  exists r,
    generateTemplateBasedReply env email t knowledgeResults st = (Returned r, st) /\
    isTemplateSuggestion r = true /\
    confidence r = tr_similarity t /\
    matchedTemplate (reply_context r) = Some t /\
    reply_category (reply_metadata r) = tr_category t /\
    action_required (reply_metadata r) = JS.includes (content r) "http" /\
    content r =
      JS.replaceAll "{{sender_name}}" (senderName email)
        (JS.replaceAll "{{product_name}}" "OneBox-AI"
           (JS.replaceAll "{{meeting_link}}" (meetingLink env) (tr_template t))).
Proof.
  eexists. split; [reflexivity|]. repeat split; reflexivity.
Qed.

Lemma generateAIContextualReply_cases env email knowledgeResults templateResults intent st :
  (exists r st',
      generateAIContextualReply env email knowledgeResults templateResults intent st
        = (Returned r, st') /\
      isAISuggestion r = true /\
      isTemplateSuggestion r = false /\
      confidence r = 0.8%Q /\
      content r <> "" /\
      reply_category (reply_metadata r) = categorizeEmail email intent /\
      action_required (reply_metadata r)
        = (JS.includes (content r) "http" || JS.includes (content r) "schedule"))
  \/
  (exists e st',
      generateAIContextualReply env email knowledgeResults templateResults intent st
        = (Raised e, st') /\
      exists prompt, chatCreate env (chatRequests st) prompt = ChatFailed e).
Proof.
  unfold generateAIContextualReply, tryCatch, bind, chatRequest.
  match goal with |- context [chatCreate env (chatRequests st) ?p] =>
    set (prompt := p); destruct (chatCreate env (chatRequests st) prompt) as [c|e] eqn:E end.
  - left. eexists. eexists. split; [reflexivity|].
    repeat split; try reflexivity.
    cbn [content]. apply trimmedOr_nonempty. discriminate.
  - right. exists e. eexists. split; [reflexivity|]. exists prompt. exact E.
Qed.

Lemma generateQuickResponse_returns email intent st :
  exists q,
    generateQuickResponse email intent st = (Returned q, st) /\
    (forall r, q = Some r ->
       isQuickSuggestion r = true /\ isTemplateSuggestion r = false /\
       content r <> "" /\
       (confidence r = 0.9%Q \/ confidence r = 0.8%Q) /\
       action_required (reply_metadata r) = false) /\
    (q = None <-> thanksPattern email = false /\ confirmPattern email = false).
Proof.
  unfold generateQuickResponse, thanksPattern, confirmPattern.
  destruct (JS.includes (JS.toLowerCase (subject email)) "thank"
            || JS.includes (JS.toLowerCase (body email)) "thank you") eqn:Et.
  - eexists. split; [reflexivity|]. split.
    + intros r Hr. injection Hr as <-. repeat split; try reflexivity; try discriminate.
      left. reflexivity.
    + split; [discriminate | intros [H _]; discriminate H].
  - destruct (JS.includes (JS.toLowerCase (subject email)) "confirm"
              || JS.includes (JS.toLowerCase (body email)) "confirm") eqn:Ec.
    + eexists. split; [reflexivity|]. split.
      * intros r Hr. injection Hr as <-. repeat split; try reflexivity; try discriminate.
        right. reflexivity.
      * split; [discriminate | intros [_ H]; discriminate H].
    + exists None. split; [reflexivity|]. split; [discriminate|].
      split; auto.
Qed.

(** *** The pipeline *)

Lemma suggest_trace env email st : Trace env email st (suggest env email st).
Proof.
  destruct (analyzeEmailIntent_returns env email st) as (intent & st1 & Hi).
  unfold suggest. rewrite bind_run, Hi.
  fold (searchQueryOf email intent).
  rewrite bind_run.
  destruct (searchKnowledge env (searchQueryOf email intent) 3 st1) as [[kn|e] st2] eqn:Hk;
    [|eapply KnowledgeSearchThrows; eassumption].
  rewrite bind_run.
  destruct (searchReplyTemplates env (searchQueryOf email intent) 2 st2) as [[tpl|e] st3] eqn:Ht;
    [|eapply TemplateSearchThrows; eassumption].
  assert (Hstep : forall tp,
             templatePart env email kn tpl st3 tp ->
             Trace env email st
               (bind (generateAIContextualReply env email kn tpl intent)
                  (fun aiSuggestion =>
                     bind (generateQuickResponse email intent)
                       (fun quickResponse =>
                          ret (match quickResponse with
                               | Some quick => ((tp ++ [aiSuggestion]) ++ [quick])%list
                               | None => (tp ++ [aiSuggestion])%list
                               end))) st3)).
  { intros tp Htp. rewrite bind_run.
    destruct (generateAIContextualReply env email kn tpl intent st3) as [[ai|e] st4] eqn:Ha;
      [|eapply AIReplyThrows; eassumption].
    destruct (generateQuickResponse_returns email intent st4) as (q & Hq & _).
    rewrite bind_run, Hq. unfold ret.
    replace (match q with
             | Some quick => ((tp ++ [ai]) ++ [quick])%list
             | None => (tp ++ [ai])%list
             end)
      with (tp ++ ai :: match q with Some r => [r] | None => [] end)%list
      by (destruct q; [rewrite <- app_assoc|]; reflexivity).
    eapply Synthesized; try eassumption. exists q. split; [exact Hq | reflexivity]. }
  unfold templatePart in Hstep.
  destruct tpl as [|top rest].
  - rewrite bind_run. unfold ret at 1. apply (Hstep []). reflexivity.
  - destruct (Qgtb (tr_similarity top) 0.7) eqn:G.
    + destruct (generateTemplateBasedReply_returns env email top kn st3) as (r & Hr & _).
      rewrite bind_run. rewrite (bind_run (generateTemplateBasedReply env email top kn)), Hr.
      unfold ret at 1. apply (Hstep [r]). exists r. split; [exact Hr | reflexivity].
    + rewrite bind_run. unfold ret at 1. apply (Hstep []). reflexivity.
Qed.

Lemma generateReplySuggestions_run env email st :
  generateReplySuggestions env email st =
  match suggest env email st with
  | (Returned l, st') => (Returned l, st')
  | (Raised _, st') => (Returned [fallbackReply], st')
  end.
Proof. reflexivity. Qed.

Lemma app_cons_nonempty {A} (l : list A) x l' : (l ++ x :: l')%list <> [].
Proof. destruct l; discriminate. Qed.

(* ------------------------------------------------------------------ *)
(** ** The reply pipeline *)

(** C1 (totality with exact fallback).  From every state and for every email,
    [generateReplySuggestions] returns (it never throws) a non-empty list.
    Either the [try] block returned that list, or it threw and the list is
    exactly the one fallback reply: id [fallback], confidence 0.5, category
    [general], tone [professional], [action_required] true, response time
    [24 hours] and the reasoning [Fallback response due to processing error]. *)
Theorem generateReplySuggestions_total_with_fallback env email st :
  exists suggestions st',
    generateReplySuggestions env email st = (Returned suggestions, st') /\
    suggestions <> [] /\
    (suggest env email st = (Returned suggestions, st')
     \/ exists e,
          suggest env email st = (Raised e, st') /\
          suggestions = [fallbackReply] /\
          List.length suggestions = 1) /\
    reply_id fallbackReply = "fallback" /\
    confidence fallbackReply = 0.5%Q /\
    reply_category (reply_metadata fallbackReply) = "general" /\
    tone (reply_metadata fallbackReply) = professional /\
    action_required (reply_metadata fallbackReply) = true /\
    estimated_response_time (reply_metadata fallbackReply) = "24 hours" /\
    reasoning (reply_context fallbackReply) = "Fallback response due to processing error".
Proof.
  rewrite generateReplySuggestions_run.
  pose proof (suggest_trace env email st) as T.
  destruct (suggest env email st) as [[l|e] st'] eqn:Hs.
  - exists l, st'. split; [reflexivity|]. split.
    + inversion T; subst. apply app_cons_nonempty.
    + split; [left; reflexivity|]. repeat split; reflexivity.
  - exists [fallbackReply], st'. split; [reflexivity|]. split; [discriminate|].
    split; [right; exists e; repeat split; reflexivity|]. repeat split; reflexivity.
Qed.

(** In disconnected mode the built-in templates are served, the top one
    with similarity 0.8: all three strategies contribute, in the order
    template, AI, quick response. *)
Example disconnected_run :
  let env := mkEnv (fun _ _ => EmbeddingFailed serverError)
               (fun _ _ => ChatContent (Some "Happy to schedule a call."))
               (fun _ => false) (fun _ _ _ => []) (fun _ _ _ => []) None in
  map (fun r => (reply_id r, confidence r, reply_category (reply_metadata r)))
    (returned [] (generateReplySuggestions env sampleEmail sampleWorld))
  = [ ("template_1700000000000", 0.8%Q, "job_interview");
      ("ai_1700000000000", 0.8%Q, "meeting");
      ("quick_1700000000000", 0.9%Q, "acknowledgment") ].
Proof. vm_compute. reflexivity. Qed.

(** The fallback is reached: with every collaborator down the store is in
    disconnected mode, the searches serve their built-in lists, the chat
    request of the AI strategy throws, and the answer is the fallback reply
    alone. *)
Example fallback_on_outage :
  fst (generateReplySuggestions outageEnv sampleEmail sampleWorld) = Returned [fallbackReply].
Proof. vm_compute. reflexivity. Qed.

Lemma templateGate_iff top rest :
  templateGate (top :: rest) <-> Qgtb (tr_similarity top) 0.7 = true.
Proof.
  rewrite Qgtb_true. split.
  - intros (t & r & E & H). injection E as <- <-. exact H.
  - intros H. exists top, rest. split; [reflexivity | exact H].
Qed.

Lemma templateGate_nil : ~ templateGate [].
Proof. intros (t & r & E & _). discriminate E. Qed.

Lemma quickPart_not_template email intent st qp :
  quickPart email intent st qp ->
  forall x, In x qp -> isTemplateSuggestion x = false /\ isQuickSuggestion x = true.
Proof.
  intros (q & Hq & ->) x Hx.
  destruct (generateQuickResponse_returns email intent st) as (q' & Hq' & Hf & _).
  rewrite Hq in Hq'. injection Hq' as <-.
  destruct q as [r|]; [|destruct Hx].
  destruct Hx as [<-|[]]. destruct (Hf r eq_refl) as (H1 & H2 & _). split; assumption.
Qed.

(** C6 (template gating and position), as the code has it.  Once the intent
    is classified and both searches have returned, there are two cases.  If
    the AI-contextual step returns, the output holds a template-based
    suggestion if and only if the template results are non-empty and the top
    similarity is strictly above 0.7, and then that suggestion comes first,
    directly before the AI-contextual one, with the top similarity as its
    confidence; otherwise the AI-contextual suggestion comes first.  If the
    AI-contextual step throws, the output is the fallback reply alone and
    holds no template-based suggestion, whatever the template results. *)
Theorem template_gating env email st intent st1 knowledgeResults st2 templateResults st3 :
  analyzeEmailIntent env email st = (Returned intent, st1) ->
  searchKnowledge env (searchQueryOf email intent) 3 st1 = (Returned knowledgeResults, st2) ->
  searchReplyTemplates env (searchQueryOf email intent) 2 st2
    = (Returned templateResults, st3) ->
  (exists ai st4 suggestions,
      generateAIContextualReply env email knowledgeResults templateResults intent st3
        = (Returned ai, st4) /\
      generateReplySuggestions env email st = (Returned suggestions, st4) /\
      ((exists r, In r suggestions /\ isTemplateSuggestion r = true)
       <-> templateGate templateResults) /\
      (templateGate templateResults ->
       exists r qp,
         suggestions = r :: ai :: qp /\
         isTemplateSuggestion r = true /\
         Some (confidence r) = option_map tr_similarity (hd_error templateResults) /\
         isAISuggestion ai = true) /\
      (~ templateGate templateResults -> exists qp, suggestions = ai :: qp))
  \/
  (exists e st4,
      generateAIContextualReply env email knowledgeResults templateResults intent st3
        = (Raised e, st4) /\
      generateReplySuggestions env email st = (Returned [fallbackReply], st4) /\
      isTemplateSuggestion fallbackReply = false).
Proof.
  intros Hi Hk Ht.
  rewrite generateReplySuggestions_run.
  pose proof (suggest_trace env email st) as T.
  destruct (suggest env email st) as [res stF].
  inversion T as [i s1 e s2 Hi' Hk'
                 | i s1 kn s2 e s3 Hi' Hk' Ht'
                 | i s1 kn s2 tpl s3 e s4 Hi' Hk' Ht' Ha
                 | i s1 kn s2 tpl s3 ai s4 tp qp Hi' Hk' Ht' Htp Ha Hqp]; subst;
    rewrite Hi in Hi'; injection Hi' as <- <-;
    rewrite Hk in Hk'; try discriminate Hk'; injection Hk' as <- <-;
    rewrite Ht in Ht'; try discriminate Ht'; injection Ht' as <- <-.
  - right. exists e, stF. repeat split; try reflexivity. exact Ha.
  - left. exists ai, stF, (tp ++ ai :: qp)%list.
    split; [exact Ha|]. split; [reflexivity|].
    destruct (generateAIContextualReply_cases env email knowledgeResults templateResults
                intent st3) as [(r' & s' & Hr' & Hai & Hnt & _)|(e & s' & Hr' & _)];
      rewrite Ha in Hr'; [injection Hr' as <- <- | discriminate Hr'].
    pose proof (quickPart_not_template _ _ _ _ Hqp) as Hq.
    unfold templatePart in Htp.
    destruct templateResults as [|top rest].
    + subst tp. split; [|split].
      * split; [|intros G; destruct (templateGate_nil G)].
        intros (r & [<-|Hin] & Hr); [congruence|].
        destruct (Hq r Hin) as [Hf _]. congruence.
      * intros G. destruct (templateGate_nil G).
      * intros _. exists qp. reflexivity.
    + destruct (Qgtb (tr_similarity top) 0.7) eqn:G.
      * destruct Htp as (r & Hr & ->).
        destruct (generateTemplateBasedReply_returns env email top knowledgeResults st3)
          as (r0 & Hr0 & Hid & Hconf & _).
        rewrite Hr in Hr0. injection Hr0 as <-.
        split; [|split].
        -- split; [intros _; apply templateGate_iff; exact G|].
           intros _. exists r. split; [left; reflexivity | exact Hid].
        -- intros _. exists r, qp. repeat split; try assumption.
           cbn. rewrite Hconf. reflexivity.
        -- intros N. exfalso. apply N. apply templateGate_iff. exact G.
      * subst tp. split; [|split].
        -- split.
           ++ intros (r & [<-|Hin] & Hr); [congruence|].
              destruct (Hq r Hin) as [Hf _]. congruence.
           ++ intros Gt. apply templateGate_iff in Gt. congruence.
        -- intros Gt. apply templateGate_iff in Gt. congruence.
        -- intros _. exists qp. reflexivity.
Qed.

Lemma template_gating_witness :
  analyzeEmailIntent gatingEnv sampleEmail connectedWorld = (Returned gatingIntent, gatingSt1)
  /\ searchKnowledge gatingEnv (searchQueryOf sampleEmail gatingIntent) 3 gatingSt1
     = (Returned [], gatingSt2)
  /\ searchReplyTemplates gatingEnv (searchQueryOf sampleEmail gatingIntent) 2 gatingSt2
     = (Returned gatingTemplates, gatingSt3)
  /\ ((exists ai st4 suggestions,
          generateAIContextualReply gatingEnv sampleEmail [] gatingTemplates gatingIntent
            gatingSt3 = (Returned ai, st4) /\
          generateReplySuggestions gatingEnv sampleEmail connectedWorld
            = (Returned suggestions, st4) /\
          ((exists r, In r suggestions /\ isTemplateSuggestion r = true)
           <-> templateGate gatingTemplates) /\
          (templateGate gatingTemplates ->
           exists r qp,
             suggestions = r :: ai :: qp /\
             isTemplateSuggestion r = true /\
             Some (confidence r) = option_map tr_similarity (hd_error gatingTemplates) /\
             isAISuggestion ai = true) /\
          (~ templateGate gatingTemplates -> exists qp, suggestions = ai :: qp))
      \/
      (exists e st4,
          generateAIContextualReply gatingEnv sampleEmail [] gatingTemplates gatingIntent
            gatingSt3 = (Raised e, st4) /\
          generateReplySuggestions gatingEnv sampleEmail connectedWorld
            = (Returned [fallbackReply], st4) /\
          isTemplateSuggestion fallbackReply = false)).
Proof.
  assert (H1 : analyzeEmailIntent gatingEnv sampleEmail connectedWorld
               = (Returned gatingIntent, gatingSt1)) by (vm_compute; reflexivity).
  assert (H2 : searchKnowledge gatingEnv (searchQueryOf sampleEmail gatingIntent) 3 gatingSt1
               = (Returned [], gatingSt2)) by (vm_compute; reflexivity).
  assert (H3 : searchReplyTemplates gatingEnv (searchQueryOf sampleEmail gatingIntent) 2
                 gatingSt2 = (Returned gatingTemplates, gatingSt3))
    by (vm_compute; reflexivity).
  split; [exact H1|]. split; [exact H2|]. split; [exact H3|].
  exact (template_gating gatingEnv sampleEmail connectedWorld gatingIntent gatingSt1 []
           gatingSt2 gatingTemplates gatingSt3 H1 H2 H3).
Defined.

(** At distance 0.31, similarity 0.69, the gate is closed: the output starts
    with the AI-contextual suggestion. *)
Example template_gating_closed :
  map reply_id
    (returned [] (generateReplySuggestions (healthyEnv "Hi" 0.31) sampleEmail connectedWorld))
  = ["ai_1700000001000"; "quick_1700000001000"].
Proof. vm_compute. reflexivity. Qed.

(** At distance 0.29, similarity 0.71, it is open. *)
Example template_gating_open :
  map reply_id
    (returned [] (generateReplySuggestions (healthyEnv "Hi" 0.29) sampleEmail connectedWorld))
  = ["template_1700000001000"; "ai_1700000001000"; "quick_1700000001000"].
Proof. vm_compute. reflexivity. Qed.

(** C6 as stated fails on a run whose AI-contextual step throws: the
    store ranks a template at similarity 0.71, the gate holds, and the output
    is the fallback reply, without a template-based suggestion. *)
Lemma template_gating_counterexample :
  exists intent st1 knowledgeResults st2 templateResults st3,
    let env := replyFailsEnv "Hi {{sender_name}}" 0.29 in
    analyzeEmailIntent env sampleEmail connectedWorld = (Returned intent, st1) /\
    searchKnowledge env (searchQueryOf sampleEmail intent) 3 st1
      = (Returned knowledgeResults, st2) /\
    searchReplyTemplates env (searchQueryOf sampleEmail intent) 2 st2
      = (Returned templateResults, st3) /\
    templateGate templateResults /\
    ~ (exists r,
          In r (returned [] (generateReplySuggestions env sampleEmail connectedWorld)) /\
          isTemplateSuggestion r = true).
Proof.
  do 6 eexists. cbv zeta.
  split; [vm_compute; reflexivity|].
  split; [vm_compute; reflexivity|].
  split; [vm_compute; reflexivity|].
  split.
  - eexists. eexists. split; [reflexivity|]. reflexivity.
  - intros (r & Hin & Hr). vm_compute in Hin. destruct Hin as [<-|[]]. discriminate Hr.
Qed.

(** Where the similarity of a template result comes from: the built-in list
    in disconnected mode, 1 minus the cosine distance of the hit otherwise. *)
Lemma searchReplyTemplates_similarity env query limit st results st' :
  searchReplyTemplates env query limit st = (Returned results, st') ->
  (isConnected st = false
   /\ results = getFallbackReplyTemplates query limit
   /\ Forall (fun t => 0.7 <= tr_similarity t <= 0.8)%Q results)
  \/ (isConnected st = true
      /\ exists n,
           map tr_similarity results
           = map (fun hit => (1 - hit_distance hit)%Q) (templateRanking env n query limit)).
Proof.
  unfold searchReplyTemplates. rewrite bind_run. unfold gets at 1.
  destruct (isConnected st); cbn [negb].
  - intros H. right. split; [reflexivity|].
    apply bind_Returned in H. destruct H as (hits & st1 & Hq & Hret).
    injection Hret as <- <-.
    unfold collectionQuery in Hq.
    apply bind_Returned in Hq. destruct Hq as (vs & st2 & _ & Hq).
    apply bind_Returned in Hq. destruct Hq as (n & st3 & _ & Hq).
    apply bind_Returned in Hq. destruct Hq as ([] & st4 & _ & Hq).
    injection Hq as <- <-. exists n. rewrite map_map. reflexivity.
  - intros H. injection H as <- <-. left. split; [reflexivity|]. split; [reflexivity|].
    unfold getFallbackReplyTemplates.
    assert (Hq : forall a b c d q, (0.7 <= q <= 0.8)%Q ->
                   (0.7 <= tr_similarity (mkTemplateResult a b c d q) <= 0.8)%Q)
      by (intros; assumption).
    destruct limit as [|[|limit]]; cbn [firstn];
      repeat (first [apply Forall_nil | apply Forall_cons; [apply Hq; lra|]]).
    rewrite firstn_nil. apply Forall_nil.
Qed.

Lemma meetingLink_nonempty env : meetingLink env <> "".
Proof. apply orElse_nonempty. discriminate. Qed.

Lemma senderName_nonempty email : senderName email <> "".
Proof. apply orElse_nonempty. discriminate. Qed.

Lemma returned_suggestions env email st r :
  In r (returned [] (generateReplySuggestions env email st)) ->
  r = fallbackReply
  \/ exists intent st1 knowledgeResults st2 templateResults st3 ai st4 tp qp,
       templatePart env email knowledgeResults templateResults st3 tp /\
       generateAIContextualReply env email knowledgeResults templateResults intent st3
         = (Returned ai, st4) /\
       quickPart email intent st4 qp /\
       analyzeEmailIntent env email st = (Returned intent, st1) /\
       searchKnowledge env (searchQueryOf email intent) 3 st1
         = (Returned knowledgeResults, st2) /\
       searchReplyTemplates env (searchQueryOf email intent) 2 st2
         = (Returned templateResults, st3) /\
       (In r tp \/ r = ai \/ In r qp).
Proof.
  unfold returned. rewrite generateReplySuggestions_run.
  pose proof (suggest_trace env email st) as T.
  destruct (suggest env email st) as [res stF].
  inversion T; subst; cbn [fst]; intros Hin.
  1-3: destruct Hin as [<-|[]]; left; reflexivity.
  right. do 10 eexists. repeat (split; [eassumption|]).
  apply in_app_or in Hin. destruct Hin as [H|[H|H]]; auto.
Qed.

(** C2 (confidence and content), as the code has it.  Every suggestion that
    [generateReplySuggestions] returns has a confidence of at least 0.  A
    suggestion of the AI-contextual, quick-response or fallback path has a
    confidence of at most 1 and a non-empty content.  A template-based
    suggestion carries the matched template; its confidence is that
    template's similarity, which is above 0.7, so it is at most 1 exactly
    when the similarity is; its content is the template text with the
    placeholders substituted, which is non-empty when the template text is
    non-empty and neither the meeting link nor the sender name holds a
    dollar sign. *)
Theorem reply_confidence_and_content env email st r :
  In r (returned [] (generateReplySuggestions env email st)) ->
  (0 <= confidence r)%Q /\
  (isTemplateSuggestion r = false -> (confidence r <= 1)%Q /\ content r <> "") /\
  (isTemplateSuggestion r = true ->
   exists t,
     matchedTemplate (reply_context r) = Some t /\
     confidence r = tr_similarity t /\
     (0.7 < tr_similarity t)%Q /\
     ((confidence r <= 1)%Q <-> (tr_similarity t <= 1)%Q) /\
     content r =
       JS.replaceAll "{{sender_name}}" (senderName email)
         (JS.replaceAll "{{product_name}}" "OneBox-AI"
            (JS.replaceAll "{{meeting_link}}" (meetingLink env) (tr_template t))) /\
     (tr_template t <> "" ->
      noDollar (meetingLink env) = true ->
      noDollar (senderName email) = true ->
      content r <> "")).
Proof.
  intros Hin. apply returned_suggestions in Hin.
  destruct Hin as [->|(intent & st1 & kn & st2 & tpl & st3 & ai & st4 & tp & qp
                        & Htp & Ha & Hqp & _ & _ & _ & Hin)].
  { split; [vm_compute; discriminate|].
    split; [intros _; split; [vm_compute; discriminate | discriminate]|].
    intros H. discriminate H. }
  destruct Hin as [Hin|[->|Hin]].
  - unfold templatePart in Htp. destruct tpl as [|top rest]; [subst tp; destruct Hin|].
    destruct (Qgtb (tr_similarity top) 0.7) eqn:G; [|subst tp; destruct Hin].
    destruct Htp as (r0 & Hr0 & ->). destruct Hin as [<-|[]].
    destruct (generateTemplateBasedReply_returns env email top kn st3)
      as (r1 & Hr1 & Hid & Hconf & Hm & _ & _ & Hcontent).
    rewrite Hr0 in Hr1. injection Hr1 as <-.
    apply Qgtb_true in G.
    split; [rewrite Hconf; lra|]. split; [intros H; congruence|].
    intros _. exists top. split; [exact Hm|]. split; [exact Hconf|]. split; [exact G|].
    split; [rewrite Hconf; tauto|]. split; [exact Hcontent|].
    intros Ht Hl Hs. rewrite Hcontent.
    apply replaceAll_nonempty; [apply senderName_nonempty | exact Hs |].
    apply replaceAll_nonempty; [discriminate | reflexivity |].
    apply replaceAll_nonempty; [apply meetingLink_nonempty | exact Hl | exact Ht].
  - destruct (generateAIContextualReply_cases env email kn tpl intent st3)
      as [(r' & s' & Hr' & _ & Hnt & Hconf & Hc & _)|(e & s' & Hr' & _)];
      rewrite Ha in Hr'; [injection Hr' as <- <- | discriminate Hr'].
    split; [rewrite Hconf; lra|]. split; [intros _; split; [rewrite Hconf; lra | exact Hc]|].
    intros H. congruence.
  - destruct Hqp as (q & Hq & ->).
    destruct (generateQuickResponse_returns email intent st4) as (q' & Hq' & Hf & _).
    rewrite Hq in Hq'. injection Hq' as <-.
    destruct q as [x|]; [|destruct Hin]. destruct Hin as [<-|[]].
    destruct (Hf x eq_refl) as (_ & Hnt & Hc & Hconf & _).
    split; [destruct Hconf as [-> | ->]; lra|].
    split; [intros _; split; [destruct Hconf as [-> | ->]; lra | exact Hc]|].
    intros H. congruence.
Qed.

Lemma reply_confidence_and_content_witness :
  In gatingReply
    (returned [] (generateReplySuggestions gatingEnv sampleEmail connectedWorld))
  /\ isTemplateSuggestion gatingReply = true
  /\ (0 <= confidence gatingReply <= 1)%Q
  /\ content gatingReply = "Hi alice, let us meet: https://cal.com/example"
  /\ content gatingReply <> "".
Proof.
  assert (Hin : In gatingReply
                  (returned [] (generateReplySuggestions gatingEnv sampleEmail connectedWorld)))
    by (vm_compute; left; reflexivity).
  assert (Hid : isTemplateSuggestion gatingReply = true) by (vm_compute; reflexivity).
  destruct (reply_confidence_and_content gatingEnv sampleEmail connectedWorld gatingReply Hin)
    as (Hlo & _ & Htemplate).
  destruct (Htemplate Hid) as (t & Hm & Hconf & Hgate & Hle & Hcontent & Hne).
  assert (Ht : t = hd (mkTemplateResult "" "" [] "" 0) gatingTemplates).
  { vm_compute in Hm. injection Hm as <-. reflexivity. }
  subst t.
  split; [exact Hin|]. split; [exact Hid|].
  split; [split; [exact Hlo | apply Hle; vm_compute; discriminate]|].
  split; [rewrite Hcontent; vm_compute; reflexivity|].
  apply Hne; [discriminate | vm_compute; reflexivity | vm_compute; reflexivity].
Defined.

(** C2 as stated fails on the template path: a stored template whose
    text is empty, ranked at distance 0.2 (similarity 0.8, inside [0,1]),
    gives a template-based suggestion with empty content. *)
Lemma reply_content_counterexample :
  exists r,
    In r (returned [] (generateReplySuggestions (healthyEnv "" 0.2) sampleEmail connectedWorld))
    /\ isTemplateSuggestion r = true
    /\ (0 <= confidence r <= 1)%Q
    /\ content r = "".
Proof.
  eexists. split; [vm_compute; left; reflexivity|].
  split; [reflexivity|]. split; [split; discriminate | reflexivity].
Qed.

(** A non-empty template is erased as well when the sender name is a
    replacement pattern: [$`] stands for the text before the match. *)
Example reply_content_erased_by_pattern :
  exists r,
    In r (returned []
            (generateReplySuggestions (healthyEnv "{{sender_name}}" 0.2)
               (mkEmail "Hello" "A question" "$`@example.com" [] "") connectedWorld))
    /\ isTemplateSuggestion r = true
    /\ content r = "".
Proof.
  eexists. split; [vm_compute; left; reflexivity|]. split; reflexivity.
Qed.

(* ------------------------------------------------------------------ *)
(** ** Quick responses and categories *)

Lemma startsWith_app s p q : JS.startsWith s (p ++ q) = true -> JS.startsWith s p = true.
Proof.
  revert s. induction p as [|c p IH]; intros s H; [reflexivity|].
  destruct s as [|d s]; simpl in *; [discriminate|].
  apply andb_true_iff in H. destruct H as [H1 H2].
  rewrite H1. simpl. apply IH. exact H2.
Qed.

Lemma includes_app s p q : JS.includes s (p ++ q) = true -> JS.includes s p = true.
Proof.
  induction s as [|d s IH]; intros H.
  - simpl in *. rewrite orb_false_r in *. apply startsWith_app in H. exact H.
  - cbn [JS.includes] in *. apply orb_true_iff in H. apply orb_true_iff.
    destruct H as [H|H]; [left; eapply startsWith_app; exact H | right; apply IH; exact H].
Qed.

(** The thanks pattern of the code is narrower than the keyword [thank]. *)
Lemma thanksPattern_stated email :
  thanksPattern email = true -> statedThanksPattern email = true.
Proof.
  unfold thanksPattern, statedThanksPattern, keywordOccurs.
  intros H. apply orb_true_iff in H. apply orb_true_iff.
  destruct H as [H|H]; [left; exact H|right].
  apply (includes_app _ "thank" " you"). exact H.
Qed.

(** C7 (quick response), as the code has it.  [generateQuickResponse] never
    throws, leaves the state alone and returns at most one suggestion.  The
    thanks pattern is: the lower-cased subject contains [thank] or the
    lower-cased body contains [thank you]; the confirmation pattern is: the
    lower-cased subject or body contains [confirm].  When the thanks pattern
    matches, the suggestion is the acknowledgment with confidence 0.9, also
    when the confirmation pattern matches too; when only the confirmation
    pattern matches it is the confirmation with confidence 0.8;
    [action_required] is false in both; when neither matches there is no
    suggestion.  The thanks pattern implies that the keyword [thank] occurs
    in the subject or the body, not the other way round. *)
Theorem quick_response_first_match email intent st :
  exists q,
    generateQuickResponse email intent st = (Returned q, st) /\
    (thanksPattern email = true ->
     exists r, q = Some r /\ confidence r = 0.9%Q /\
               reply_category (reply_metadata r) = "acknowledgment" /\
               action_required (reply_metadata r) = false) /\
    (thanksPattern email = false -> confirmPattern email = true ->
     exists r, q = Some r /\ confidence r = 0.8%Q /\
               reply_category (reply_metadata r) = "confirmation" /\
               action_required (reply_metadata r) = false) /\
    (thanksPattern email = false -> confirmPattern email = false -> q = None) /\
    (thanksPattern email = true -> statedThanksPattern email = true) /\
    confirmPattern email = statedConfirmPattern email.
Proof.
  unfold generateQuickResponse.
  fold (thanksPattern email). fold (confirmPattern email).
  pose proof (thanksPattern_stated email) as Hst.
  assert (Hc : confirmPattern email = statedConfirmPattern email) by reflexivity.
  destruct (thanksPattern email) eqn:Et.
  - eexists. split; [reflexivity|].
    split; [intros _; eexists; repeat split; reflexivity|].
    split; [discriminate|]. split; [discriminate|]. split; [exact Hst | reflexivity].
  - destruct (confirmPattern email) eqn:Ec.
    + eexists. split; [reflexivity|]. split; [discriminate|].
      split; [intros _ _; eexists; repeat split; reflexivity|].
      split; [discriminate|]. split; [discriminate | exact Hc].
    + exists None. split; [reflexivity|]. split; [discriminate|]. split; [discriminate|].
      split; [reflexivity|]. split; [discriminate | exact Hc].
Qed.

Lemma quick_response_first_match_witness :
  thanksPattern sampleEmail = true
  /\ confirmPattern sampleEmail = true
  /\ exists r,
       generateQuickResponse sampleEmail "" sampleWorld = (Returned (Some r), sampleWorld)
       /\ confidence r = 0.9%Q
       /\ action_required (reply_metadata r) = false.
Proof.
  assert (Ht : thanksPattern sampleEmail = true) by (vm_compute; reflexivity).
  split; [exact Ht|]. split; [vm_compute; reflexivity|].
  destruct (quick_response_first_match sampleEmail "" sampleWorld) as (q & Hq & H1 & _).
  destruct (H1 Ht) as (r & -> & Hc & _ & Ha).
  exists r. repeat split; assumption.
Defined.

(** C7 as stated fails for a body that holds [thank] but not
    [thank you]: alone, it gives no quick response; together with [confirm],
    the confirmation wins with confidence 0.8. *)
Lemma quick_response_counterexample :
  let thanks := mkEmail "Project update" "Thanks for the details." "a@b.c" [] "" in
  let both := mkEmail "Project update" "Thanks, please confirm." "a@b.c" [] "" in
  statedThanksPattern thanks = true
  /\ fst (generateQuickResponse thanks "" sampleWorld) = Returned None
  /\ statedThanksPattern both = true
  /\ statedConfirmPattern both = true
  /\ option_map confidence
       (returned None (generateQuickResponse both "" sampleWorld)) = Some 0.8%Q.
Proof. vm_compute. repeat split; reflexivity. Qed.

(** C8 (category of the AI suggestion), as the code has it.  [categorizeEmail]
    ignores the intent and is the first match of an ordered table of five
    rules, each with one keyword looked up in the lower-cased subject and one
    looked up in the lower-cased body: interview/interview, meeting/meeting,
    demo/demo, support/help and collaboration/project; without a match the
    category is [general].  It agrees with the stated list (any keyword of a
    rule in the subject or the body) on every email in which [help] and
    [project] do not occur in the subject and [support] and [collaboration] do
    not occur in the body. *)
Theorem categorizeEmail_table email intent :
  categorizeEmail email intent = tableCategory email /\
  (JS.includes (JS.toLowerCase (subject email)) "help" = false ->
   JS.includes (JS.toLowerCase (subject email)) "project" = false ->
   JS.includes (JS.toLowerCase (body email)) "support" = false ->
   JS.includes (JS.toLowerCase (body email)) "collaboration" = false ->
   categorizeEmail email intent = statedCategory email).
Proof.
  unfold categorizeEmail, tableCategory, statedCategory, keywordOccurs.
  cbn [firstMatch codeRules statedRules fst snd existsb].
  split.
  - reflexivity.
  - intros H1 H2 H3 H4. rewrite H1, H2, H3, H4.
    repeat rewrite orb_false_r.
    destruct (JS.includes (JS.toLowerCase (subject email)) "interview"
              || JS.includes (JS.toLowerCase (body email)) "interview"); [reflexivity|].
    destruct (JS.includes (JS.toLowerCase (subject email)) "meeting"
              || JS.includes (JS.toLowerCase (body email)) "meeting"); [reflexivity|].
    destruct (JS.includes (JS.toLowerCase (subject email)) "demo"
              || JS.includes (JS.toLowerCase (body email)) "demo"); [reflexivity|].
    destruct (JS.includes (JS.toLowerCase (subject email)) "support"); cbn [orb].
    + reflexivity.
    + destruct (JS.includes (JS.toLowerCase (body email)) "help"); [reflexivity|].
      destruct (JS.includes (JS.toLowerCase (subject email)) "collaboration");
        [reflexivity|].
      cbn [orb]. destruct (JS.includes (JS.toLowerCase (body email)) "project"); reflexivity.
Qed.

Lemma categorizeEmail_table_witness :
  let email := mkEmail "Demo REQUEST" "Could we see the product?" "a@b.c" [] "" in
  categorizeEmail email "" = "sales_demo" /\ statedCategory email = "sales_demo".
Proof.
  cbv zeta.
  destruct (categorizeEmail_table
              (mkEmail "Demo REQUEST" "Could we see the product?" "a@b.c" [] "") "")
    as [H1 H2].
  rewrite <- H2 by (vm_compute; reflexivity).
  rewrite H1. vm_compute. split; reflexivity.
Defined.

(** C8 as stated fails for the two rules whose keywords differ between
    subject and body: [help] in the subject, or [project] in the subject, does
    not trigger its category. *)
Lemma categorizeEmail_counterexample :
  let email := mkEmail "Need help" "Please get back to me." "a@b.c" [] "" in
  let email' := mkEmail "Our project" "Please get back to me." "a@b.c" [] "" in
  statedCategory email = "technical_support"
  /\ categorizeEmail email "" = "general"
  /\ statedCategory email' = "collaboration"
  /\ categorizeEmail email' "" = "general".
Proof. vm_compute. repeat split; reflexivity. Qed.

(* ------------------------------------------------------------------ *)
(** ** Embedding requests: retries, backoff and fallback *)

Lemma waitForRateLimit_run st : waitForRateLimit st = (Returned tt, afterWait st).
Proof.
  unfold waitForRateLimit, afterWait, bind, dateNow, gets, sleep, modify, ret.
  destruct (Qltb _ _); reflexivity.
Qed.

Lemma afterWait_frame st :
  rateLimitDelay (afterWait st) = rateLimitDelay st
  /\ embeddingRequests (afterWait st) = embeddingRequests st
  /\ storeView (afterWait st) = storeView st.
Proof.
  unfold afterWait. destruct (Qltb _ _); repeat split; reflexivity.
Qed.

(** One turn of the loop. *)
Lemma retryLoop_step env text remaining st :
  let st2 := set_embeddingRequests (S (embeddingRequests st)) (afterWait st) in
  retryLoop env text (S remaining) st =
  match embeddingsCreate env (embeddingRequests st) text with
  | Embedded embedding =>
      (Returned embedding, set_rateLimitDelay (decay (rateLimitDelay st)) st2)
  | EmbeddingFailed e =>
      if is429 e then
        let st3 := set_rateLimitDelay (backoff (rateLimitDelay st)) st2 in
        match remaining with
        | S _ => retryLoop env text remaining (set_now (now st3 + rateLimitDelay st3)%Q st3)
        | O => (Returned (generateFallbackEmbedding text), st3)
        end
      else if isInsufficientQuota e then (Returned (generateFallbackEmbedding text), st2)
      else (Raised e, st2)
  end.
Proof.
  destruct (afterWait_frame st) as (Hd & Hn & _).
  assert (Hd2 : forall n, rateLimitDelay (set_embeddingRequests n (afterWait st))
                          = rateLimitDelay st) by (intros n; exact Hd).
  cbn zeta. cbn [retryLoop].
  rewrite bind_run. unfold tryCatch at 1.
  rewrite bind_run, waitForRateLimit_run.
  rewrite bind_run. unfold embeddingsRequest at 1. rewrite Hn.
  destruct (embeddingsCreate env (embeddingRequests st) text) as [v|e].
  - unfold bind, modify, ret, decay. rewrite Hd2. reflexivity.
  - destruct (is429 e).
    + unfold bind at 1. unfold modify at 1. unfold backoff. rewrite Hd2.
      destruct remaining as [|k]; reflexivity.
    + destruct (isInsufficientQuota e); reflexivity.
Qed.

Lemma rateLimitedRun_shift env text first n e :
  embeddingsCreate env first text = EmbeddingFailed e ->
  is429 e = true ->
  rateLimitedRun env text (S first) n ->
  rateLimitedRun env text first (S n).
Proof.
  intros He H429 Hrun j Hj. destruct j as [|j].
  - exists e. rewrite Nat.add_0_r. split; assumption.
  - replace (first + S j) with (S first + j) by lia. apply Hrun. lia.
Qed.

Lemma Attempts_shift env text first limit hits ending out e :
  embeddingsCreate env first text = EmbeddingFailed e ->
  is429 e = true ->
  Attempts env text (S first) limit hits ending out ->
  Attempts env text first (S limit) (S hits) ending out.
Proof.
  intros He H429 H.
  inversion H as [h v Hlt Hrun Hv | h e' Hlt Hrun He' Hn Hq | h e' Hlt Hrun He' Hn Hq | Hrun];
    subst.
  - apply Succeeds; [lia | eapply rateLimitedRun_shift; eassumption |].
    replace (first + S hits) with (S first + hits) by lia. exact Hv.
  - eapply QuotaExhausted; [lia | eapply rateLimitedRun_shift; eassumption | | exact Hn | exact Hq].
    replace (first + S hits) with (S first + hits) by lia. exact He'.
  - eapply Rethrows; [lia | eapply rateLimitedRun_shift; eassumption | | exact Hn | exact Hq].
    replace (first + S hits) with (S first + hits) by lia. exact He'.
  - apply RetriesExhausted. eapply rateLimitedRun_shift; eassumption.
Qed.

Lemma rateLimitedRun_0 env text first : rateLimitedRun env text first 0.
Proof. intros j Hj. lia. Qed.

Lemma finalDelay_shift hits ending delay :
  finalDelay hits ending (backoff delay) = finalDelay (S hits) ending delay.
Proof.
  unfold finalDelay. rewrite Nat.iter_succ_r. reflexivity.
Qed.

(** The whole loop: how it ends, what it yields, how many requests it sends,
    the delay it leaves and what it does not touch. *)
Lemma retryLoop_run env text remaining :
  forall st,
  exists hits ending out st',
    retryLoop env text remaining st = (out, st') /\
    Attempts env text (embeddingRequests st) remaining hits ending out /\
    embeddingRequests st' = embeddingRequests st + requestsSent remaining hits ending /\
    rateLimitDelay st' = finalDelay hits ending (rateLimitDelay st) /\
    storeView st' = storeView st.
Proof.
  induction remaining as [|k IH]; intros st.
  - exists 0, ByExhaustion, (Returned (generateFallbackEmbedding text)), st.
    split; [reflexivity|]. split; [apply RetriesExhausted, rateLimitedRun_0|].
    split; [cbn; lia|]. split; reflexivity.
  - pose proof (retryLoop_step env text k st) as Hstep. cbv zeta in Hstep.
    destruct (afterWait_frame st) as (Hd & _ & Hview).
    set (st2 := set_embeddingRequests (S (embeddingRequests st)) (afterWait st)) in *.
    assert (Hview2 : storeView st2 = storeView st) by exact Hview.
    destruct (embeddingsCreate env (embeddingRequests st) text) as [v|e] eqn:Hreply.
    + exists 0, BySuccess, (Returned v). eexists. split; [exact Hstep|].
      split; [apply Succeeds; [lia | apply rateLimitedRun_0 | rewrite Nat.add_0_r; exact Hreply]|].
      split; [cbn; lia|]. split; [reflexivity | exact Hview2].
    + destruct (is429 e) eqn:H429; [|destruct (isInsufficientQuota e) eqn:Hquota].
      * destruct k as [|k'].
        -- exists 1, ByExhaustion, (Returned (generateFallbackEmbedding text)). eexists.
           split; [exact Hstep|].
           split; [apply RetriesExhausted; eapply rateLimitedRun_shift;
                   [exact Hreply | exact H429 | apply rateLimitedRun_0]|].
           split; [cbn; lia|]. split; [reflexivity | exact Hview2].
        -- match type of Hstep with _ = retryLoop _ _ _ ?s => set (st4 := s) in * end.
           destruct (IH st4) as (hits & ending & out & st' & Hrun & Hatt & Hreq & Hdelay & Hv).
           exists (S hits), ending, out, st'.
           split; [rewrite Hstep; exact Hrun|].
           split; [eapply Attempts_shift; [exact Hreply | exact H429 | exact Hatt]|].
           split; [rewrite Hreq; change (embeddingRequests st4) with (S (embeddingRequests st));
                   destruct ending; cbn; lia|].
           split; [rewrite Hdelay; apply finalDelay_shift | rewrite Hv; exact Hview2].
      * exists 0, ByQuota, (Returned (generateFallbackEmbedding text)). eexists.
        split; [exact Hstep|].
        split; [eapply QuotaExhausted;
                [lia | apply rateLimitedRun_0 | rewrite Nat.add_0_r; exact Hreply
                 | exact H429 | exact Hquota]|].
        split; [cbn; lia|]. split; [exact Hd | exact Hview2].
      * exists 0, ByRethrow, (Raised e). eexists. split; [exact Hstep|].
        split; [eapply Rethrows;
                [lia | apply rateLimitedRun_0 | rewrite Nat.add_0_r; exact Hreply
                 | exact H429 | exact Hquota]|].
        split; [cbn; lia|]. split; [exact Hd | exact Hview2].
Qed.

Lemma generateEmbeddings_run env text st :
  exists hits ending out st',
    generateEmbeddings env text st = (out, st') /\
    Attempts env text (embeddingRequests st) maxRetries hits ending out /\
    embeddingRequests st' = embeddingRequests st + requestsSent maxRetries hits ending /\
    rateLimitDelay st' = finalDelay hits ending (rateLimitDelay st) /\
    storeView st' = storeView st.
Proof. apply retryLoop_run. Qed.

Lemma Attempts_hits env text first limit hits ending out :
  Attempts env text first limit hits ending out ->
  hits <= limit /\ rateLimitedRun env text first hits.
Proof. intros H. inversion H; subst; split; try assumption; lia. Qed.

(** *** The delay stays in its range *)

Lemma backoff_facts d :
  delayInRange d ->
  delayInRange (backoff d)
  /\ (d <= backoff d)%Q
  /\ ((d < 30000)%Q -> (d < backoff d)%Q)
  /\ ((d <= 15000)%Q -> (backoff d == d * 2)%Q)
  /\ ((15000 <= d)%Q -> (backoff d == 30000)%Q).
Proof.
  unfold delayInRange, backoff. intros [Hlo Hhi].
  destruct (Q.min_spec 30000 (d * 2)) as [[H1 H2]|[H1 H2]];
    set (b := Qmin 30000 (d * 2)) in *; clearbody b;
    repeat split; intros; lra.
Qed.

Lemma decay_facts d :
  delayInRange d ->
  delayInRange (decay d)
  /\ (decay d <= d)%Q
  /\ ((1000 <= d * 0.9)%Q -> (decay d == d * 0.9)%Q)
  /\ ((d * 0.9 <= 1000)%Q -> (decay d == 1000)%Q).
Proof.
  unfold delayInRange, decay. intros [Hlo Hhi].
  destruct (Q.max_spec 1000 (d * 0.9)) as [[H1 H2]|[H1 H2]];
    set (b := Qmax 1000 (d * 0.9)) in *; clearbody b;
    repeat split; intros; lra.
Qed.

Lemma iter_backoff_inRange n d : delayInRange d -> delayInRange (Nat.iter n backoff d).
Proof.
  intros H. induction n as [|n IH]; [exact H|].
  cbn [Nat.iter nat_rect]. apply backoff_facts. exact IH.
Qed.

Lemma finalDelay_inRange hits ending d :
  delayInRange d -> delayInRange (finalDelay hits ending d).
Proof.
  intros H. pose proof (iter_backoff_inRange hits d H) as Hi.
  destruct ending; cbn [finalDelay]; try exact Hi. apply decay_facts. exact Hi.
Qed.

(** *** The range is an invariant of every operation *)

Lemma keeps_ret {A} (a : A) : keepsDelayInRange (ret a).
Proof. intros st H. exact H. Qed.

Lemma keeps_throw {A} e : keepsDelayInRange (@throw A e).
Proof. intros st H. exact H. Qed.

Lemma keeps_gets {A} (f : State -> A) : keepsDelayInRange (gets f).
Proof. intros st H. exact H. Qed.

Lemma keeps_modify f :
  (forall st, rateLimitDelay (f st) = rateLimitDelay st) -> keepsDelayInRange (modify f).
Proof. intros Hf st H. cbn. rewrite Hf. exact H. Qed.

Lemma keeps_bind {A B} (m : M A) (k : A -> M B) :
  keepsDelayInRange m -> (forall a, keepsDelayInRange (k a)) -> keepsDelayInRange (bind m k).
Proof.
  intros Hm Hk st H. specialize (Hm st H). unfold bind.
  destruct (m st) as [[a|e] st1]; cbn [snd] in *; [apply Hk; exact Hm | exact Hm].
Qed.

Lemma keeps_tryCatch {A} (m : M A) handler :
  keepsDelayInRange m -> (forall e, keepsDelayInRange (handler e)) ->
  keepsDelayInRange (tryCatch m handler).
Proof.
  intros Hm Hh st H. specialize (Hm st H). unfold tryCatch.
  destruct (m st) as [[a|e] st1]; cbn [snd] in *; [exact Hm | apply Hh; exact Hm].
Qed.

Lemma keeps_forEach {A B} (l : list A) (f : A -> M B) :
  (forall x, keepsDelayInRange (f x)) -> keepsDelayInRange (forEach l f).
Proof.
  intros Hf. induction l as [|x rest IH]; cbn [forEach].
  - apply keeps_ret.
  - apply keeps_bind; [apply Hf | intros _; exact IH].
Qed.

Lemma keeps_dateNow : keepsDelayInRange dateNow.
Proof. apply keeps_gets. Qed.

Lemma keeps_uuidv4 : keepsDelayInRange uuidv4.
Proof. intros st H. exact H. Qed.

Lemma keeps_chromaRequest env : keepsDelayInRange (chromaRequest env).
Proof. intros st H. unfold chromaRequest. destruct (chromaUp env _); exact H. Qed.

Lemma keeps_chatRequest env prompt : keepsDelayInRange (chatRequest env prompt).
Proof. intros st H. unfold chatRequest. destruct (chatCreate env _ _); exact H. Qed.

Lemma keeps_generateEmbeddings env text : keepsDelayInRange (generateEmbeddings env text).
Proof.
  intros st H.
  destruct (generateEmbeddings_run env text st) as (hits & ending & out & st' & Hrun & _ & _ & Hd & _).
  rewrite Hrun. cbn [snd]. rewrite Hd. apply finalDelay_inRange. exact H.
Qed.

Lemma keeps_generate env texts : keepsDelayInRange (generate env texts).
Proof.
  induction texts as [|text rest IH]; cbn [generate].
  - apply keeps_ret.
  - apply keeps_bind.
    + apply keeps_tryCatch; [apply keeps_generateEmbeddings | intros _; apply keeps_ret].
    + intros v. apply keeps_bind; [exact IH | intros vs; apply keeps_ret].
Qed.

Create HintDb keeps.
#[local] Hint Resolve keeps_ret keeps_throw keeps_gets keeps_dateNow keeps_uuidv4
  keeps_chromaRequest keeps_chatRequest keeps_generateEmbeddings keeps_generate : keeps.

(** Takes a computation apart along its binds, handlers and branches. *)
Ltac keeps :=
  repeat first
    [ solve [auto with keeps]
    | apply keeps_bind; [|intros ?]
    | apply keeps_tryCatch; [|intros ?]
    | apply keeps_forEach; intros ?
    | apply keeps_modify; intros ?; reflexivity
    | match goal with
      | |- keepsDelayInRange (if ?c then _ else _) => destruct c
      | |- keepsDelayInRange (match ?x with _ => _ end) => destruct x
      end ].

Lemma keeps_addKnowledgeItem env item : keepsDelayInRange (addKnowledgeItem env item).
Proof. unfold addKnowledgeItem, collectionAdd. keeps. Qed.

Lemma keeps_addReplyTemplate env t : keepsDelayInRange (addReplyTemplate env t).
Proof. unfold addReplyTemplate, collectionAdd. keeps. Qed.

Lemma keeps_searchKnowledge env query limit :
  keepsDelayInRange (searchKnowledge env query limit).
Proof. unfold searchKnowledge, collectionQuery. keeps. Qed.

Lemma keeps_searchReplyTemplates env query limit :
  keepsDelayInRange (searchReplyTemplates env query limit).
Proof. unfold searchReplyTemplates, collectionQuery. keeps. Qed.

Lemma keeps_getStats env : keepsDelayInRange (getStats env).
Proof. unfold getStats, collectionCount. keeps. Qed.

#[local] Hint Resolve keeps_addKnowledgeItem keeps_addReplyTemplate keeps_searchKnowledge
  keeps_searchReplyTemplates keeps_getStats : keeps.

Lemma keeps_seedKnowledgeBase env : keepsDelayInRange (seedKnowledgeBase env).
Proof. unfold seedKnowledgeBase. keeps. Qed.

#[local] Hint Resolve keeps_seedKnowledgeBase : keeps.

Lemma keeps_initialize env : keepsDelayInRange (initialize env).
Proof. unfold initialize, initializeCollections. keeps. Qed.

Lemma keeps_generateReplySuggestions env email :
  keepsDelayInRange (generateReplySuggestions env email).
Proof.
  unfold generateReplySuggestions, suggest, analyzeEmailIntent, generateTemplateBasedReply,
    generateAIContextualReply, generateQuickResponse.
  keeps.
Qed.

(** C5 (rate-limit backoff bounds).  A new service starts with a delay of
    1000 ms.  A call of [generateEmbeddings] that starts with the delay in
    [1000, 30000] leaves it there, whether it returns or throws: the final
    delay is the starting one after one [backoff] per rate-limit error met (at
    most three), followed by one [decay] when the call ended with a success.
    On a delay in range, [backoff] is [min(30000, 2 d)]: it never exceeds
    30000, doubles the delay up to 15000, is strictly increasing below 30000;
    [decay] is [max(1000, 0.9 d)]: it multiplies by 0.9 and never goes below
    1000.  From 1000 the consecutive rate-limit errors give 2000, 4000, 8000,
    16000, 30000, 30000.  Every operation of the two services keeps the delay
    in range. *)
Theorem rate_limit_backoff_bounds env text st out st' :
  delayInRange (rateLimitDelay st) ->
  generateEmbeddings env text st = (out, st') ->
  delayInRange (rateLimitDelay st')
  /\ (exists hits ending,
        hits <= maxRetries
        /\ rateLimitedRun env text (embeddingRequests st) hits
        /\ Attempts env text (embeddingRequests st) maxRetries hits ending out
        /\ rateLimitDelay st' = finalDelay hits ending (rateLimitDelay st))
  /\ (forall d, delayInRange d ->
        delayInRange (backoff d)
        /\ (backoff d <= 30000)%Q
        /\ ((d < 30000)%Q -> (d < backoff d)%Q)
        /\ ((d <= 15000)%Q -> (backoff d == d * 2)%Q)
        /\ ((15000 <= d)%Q -> (backoff d == 30000)%Q)
        /\ delayInRange (decay d)
        /\ ((1000 <= d * 0.9)%Q -> (decay d == d * 0.9)%Q)
        /\ ((d * 0.9 <= 1000)%Q -> (decay d == 1000)%Q))
  /\ (forall w, rateLimitDelay (construct w) = 1000%Q)
  /\ map (fun n => Nat.iter n backoff 1000%Q) [1; 2; 3; 4; 5; 6]
     = [2000; 4000; 8000; 16000; 30000; 30000]%Q
  /\ (forall texts item replyTemplate query limit email,
        keepsDelayInRange (generateEmbeddings env text)
        /\ keepsDelayInRange (generate env texts)
        /\ keepsDelayInRange (addKnowledgeItem env item)
        /\ keepsDelayInRange (addReplyTemplate env replyTemplate)
        /\ keepsDelayInRange (searchKnowledge env query limit)
        /\ keepsDelayInRange (searchReplyTemplates env query limit)
        /\ keepsDelayInRange (getStats env)
        /\ keepsDelayInRange (seedKnowledgeBase env)
        /\ keepsDelayInRange (initialize env)
        /\ keepsDelayInRange (generateReplySuggestions env email)).
Proof.
  intros Hin Hrun.
  destruct (generateEmbeddings_run env text st)
    as (hits & ending & out0 & st0 & Hrun0 & Hatt & _ & Hdelay & _).
  rewrite Hrun in Hrun0. injection Hrun0 as <- <-.
  split; [rewrite Hdelay; apply finalDelay_inRange; exact Hin|].
  split.
  { exists hits, ending. destruct (Attempts_hits _ _ _ _ _ _ _ Hatt) as [Hle Hrl].
    repeat split; assumption. }
  split.
  { intros d Hd. destruct (backoff_facts d Hd) as (B1 & B2 & B3 & B4 & B5).
    destruct (decay_facts d Hd) as (D1 & D2 & D3 & D4).
    repeat split; try assumption; apply B1 || apply D1. }
  split; [reflexivity|]. split; [vm_compute; reflexivity|].
  intros texts item replyTemplate query limit email.
  repeat (split; [solve [auto using keeps_initialize with keeps]|]).
  apply keeps_generateReplySuggestions.
Qed.

Lemma rate_limit_backoff_bounds_witness :
  let env := embeddingEnv (EmbeddingFailed rateLimited) in
  let run := generateEmbeddings env "hello" sampleWorld in
  delayInRange (rateLimitDelay sampleWorld)
  /\ delayInRange (rateLimitDelay (snd run)).
Proof.
  cbv zeta.
  assert (H : delayInRange (rateLimitDelay sampleWorld)) by (split; vm_compute; discriminate).
  split; [exact H|].
  exact (proj1 (rate_limit_backoff_bounds
                  (embeddingEnv (EmbeddingFailed rateLimited)) "hello" sampleWorld
                  _ _ H (surjective_pairing _))).
Defined.

(** Three rate-limit errors in one call, from the initial delay. *)
Example three_rate_limit_errors :
  let run := generateEmbeddings (embeddingEnv (EmbeddingFailed rateLimited)) "hello"
               sampleWorld in
  rateLimitDelay (snd run) = 8000%Q /\ embeddingRequests (snd run) = 3.
Proof. vm_compute. split; reflexivity. Qed.

(** *** The embedding function never throws *)

Lemma generate_cons env text rest st :
  generate env (text :: rest) st =
  match generateEmbeddings env text st with
  | (Returned embedding, st1) =>
      match generate env rest st1 with
      | (Returned embeddings, st2) => (Returned (embedding :: embeddings), st2)
      | (Raised e, st2) => (Raised e, st2)
      end
  | (Raised _, st1) =>
      match generate env rest st1 with
      | (Returned embeddings, st2) =>
          (Returned (generateFallbackEmbedding text :: embeddings), st2)
      | (Raised e, st2) => (Raised e, st2)
      end
  end.
Proof.
  cbn [generate]. unfold bind at 1, tryCatch at 1.
  destruct (generateEmbeddings env text st) as [[v|e] st1]; reflexivity.
Qed.

Lemma generate_returns env texts :
  forall st,
  exists embeddings st',
    generate env texts st = (Returned embeddings, st') /\
    List.length embeddings = List.length texts /\
    storeView st' = storeView st /\
    (delayInRange (rateLimitDelay st) -> delayInRange (rateLimitDelay st')).
Proof.
  induction texts as [|text rest IH]; intros st.
  - exists [], st. split; [reflexivity|]. split; [reflexivity|]. split; [reflexivity|]. auto.
  - rewrite generate_cons.
    destruct (generateEmbeddings_run env text st)
      as (hits & ending & out & st1 & Hrun & _ & _ & Hdelay & Hview).
    rewrite Hrun.
    destruct (IH st1) as (vs & st2 & Hrest & Hlen & Hview2 & Hin2).
    assert (Hin : delayInRange (rateLimitDelay st) -> delayInRange (rateLimitDelay st2)).
    { intros H. apply Hin2. rewrite Hdelay. apply finalDelay_inRange. exact H. }
    destruct out as [v|e]; rewrite Hrest; eexists; eexists;
      (split; [reflexivity|]); cbn [List.length]; rewrite Hlen, Hview2, Hview; auto.
Qed.

Lemma repliesSeparate_at env text first j e :
  repliesSeparate env text first = true ->
  j < maxRetries ->
  embeddingsCreate env (first + j) text = EmbeddingFailed e ->
  is429 e = true ->
  isInsufficientQuota e = false.
Proof.
  intros Hsep Hj Hreply H429. unfold repliesSeparate in Hsep.
  rewrite forallb_forall in Hsep.
  assert (Hin : In j (seq 0 maxRetries)) by (apply in_seq; lia).
  specialize (Hsep j Hin). rewrite Hreply in Hsep.
  unfold ambiguous in Hsep. rewrite H429 in Hsep. cbn [andb] in Hsep.
  apply negb_true_iff in Hsep. exact Hsep.
Qed.

(** A rate-limit reply among separate replies is not a quota error. *)
Lemma rateLimitedRun_separate env text first n j e :
  repliesSeparate env text first = true ->
  rateLimitedRun env text first n ->
  n <= maxRetries ->
  j < n ->
  embeddingsCreate env (first + j) text = EmbeddingFailed e ->
  is429 e = true /\ isInsufficientQuota e = false.
Proof.
  intros Hsep Hrun Hn Hj Hreply.
  destruct (Hrun j Hj) as (e' & Hreply' & H429).
  rewrite Hreply in Hreply'. injection Hreply' as <-.
  split; [exact H429|].
  apply (repliesSeparate_at env text first j e Hsep); [lia | exact Hreply | exact H429].
Qed.

(** C3 (failures of the embedding request), as the code has it by design.
    Take a call of [generateEmbeddings] in which no reply is an error with
    both the status 429 and the code [insufficient_quota].  The call sends
    at most three requests and ends in one of four ways, after [hits]
    rate-limit errors (status 429, none of them a quota error): the next
    reply is an embedding, which it returns; or it is an
    [insufficient_quota] error, and the call returns the fallback embedding
    without another request; or it is any other error (an authentication
    failure, a network error), and the call throws that error without
    another request; or all three replies were rate-limit errors and it
    returns the fallback embedding.  So a quota error among the replies is
    always the last one, and is answered with the fallback embedding.  The
    embedding function the store uses, [generate], catches what
    [generateEmbeddings] throws and puts the fallback embedding in its place:
    it returns one embedding per text and never throws.  What the call does
    with an error that has both marks is left out here. *)
Theorem embedding_failure_policy env text st :
  repliesSeparate env text (embeddingRequests st) = true ->
  exists hits ending out st',
    generateEmbeddings env text st = (out, st') /\
    Attempts env text (embeddingRequests st) maxRetries hits ending out /\
    embeddingRequests st' = embeddingRequests st + requestsSent maxRetries hits ending /\
    requestsSent maxRetries hits ending <= 3 /\
    (forall j, j < hits ->
       exists e,
         embeddingsCreate env (embeddingRequests st + j) text = EmbeddingFailed e /\
         is429 e = true /\ isInsufficientQuota e = false) /\
    (forall j e,
       j < requestsSent maxRetries hits ending ->
       embeddingsCreate env (embeddingRequests st + j) text = EmbeddingFailed e ->
       isInsufficientQuota e = true ->
       j = hits /\ ending = ByQuota /\
       out = Returned (generateFallbackEmbedding text)) /\
    (forall e, out = Raised e <-> (ending = ByRethrow /\ out = Raised e)) /\
    (exists st'',
        generate env [text] st
        = (Returned [match out with
                     | Returned embedding => embedding
                     | Raised _ => generateFallbackEmbedding text
                     end], st'')) /\
    (forall texts, exists embeddings st'',
        generate env texts st = (Returned embeddings, st'') /\
        List.length embeddings = List.length texts).
Proof.
  intros Hsep.
  destruct (generateEmbeddings_run env text st)
    as (hits & ending & out & st' & Hrun & Hatt & Hreq & _ & _).
  exists hits, ending, out, st'.
  split; [exact Hrun|]. split; [exact Hatt|]. split; [exact Hreq|].
  split.
  { inversion Hatt; subst; cbn [requestsSent]; unfold maxRetries in *; lia. }
  destruct (Attempts_hits _ _ _ _ _ _ _ Hatt) as [Hle Hhits].
  assert (Hnot : forall j e,
             j < hits ->
             embeddingsCreate env (embeddingRequests st + j) text = EmbeddingFailed e ->
             isInsufficientQuota e = true -> False).
  { intros j e Hj Hreply Hq.
    destruct (rateLimitedRun_separate env text _ hits j e Hsep Hhits Hle Hj Hreply)
      as [_ Hnq].
    rewrite Hq in Hnq. discriminate Hnq. }
  split.
  { intros j Hj. destruct (Hhits j Hj) as (e & Hreply & H429).
    exists e. split; [exact Hreply|].
    exact (rateLimitedRun_separate env text _ hits j e Hsep Hhits Hle Hj Hreply). }
  split.
  { intros j e Hj Hreply Hq.
    assert (Hjh : j = hits \/ j < hits).
    { inversion Hatt; subst; cbn [requestsSent] in Hj; lia. }
    destruct Hjh as [->|Hlt]; [|destruct (Hnot j e Hlt Hreply Hq)].
    inversion Hatt as [h v Hlt Hrl Hrep Eh Ee Eo
                      | h e' Hlt Hrl Hrep H4 Hq' Eh Ee Eo
                      | h e' Hlt Hrl Hrep H4 Hq' Eh Ee Eo
                      | Hrl Eh Ee Eo]; subst.
    - rewrite Hreply in Hrep. discriminate Hrep.
    - repeat split; reflexivity.
    - rewrite Hreply in Hrep. injection Hrep as <-. rewrite Hq in Hq'. discriminate Hq'.
    - cbn [requestsSent] in Hj. lia. }
  split.
  { intros e. split; [|tauto]. intros ->. split; [|reflexivity].
    inversion Hatt; reflexivity. }
  split.
  { exists st'. rewrite generate_cons, Hrun. destruct out; reflexivity. }
  intros texts. destruct (generate_returns env texts st) as (vs & st2 & H & Hlen & _).
  exists vs, st2. split; assumption.
Qed.

Lemma embedding_failure_policy_witness :
  repliesSeparate rateLimitThenQuotaEnv "hello" (embeddingRequests sampleWorld) = true
  /\ fst (generateEmbeddings rateLimitThenQuotaEnv "hello" sampleWorld)
     = Returned (generateFallbackEmbedding "hello").
Proof.
  split; [reflexivity|].
  destruct (embedding_failure_policy rateLimitThenQuotaEnv "hello" sampleWorld eq_refl)
    as (hits & ending & out & st' & Hrun & Hatt & _).
  rewrite Hrun. cbn [fst].
  change (embeddingRequests sampleWorld) with 0 in Hatt.
  inversion Hatt as [h v Hlt Hrl Hrep Eh Ee Eo
                    | h e Hlt Hrl Hrep H4 Hq Eh Ee Eo
                    | h e Hlt Hrl Hrep H4 Hq Eh Ee Eo
                    | Hrl Eh Ee Eo]; try reflexivity.
  - destruct hits; cbn in Hrep; discriminate Hrep.
  - destruct hits; cbn in Hrep; injection Hrep as <-; [discriminate H4 | discriminate Hq].
Defined.

(** An error with both marks takes the branch of the status, which is
    tested first, and is retried as a rate limit: three requests, and the
    delay doubled three times. *)
Example quota_error_with_status_429 :
  let env := embeddingEnv (EmbeddingFailed quotaWithStatus429) in
  let run := generateEmbeddings env "hello" sampleWorld in
  repliesSeparate env "hello" (embeddingRequests sampleWorld) = false
  /\ rateLimitDelay (snd run) = 8000%Q /\ embeddingRequests (snd run) = 3.
Proof. vm_compute. repeat split; reflexivity. Qed.

(** C3 as stated fails for an authentication failure and for a network
    error: [generateEmbeddings] sends one request and throws. *)
Lemma embedding_failure_counterexample :
  let networkError := mkError None None "connect ECONNREFUSED" in
  fst (generateEmbeddings (embeddingEnv (EmbeddingFailed unauthorized)) "hello" sampleWorld)
  = Raised unauthorized
  /\ fst (generateEmbeddings (embeddingEnv (EmbeddingFailed networkError)) "hello" sampleWorld)
     = Raised networkError
  /\ embeddingRequests
       (snd (generateEmbeddings (embeddingEnv (EmbeddingFailed unauthorized)) "hello"
               sampleWorld)) = 1.
Proof. vm_compute. repeat split; reflexivity. Qed.

(* ------------------------------------------------------------------ *)
(** ** The fallback embedding *)

Lemma addAt_length index x v : List.length (addAt index x v) = List.length v.
Proof.
  revert index. induction v as [|val rest IH]; intros [|k]; cbn; auto.
Qed.

Lemma addAt_nth index x v j :
  nth j (addAt index x v) 0%R
  = (nth j v 0 + (if (index =? j) && (j <? List.length v) then x else 0))%R.
Proof.
  revert index j. induction v as [|val rest IH]; intros index j.
  - destruct j; cbn; rewrite andb_false_r; ring.
  - destruct index as [|k], j as [|j]; cbn [addAt nth List.length].
    + cbn. ring.
    + cbn. ring.
    + cbn. ring.
    + rewrite IH. reflexivity.
Qed.

Lemma addAt_zero index v : addAt index 0%R v = v.
Proof.
  revert index. induction v as [|val rest IH]; intros [|k]; cbn; [reflexivity..| |].
  - f_equal. ring.
  - f_equal. apply IH.
Qed.

Lemma hashLoop_length text : forall i v, List.length (hashLoop i text v) = List.length v.
Proof.
  induction text as [|c rest IH]; intros i v; cbn [hashLoop]; [reflexivity|].
  rewrite IH. apply addAt_length.
Qed.

(** The loop adds to each component the perturbation the specification
    describes. *)
Lemma hashLoop_nth text : forall i v j,
  j < List.length v ->
  nth j (hashLoop i text v) 0%R = (nth j v 0 + perturbation (List.length v) j i text)%R.
Proof.
  induction text as [|c rest IH]; intros i v j Hj; cbn [hashLoop perturbation].
  - ring.
  - rewrite IH by (rewrite addAt_length; exact Hj).
    rewrite addAt_length, addAt_nth.
    apply Nat.ltb_lt in Hj. rewrite Hj, andb_true_r. ring.
Qed.

Lemma fold_sumSquares v : forall a,
  fold_left (fun sum val => (sum + val * val)%R) v a = (a + sumSquares v)%R.
Proof.
  unfold sumSquares. induction v as [|val rest IH]; intros a; cbn [fold_left].
  - ring.
  - rewrite IH. rewrite (IH (0 + val * val)%R). ring.
Qed.

Lemma sumSquares_cons val rest : sumSquares (val :: rest) = (val * val + sumSquares rest)%R.
Proof.
  unfold sumSquares at 1. cbn [fold_left]. rewrite fold_sumSquares. ring.
Qed.

Lemma sumSquares_nonneg v : (0 <= sumSquares v)%R.
Proof.
  induction v as [|val rest IH]; [unfold sumSquares; cbn; lra|].
  rewrite sumSquares_cons. pose proof (Rle_0_sqr val) as H. unfold Rsqr in H. lra.
Qed.

Lemma sumSquares_zero v : sumSquares v = 0%R -> v = repeat 0%R (List.length v).
Proof.
  induction v as [|val rest IH]; intros H; [reflexivity|].
  rewrite sumSquares_cons in H.
  pose proof (sumSquares_nonneg rest) as Hr.
  pose proof (Rle_0_sqr val) as Hv. unfold Rsqr in Hv.
  assert (Hval : (val * val = 0)%R) by lra.
  assert (Hrest : sumSquares rest = 0%R) by lra.
  apply Rmult_integral in Hval.
  cbn [List.length repeat]. f_equal; [destruct Hval; assumption | apply IH; exact Hrest].
Qed.

Lemma sumSquares_repeat_zero n : sumSquares (repeat 0%R n) = 0%R.
Proof.
  induction n as [|n IH]; [reflexivity|].
  cbn [repeat]. rewrite sumSquares_cons, IH. ring.
Qed.

Lemma sumSquares_scaled m v :
  m <> 0%R ->
  sumSquares (map (fun val => (val / m)%R) v) = (sumSquares v / (m * m))%R.
Proof.
  intros Hm. induction v as [|val rest IH].
  - unfold sumSquares. cbn. field. exact Hm.
  - cbn [map]. rewrite !sumSquares_cons, IH. field. exact Hm.
Qed.

(** Dividing by a positive magnitude normalizes. *)
Lemma norm_scaled v :
  (0 < sqrt (sumSquares v))%R ->
  norm (map (fun val => (val / sqrt (sumSquares v))%R) v) = 1%R.
Proof.
  intros Hpos. unfold norm.
  rewrite sumSquares_scaled by lra.
  rewrite sqrt_sqrt by apply sumSquares_nonneg.
  assert (Hs : sumSquares v <> 0%R).
  { intros H0. rewrite H0, sqrt_0 in Hpos. lra. }
  replace (sumSquares v / sumSquares v)%R with 1%R by (field; exact Hs).
  apply sqrt_1.
Qed.

(** The two ways [generateFallbackEmbedding] ends. *)
Lemma generateFallbackEmbedding_cases text :
  let embedding := hashLoop 0 text (repeat 0%R 1536) in
  let magnitude := sqrt (sumSquares embedding) in
  ((0 < magnitude)%R
   /\ generateFallbackEmbedding text = map (fun val => (val / magnitude)%R) embedding)
  \/ (magnitude = 0%R
      /\ embedding = repeat 0%R 1536
      /\ generateFallbackEmbedding text = repeat 0%R 1536).
Proof.
  cbv zeta. unfold generateFallbackEmbedding.
  generalize (hashLoop_length text 0 (repeat 0%R 1536)).
  rewrite repeat_length.
  generalize (hashLoop 0 text (repeat 0%R 1536)). intros v Hlen.
  destruct (Rlt_dec 0 (sqrt (sumSquares v))) as [Hpos|Hnot].
  - left. split; [exact Hpos | reflexivity].
  - right.
    assert (Hm : sqrt (sumSquares v) = 0%R).
    { pose proof (sqrt_pos (sumSquares v)). lra. }
    assert (Hv : v = repeat 0%R 1536).
    { rewrite <- Hlen. apply sumSquares_zero.
      apply sqrt_eq_0; [apply sumSquares_nonneg | exact Hm]. }
    repeat split; assumption.
Qed.

(** A text of one character leaves the zero vector. *)
Lemma single_character_zero c :
  generateFallbackEmbedding (String c EmptyString) = repeat 0%R 1536
  /\ norm (generateFallbackEmbedding (String c EmptyString)) = 0%R.
Proof.
  assert (H : generateFallbackEmbedding (String c EmptyString) = repeat 0%R 1536).
  { unfold generateFallbackEmbedding. cbn [hashLoop].
    rewrite Nat.mul_0_r. change (INR 0) with 0%R. rewrite sin_0, Rmult_0_l, addAt_zero.
    rewrite sumSquares_repeat_zero, sqrt_0.
    destruct (Rlt_dec 0 0) as [Habs|_]; [lra | reflexivity]. }
  split; [exact H|].
  rewrite H. unfold norm. rewrite sumSquares_repeat_zero. apply sqrt_0.
Qed.

(** C10 (one-character text).  For every text of exactly one character the
    one accumulated term is [sin(charCode * 0) * 0.01 = 0], the magnitude is 0,
    normalization is skipped and [generateFallbackEmbedding] returns the zero
    vector of dimension 1536: its norm is 0, not 1, although the text is not
    empty. *)
Theorem single_character_embedding_is_zero (c : ascii) :
  let text := String c EmptyString in
  String.length text = 1
  /\ text <> ""
  /\ (sin (INR (JS.charCode c * 0)) * 0.01 = 0)%R
  /\ sqrt (sumSquares (hashLoop 0 text (repeat 0%R 1536))) = 0%R
  /\ generateFallbackEmbedding text = repeat 0%R 1536
  /\ List.length (generateFallbackEmbedding text) = 1536
  /\ norm (generateFallbackEmbedding text) = 0%R
  /\ norm (generateFallbackEmbedding text) <> 1%R.
Proof.
  cbv zeta. destruct (single_character_zero c) as [Hzero Hnorm].
  split; [reflexivity|]. split; [discriminate|].
  split; [rewrite Nat.mul_0_r; change (INR 0) with 0%R; rewrite sin_0; ring|].
  split.
  { destruct (generateFallbackEmbedding_cases (String c EmptyString)) as [[Hpos Heq]|[Hm _]];
      cbv zeta in *; [|exact Hm].
    exfalso. pose proof (norm_scaled _ Hpos) as H1. rewrite <- Heq, Hnorm in H1. lra. }
  split; [exact Hzero|]. split; [rewrite Hzero; apply repeat_length|].
  split; [exact Hnorm|]. rewrite Hnorm. lra.
Qed.

(** C4 (fallback embedding), as the code has it.  [generateFallbackEmbedding]
    is a function of the text alone, so equal texts give equal vectors, and
    its result always has 1536 components.  Before normalization, component
    [j] is the sum of [sin(charCode * position) * 0.01] over the characters
    whose index [(charCode + position) mod 1536] is [j].  When the magnitude
    of that vector is positive the result is the vector divided by its
    magnitude and has Euclidean norm 1 (in exact real arithmetic); when the
    magnitude is 0 the result is the zero vector, unchanged, with norm 0.
    One of the two holds for every text; the second for every text of one
    character. *)
Theorem fallback_embedding_normalized text :
  let embedding := hashLoop 0 text (repeat 0%R 1536) in
  (forall text', text' = text -> generateFallbackEmbedding text' = generateFallbackEmbedding text)
  /\ List.length (generateFallbackEmbedding text) = 1536
  /\ (forall j, j < 1536 -> nth j embedding 0%R = perturbation 1536 j 0 text)
  /\ ((0 < norm embedding)%R ->
      generateFallbackEmbedding text = map (fun val => (val / norm embedding)%R) embedding
      /\ norm (generateFallbackEmbedding text) = 1%R)
  /\ (norm embedding = 0%R ->
      generateFallbackEmbedding text = repeat 0%R 1536
      /\ norm (generateFallbackEmbedding text) = 0%R)
  /\ ((0 < norm embedding)%R \/ norm embedding = 0%R)
  /\ (String.length text = 1 -> norm embedding = 0%R).
Proof.
  cbv zeta.
  pose proof (hashLoop_length text 0 (repeat 0%R 1536)) as Hlen.
  rewrite repeat_length in Hlen.
  pose proof (generateFallbackEmbedding_cases text) as Hcases. cbv zeta in Hcases.
  fold (norm (hashLoop 0 text (repeat 0%R 1536))) in Hcases.
  split; [intros text' ->; reflexivity|].
  split.
  { destruct Hcases as [[_ ->]|[_ [_ ->]]];
      [rewrite length_map; exact Hlen | apply repeat_length]. }
  split.
  { intros j Hj. rewrite hashLoop_nth by (rewrite repeat_length; exact Hj).
    rewrite repeat_length, nth_repeat. ring. }
  split.
  { intros Hpos. destruct Hcases as [[_ Heq]|[Hm _]]; [|lra].
    split; [exact Heq|]. rewrite Heq. apply norm_scaled. exact Hpos. }
  split.
  { intros Hzero. destruct Hcases as [[Hpos _]|[_ [_ Heq]]]; [lra|].
    split; [exact Heq|]. rewrite Heq. unfold norm.
    rewrite sumSquares_repeat_zero. apply sqrt_0. }
  split; [destruct Hcases as [[Hpos _]|[Hm _]]; [left; exact Hpos | right; exact Hm]|].
  intros Hone. destruct text as [|c [|d rest]]; try discriminate Hone.
  unfold norm. cbn [hashLoop].
  rewrite Nat.mul_0_r. change (INR 0) with 0%R. rewrite sin_0, Rmult_0_l, addAt_zero.
  rewrite sumSquares_repeat_zero. apply sqrt_0.
Qed.

(** C4 as stated fails for the non-empty text [a]: the fallback
    embedding is the zero vector and its norm is 0. *)
Lemma fallback_embedding_counterexample :
  "a" <> ""
  /\ generateFallbackEmbedding "a" = repeat 0%R 1536
  /\ norm (generateFallbackEmbedding "a") = 0%R
  /\ norm (generateFallbackEmbedding "a") <> 1%R.
Proof.
  destruct (single_character_zero "a"%char) as [Hzero Hnorm].
  split; [discriminate|]. split; [exact Hzero|]. split; [exact Hnorm|].
  rewrite Hnorm. lra.
Qed.

Lemma sumSquares_ge_component v : forall j,
  (nth j v 0 * nth j v 0 <= sumSquares v)%R.
Proof.
  induction v as [|val rest IH]; intros j.
  - destruct j; cbn [nth]; unfold sumSquares; cbn; lra.
  - rewrite sumSquares_cons. pose proof (sumSquares_nonneg rest) as Hr.
    pose proof (Rle_0_sqr val) as Hv. unfold Rsqr in Hv.
    destruct j as [|j]; cbn [nth]; [lra|]. specialize (IH j). lra.
Qed.

Lemma sin_9_positive : (0 < sin 9)%R.
Proof.
  pose proof PI2_3_2 as Hlo. pose proof PI_4 as Hhi.
  replace 9%R with ((9 - 2 * PI) + 2 * INR 1 * PI)%R by (cbn [INR]; ring).
  rewrite sin_period. apply sin_gt_0; lra.
Qed.

(** A text on which normalization takes place: after the letter [a], the TAB
    at position 1 adds [sin(9) * 0.01] at index 10. *)
Lemma letterThenTab_magnitude :
  (0 < norm (hashLoop 0 letterThenTab (repeat 0%R 1536)))%R.
Proof.
  unfold norm. apply sqrt_lt_R0.
  eapply Rlt_le_trans; [|apply (sumSquares_ge_component _ 10)].
  rewrite hashLoop_nth by (rewrite repeat_length; apply Nat.ltb_lt; vm_compute; reflexivity).
  rewrite repeat_length, nth_repeat.
  unfold letterThenTab. cbn [perturbation].
  change ((JS.charCode "a" + 0) mod 1536 =? 10) with false.
  change ((JS.charCode (ascii_of_nat 9) + 1) mod 1536 =? 10) with true.
  change (JS.charCode (ascii_of_nat 9) * 1) with 9.
  replace (INR 9) with 9%R by (cbn [INR]; lra).
  pose proof sin_9_positive as Hs.
  cbv iota. nra.
Qed.

Lemma fallback_embedding_normalized_witness :
  (0 < norm (hashLoop 0 letterThenTab (repeat 0%R 1536)))%R
  /\ norm (generateFallbackEmbedding letterThenTab) = 1%R.
Proof.
  split; [exact letterThenTab_magnitude|].
  destruct (fallback_embedding_normalized letterThenTab) as (_ & _ & _ & Hpos & _).
  exact (proj2 (Hpos letterThenTab_magnitude)).
Defined.

(* ------------------------------------------------------------------ *)
(** ** Seeding the knowledge store *)

Lemma storeView_fields st st' :
  storeView st' = storeView st ->
  isConnected st' = isConnected st
  /\ knowledge_base st' = knowledge_base st
  /\ reply_templates st' = reply_templates st.
Proof.
  unfold storeView. intros H. injection H as H1 _ _ _ H5 H6. repeat split; assumption.
Qed.

Lemma chromaRequest_served env st :
  chromaServes env ->
  chromaRequest env st = (Returned tt, set_chromaRequests (S (chromaRequests st)) st).
Proof. intros Hup. unfold chromaRequest. rewrite Hup. reflexivity. Qed.

(** A served [collection.add] stores exactly one row. *)
Lemma collectionAdd_served {Meta} env (store : Row Meta -> State -> State)
    id document (metadata : Meta) st :
  chromaServes env ->
  exists row st1,
    collectionAdd env store id document metadata st = (Returned tt, store row st1) /\
    isConnected st1 = isConnected st /\
    knowledge_base st1 = knowledge_base st /\
    reply_templates st1 = reply_templates st.
Proof.
  intros Hup. unfold collectionAdd.
  destruct (generate_returns env [document] st) as (vs & st0 & Hgen & _ & Hview & _).
  apply storeView_fields in Hview. destruct Hview as (Hc & Hk & Ht).
  rewrite bind_run, Hgen, bind_run, chromaRequest_served by exact Hup.
  eexists. eexists. split; [reflexivity|]. repeat split; assumption.
Qed.

Lemma addKnowledgeItem_connected env item st :
  chromaServes env ->
  isConnected st = true ->
  exists id st',
    addKnowledgeItem env item st = (Returned id, st') /\
    isConnected st' = true /\
    List.length (knowledge_base st') = S (List.length (knowledge_base st)) /\
    List.length (reply_templates st') = List.length (reply_templates st).
Proof.
  intros Hup Hconn. unfold addKnowledgeItem.
  rewrite bind_run. unfold uuidv4 at 1.
  set (st0 := set_uuids (S (uuids st)) st).
  rewrite bind_run. unfold gets at 1.
  change (isConnected st0) with (isConnected st). rewrite Hconn. cbn [negb].
  destruct (collectionAdd_served env
              (fun row st => set_knowledge_base (knowledge_base st ++ [row]) st)
              (uuids st) (ki_content item) (ki_metadata item) st0 Hup)
    as (row & st1 & Hadd & Hc & Hk & Ht).
  rewrite bind_run, Hadd. eexists. eexists. split; [reflexivity|].
  split; [exact (eq_trans Hc Hconn)|].
  split.
  - change (knowledge_base (set_knowledge_base (knowledge_base st1 ++ [row]) st1))
      with (knowledge_base st1 ++ [row])%list.
    rewrite length_app, Hk. cbn. lia.
  - change (reply_templates (set_knowledge_base (knowledge_base st1 ++ [row]) st1))
      with (reply_templates st1).
    rewrite Ht. reflexivity.
Qed.

Lemma addReplyTemplate_connected env t st :
  chromaServes env ->
  isConnected st = true ->
  exists id st',
    addReplyTemplate env t st = (Returned id, st') /\
    isConnected st' = true /\
    List.length (knowledge_base st') = List.length (knowledge_base st) /\
    List.length (reply_templates st') = S (List.length (reply_templates st)).
Proof.
  intros Hup Hconn. unfold addReplyTemplate.
  rewrite bind_run. unfold uuidv4 at 1.
  set (st0 := set_uuids (S (uuids st)) st).
  rewrite bind_run. unfold gets at 1.
  change (isConnected st0) with (isConnected st). rewrite Hconn. cbn [negb].
  match goal with
  | |- context [collectionAdd env ?store ?id ?doc ?meta] =>
      destruct (collectionAdd_served env store id doc meta st0 Hup)
        as (row & st1 & Hadd & Hc & Hk & Ht)
  end.
  rewrite bind_run, Hadd. eexists. eexists. split; [reflexivity|].
  split; [exact (eq_trans Hc Hconn)|].
  split.
  - change (knowledge_base (set_reply_templates (reply_templates st1 ++ [row]) st1))
      with (knowledge_base st1).
    rewrite Hk. reflexivity.
  - change (reply_templates (set_reply_templates (reply_templates st1 ++ [row]) st1))
      with (reply_templates st1 ++ [row])%list.
    rewrite length_app, Ht. cbn. lia.
Qed.

Lemma forEach_addKnowledgeItem env items :
  chromaServes env ->
  forall st,
  isConnected st = true ->
  exists st',
    forEach items (addKnowledgeItem env) st = (Returned tt, st') /\
    isConnected st' = true /\
    List.length (knowledge_base st') = List.length (knowledge_base st) + List.length items /\
    List.length (reply_templates st') = List.length (reply_templates st).
Proof.
  intros Hup. induction items as [|item rest IH]; intros st Hconn.
  - exists st. cbn. repeat split; auto.
  - destruct (addKnowledgeItem_connected env item st Hup Hconn)
      as (id & st1 & Hadd & Hc1 & Hk1 & Ht1).
    destruct (IH st1 Hc1) as (st2 & Hrest & Hc2 & Hk2 & Ht2).
    exists st2. cbn [forEach]. rewrite bind_run, Hadd.
    split; [exact Hrest|]. split; [exact Hc2|].
    split; [rewrite Hk2, Hk1; cbn; lia | rewrite Ht2; exact Ht1].
Qed.

Lemma forEach_addReplyTemplate env templates :
  chromaServes env ->
  forall st,
  isConnected st = true ->
  exists st',
    forEach templates (addReplyTemplate env) st = (Returned tt, st') /\
    isConnected st' = true /\
    List.length (knowledge_base st') = List.length (knowledge_base st) /\
    List.length (reply_templates st')
    = List.length (reply_templates st) + List.length templates.
Proof.
  intros Hup. induction templates as [|t rest IH]; intros st Hconn.
  - exists st. cbn. repeat split; auto.
  - destruct (addReplyTemplate_connected env t st Hup Hconn)
      as (id & st1 & Hadd & Hc1 & Hk1 & Ht1).
    destruct (IH st1 Hc1) as (st2 & Hrest & Hc2 & Hk2 & Ht2).
    exists st2. cbn [forEach]. rewrite bind_run, Hadd.
    split; [exact Hrest|]. split; [exact Hc2|].
    split; [rewrite Hk2; exact Hk1 | rewrite Ht2, Ht1; cbn; lia].
Qed.

(** On a connected store that is served, seeding adds the whole catalog. *)
Lemma seedKnowledgeBase_connected env st :
  chromaServes env ->
  isConnected st = true ->
  exists st',
    seedKnowledgeBase env st = (Returned tt, st') /\
    isConnected st' = true /\
    List.length (knowledge_base st') = List.length (knowledge_base st) + 3 /\
    List.length (reply_templates st') = List.length (reply_templates st) + 4.
Proof.
  intros Hup Hconn. unfold seedKnowledgeBase.
  rewrite bind_run. unfold gets at 1. rewrite Hconn. cbn [negb].
  destruct (forEach_addKnowledgeItem env productInfo Hup st Hconn)
    as (st1 & H1 & Hc1 & Hk1 & Ht1).
  destruct (forEach_addReplyTemplate env outreachTemplates Hup st1 Hc1)
    as (st2 & H2 & Hc2 & Hk2 & Ht2).
  exists st2. rewrite bind_run, H1. split; [exact H2|]. split; [exact Hc2|].
  split; [rewrite Hk2, Hk1; reflexivity | rewrite Ht2, Ht1; reflexivity].
Qed.

Lemma seedKnowledgeBase_disconnected env st :
  isConnected st = false -> seedKnowledgeBase env st = (Returned tt, st).
Proof.
  intros Hconn. unfold seedKnowledgeBase, bind, gets. rewrite Hconn. reflexivity.
Qed.

Lemma getStats_connected env st :
  chromaServes env ->
  isConnected st = true ->
  exists st',
    getStats env st
    = (Returned (mkStats (List.length (knowledge_base st))
                   (List.length (reply_templates st)) "active"), st') /\
    isConnected st' = true /\
    knowledge_base st' = knowledge_base st /\
    reply_templates st' = reply_templates st.
Proof.
  intros Hup Hconn. unfold getStats, collectionCount.
  rewrite bind_run. unfold gets at 1. rewrite Hconn. cbn [negb].
  rewrite bind_run, bind_run, chromaRequest_served by exact Hup.
  unfold gets at 1.
  rewrite bind_run, bind_run, chromaRequest_served by exact Hup.
  unfold gets at 1. unfold ret.
  eexists. split; [reflexivity|]. repeat split; exact Hconn.
Qed.

Lemma statsIn_connected env st :
  chromaServes env ->
  isConnected st = true ->
  statsIn env st
  = mkStats (List.length (knowledge_base st)) (List.length (reply_templates st)) "active".
Proof.
  intros Hup Hconn. destruct (getStats_connected env st Hup Hconn) as (st' & H & _).
  unfold statsIn, returned. rewrite H. reflexivity.
Qed.

(** [initialize] on a served store: it connects and seeds only when the
    knowledge collection is empty. *)
Lemma initialize_served env st :
  chromaServes env ->
  exists st',
    initialize env st = (Returned tt, st') /\
    isConnected st' = true /\
    List.length (knowledge_base st')
    = (if List.length (knowledge_base st) =? 0 then 3 else List.length (knowledge_base st)) /\
    List.length (reply_templates st')
    = (if List.length (knowledge_base st) =? 0
       then List.length (reply_templates st) + 4
       else List.length (reply_templates st)).
Proof.
  intros Hup. unfold initialize, initializeCollections.
  unfold tryCatch at 1.
  rewrite bind_run, bind_run, chromaRequest_served by exact Hup.
  rewrite chromaRequest_served by exact Hup.
  rewrite bind_run. unfold modify at 1.
  match goal with
  | |- context [tryCatch _ _ ?s] => set (st0 := s)
  end.
  assert (Hc0 : isConnected st0 = true) by reflexivity.
  assert (Hk0 : knowledge_base st0 = knowledge_base st) by reflexivity.
  assert (Ht0 : reply_templates st0 = reply_templates st) by reflexivity.
  clearbody st0.
  destruct (getStats_connected env st0 Hup Hc0) as (st1 & Hstats & Hc1 & Hk1 & Ht1).
  unfold tryCatch. rewrite bind_run, Hstats. cbn [knowledgeItems].
  rewrite Hk0.
  destruct (List.length (knowledge_base st) =? 0) eqn:Hempty.
  - destruct (seedKnowledgeBase_connected env st1 Hup Hc1) as (st2 & Hseed & Hc2 & Hk2 & Ht2).
    rewrite Hseed. exists st2. split; [reflexivity|]. split; [exact Hc2|].
    apply Nat.eqb_eq in Hempty.
    split; [rewrite Hk2, Hk1, Hk0, Hempty; reflexivity | rewrite Ht2, Ht1, Ht0; reflexivity].
  - exists st1. split; [reflexivity|]. split; [exact Hc1|].
    split; [rewrite Hk1, Hk0; reflexivity | rewrite Ht1, Ht0; reflexivity].
Qed.

(** C9 (seeding), as the code has it.  [seedKnowledgeBase] has no guard of
    its own: in disconnected mode it does nothing, and on a connected store
    that is served every call adds the 3 knowledge items and the 4 templates
    of the catalog, so that after a second call [knowledgeItems] has grown by
    3 again.  The guard is in [initialize], which seeds only when
    [knowledgeItems] is 0: on a served store, after a second [initialize] the
    counts are the ones after the first. *)
Theorem seeding_guard_is_in_initialize env st :
  chromaServes env ->
  (isConnected st = false -> seedKnowledgeBase env st = (Returned tt, st))
  /\ (isConnected st = true ->
      exists st1 st2,
        seedKnowledgeBase env st = (Returned tt, st1) /\
        seedKnowledgeBase env st1 = (Returned tt, st2) /\
        knowledgeItems (statsIn env st1) = knowledgeItems (statsIn env st) + 3 /\
        knowledgeItems (statsIn env st2) = knowledgeItems (statsIn env st1) + 3 /\
        replyTemplates (statsIn env st1) = replyTemplates (statsIn env st) + 4 /\
        replyTemplates (statsIn env st2) = replyTemplates (statsIn env st1) + 4)
  /\ (exists st1 st2,
        initialize env st = (Returned tt, st1) /\
        initialize env st1 = (Returned tt, st2) /\
        statsIn env st2 = statsIn env st1 /\
        0 < knowledgeItems (statsIn env st1) /\
        knowledgeItems (statsIn env st1)
        = (if List.length (knowledge_base st) =? 0
           then 3 else List.length (knowledge_base st))).
Proof.
  intros Hup. split; [apply seedKnowledgeBase_disconnected|]. split.
  - intros Hconn.
    destruct (seedKnowledgeBase_connected env st Hup Hconn) as (st1 & H1 & Hc1 & Hk1 & Ht1).
    destruct (seedKnowledgeBase_connected env st1 Hup Hc1) as (st2 & H2 & Hc2 & Hk2 & Ht2).
    exists st1, st2. split; [exact H1|]. split; [exact H2|].
    rewrite !statsIn_connected by assumption. cbn [knowledgeItems replyTemplates].
    repeat split; assumption.
  - destruct (initialize_served env st Hup) as (st1 & H1 & Hc1 & Hk1 & Ht1).
    destruct (initialize_served env st1 Hup) as (st2 & H2 & Hc2 & Hk2 & Ht2).
    exists st1, st2. split; [exact H1|]. split; [exact H2|].
    rewrite !statsIn_connected by assumption. cbn [knowledgeItems].
    assert (Hpos : 0 < List.length (knowledge_base st1)).
    { rewrite Hk1. destruct (List.length (knowledge_base st)); cbn; lia. }
    assert (Hne : (List.length (knowledge_base st1) =? 0) = false)
      by (apply Nat.eqb_neq; lia).
    rewrite Hne in Hk2, Ht2.
    split; [rewrite Hk2, Ht2; reflexivity|]. split; [exact Hpos | exact Hk1].
Qed.

Lemma seeding_guard_is_in_initialize_witness :
  let env := healthyEnv "" 0 in
  chromaServes env
  /\ exists st1 st2,
       seedKnowledgeBase env connectedWorld = (Returned tt, st1) /\
       seedKnowledgeBase env st1 = (Returned tt, st2) /\
       knowledgeItems (statsIn env st1) = knowledgeItems (statsIn env connectedWorld) + 3 /\
       knowledgeItems (statsIn env st2) = knowledgeItems (statsIn env st1) + 3.
Proof.
  cbv zeta.
  assert (Hup : chromaServes (healthyEnv "" 0)) by (intros n; reflexivity).
  split; [exact Hup|].
  destruct (seeding_guard_is_in_initialize (healthyEnv "" 0) connectedWorld Hup)
    as (_ & Hseed & _).
  destruct (Hseed eq_refl) as (st1 & st2 & H1 & H2 & H3 & H4 & _).
  exists st1, st2. repeat split; assumption.
Defined.

(** C9 as stated fails on a connected, served, empty store: after the
    first seeding [knowledgeItems] is 3, after the second it is 6. *)
Lemma seeding_counterexample :
  let env := healthyEnv "" 0 in
  let st1 := snd (seedKnowledgeBase env connectedWorld) in
  let st2 := snd (seedKnowledgeBase env st1) in
  isConnected connectedWorld = true
  /\ knowledgeItems (statsIn env connectedWorld) = 0
  /\ knowledgeItems (statsIn env st1) = 3
  /\ knowledgeItems (statsIn env st2) = 6
  /\ replyTemplates (statsIn env st1) = 4
  /\ replyTemplates (statsIn env st2) = 8.
Proof. vm_compute. repeat split; reflexivity. Qed.

(* ------------------------------------------------------------------ *)
(** ** Further properties of the vector service *)

Lemma Qltb_true a b : Qltb a b = true <-> (a < b)%Q.
Proof.
  unfold Qltb. rewrite negb_true_iff. split; intros H.
  - apply Qnot_le_lt. intros Hle. apply Qle_bool_iff in Hle. congruence.
  - destruct (Qle_bool b a) eqn:E; [|reflexivity].
    apply Qle_bool_iff in E. exfalso. exact (Qlt_not_le _ _ H E).
Qed.

Lemma Qltb_false a b : Qltb a b = false <-> (b <= a)%Q.
Proof. unfold Qltb. rewrite negb_false_iff. apply Qle_bool_iff. Qed.

Lemma floor_above x : (x - 1 < inject_Z (Qfloor x))%Q.
Proof.
  pose proof (Qlt_floor x) as H. rewrite inject_Z_plus in H.
  change (inject_Z 1) with 1%Q in H. lra.
Qed.

(** X1 (spacing of requests).  [waitForRateLimit] never throws and touches
    nothing but the clock and [lastRequestTime].  It sets [lastRequestTime]
    to the value of [Date.now()] when it ends, which is later than the
    previous [lastRequestTime] plus the delay minus the one millisecond of
    the clock's grain; the clock never goes back; and when the delay has
    already passed it does not wait. *)
Theorem waitForRateLimit_spacing st :
  exists st',
    waitForRateLimit st = (Returned tt, st') /\
    lastRequestTime st' = inject_Z (Qfloor (now st')) /\
    (lastRequestTime st + rateLimitDelay st - 1 < lastRequestTime st')%Q /\
    (now st <= now st')%Q /\
    ((rateLimitDelay st <= inject_Z (Qfloor (now st)) - lastRequestTime st)%Q ->
     now st' = now st) /\
    rateLimitDelay st' = rateLimitDelay st /\
    embeddingRequests st' = embeddingRequests st /\
    storeView st' = storeView st.
Proof.
  exists (afterWait st). split; [apply waitForRateLimit_run|].
  destruct (afterWait_frame st) as (Hd & Hn & Hv).
  pose proof (Qfloor_le (now st)) as Hfloor.
  unfold afterWait.
  destruct (Qltb (inject_Z (Qfloor (now st)) - lastRequestTime st) (rateLimitDelay st)) eqn:E.
  - apply Qltb_true in E.
    set (now' := (now st + (rateLimitDelay st
                            - (inject_Z (Qfloor (now st)) - lastRequestTime st)))%Q).
    change (lastRequestTime
              (set_lastRequestTime (inject_Z (Qfloor (now (set_now now' st))))
                 (set_now now' st)))
      with (inject_Z (Qfloor now')).
    change (now (set_lastRequestTime (inject_Z (Qfloor (now (set_now now' st))))
                   (set_now now' st)))
      with now'.
    pose proof (floor_above now') as Hnow'.
    split; [reflexivity|]. split; [subst now'; lra|]. split; [subst now'; lra|].
    split; [intros Hle; exfalso; lra|]. repeat split; assumption || reflexivity.
  - apply Qltb_false in E.
    change (lastRequestTime (set_lastRequestTime (inject_Z (Qfloor (now st))) st))
      with (inject_Z (Qfloor (now st))).
    change (now (set_lastRequestTime (inject_Z (Qfloor (now st))) st)) with (now st).
    split; [reflexivity|]. split; [lra|]. split; [lra|].
    split; [reflexivity|]. repeat split; reflexivity.
Qed.

Lemma storeView_counters st st' :
  storeView st' = storeView st ->
  chatRequests st' = chatRequests st
  /\ chromaRequests st' = chromaRequests st
  /\ uuids st' = uuids st.
Proof.
  unfold storeView. intros H. injection H as _ H2 H3 H4 _ _. repeat split; assumption.
Qed.

Lemma Attempts_embeddingOf env text first limit hits ending v :
  Attempts env text first limit hits ending (Returned v) -> embeddingOf env text v.
Proof.
  intros H. inversion H; subst; try (left; reflexivity).
  right. eexists. eassumption.
Qed.

Lemma requestsSent_bounds limit hits ending out env text first :
  0 < limit ->
  Attempts env text first limit hits ending out ->
  1 <= requestsSent limit hits ending <= limit.
Proof.
  intros Hpos H. inversion H; subst; cbn [requestsSent]; lia.
Qed.

(** One text through the embedding function. *)
Lemma generate_one env text st :
  exists embedding st',
    generate env [text] st = (Returned [embedding], st') /\
    embeddingOf env text embedding /\
    storeView st' = storeView st /\
    embeddingRequests st < embeddingRequests st' <= embeddingRequests st + 3.
Proof.
  rewrite generate_cons.
  destruct (generateEmbeddings_run env text st)
    as (hits & ending & out & st1 & Hrun & Hatt & Hreq & _ & Hview).
  rewrite Hrun. cbn [generate]. unfold ret.
  pose proof (requestsSent_bounds _ _ _ _ _ _ _ (Nat.lt_0_succ 2) Hatt) as Hb.
  fold maxRetries in Hb.
  destruct out as [v|e]; eexists; eexists; (split; [reflexivity|]);
    (split; [|split; [exact Hview | unfold maxRetries in *; lia]]).
  - eapply Attempts_embeddingOf. exact Hatt.
  - left. reflexivity.
Qed.

(** X2 (the embedding function, text by text).  [generate] never throws and
    returns one embedding per text, in the order of the texts; each is an
    embedding the endpoint returned for that text or the fallback embedding
    of that text.  It sends at least one and at most three requests per text,
    and touches neither the collections nor the connection flag. *)
Theorem generate_per_text env texts :
  forall st,
  exists embeddings st',
    generate env texts st = (Returned embeddings, st') /\
    Forall2 (embeddingOf env) texts embeddings /\
    embeddingRequests st + List.length texts <= embeddingRequests st' /\
    embeddingRequests st' <= embeddingRequests st + 3 * List.length texts /\
    storeView st' = storeView st.
Proof.
  induction texts as [|text rest IH]; intros st.
  - exists [], st. split; [reflexivity|]. split; [constructor|]. cbn. repeat split; lia.
  - rewrite generate_cons.
    destruct (generateEmbeddings_run env text st)
      as (hits & ending & out & st1 & Hrun & Hatt & Hreq & _ & Hview).
    rewrite Hrun.
    pose proof (requestsSent_bounds _ _ _ _ _ _ _ (Nat.lt_0_succ 2) Hatt) as Hb.
    unfold maxRetries in Hb, Hreq.
    destruct (IH st1) as (vs & st2 & Hrest & Hall & Hlo & Hhi & Hview2).
    rewrite Hrest. cbn [List.length].
    destruct out as [v|e]; eexists; eexists; (split; [reflexivity|]);
      (split; [constructor; [|exact Hall]
              | split; [lia | split; [lia | rewrite Hview2; exact Hview]]]).
    + eapply Attempts_embeddingOf. exact Hatt.
    + left. reflexivity.
Qed.

Lemma perturbation_bound D j text : forall i,
  (Rabs (perturbation D j i text) <= 0.01 * INR (String.length text))%R.
Proof.
  induction text as [|c rest IH]; intros i; cbn [perturbation String.length].
  - rewrite Rabs_R0. cbn. lra.
  - rewrite S_INR. specialize (IH (S i)).
    eapply Rle_trans; [apply Rabs_triang|].
    assert (Hterm : (Rabs (if (JS.charCode c + i) mod D =? j
                           then sin (INR (JS.charCode c * i)) * 0.01 else 0) <= 0.01)%R).
    { destruct ((JS.charCode c + i) mod D =? j).
      - pose proof (SIN_bound (INR (JS.charCode c * i))) as [Hlo Hhi].
        apply Rabs_le. lra.
      - rewrite Rabs_R0. lra. }
    lra.
Qed.

Lemma component_within_magnitude v j :
  (0 < sqrt (sumSquares v))%R ->
  (-1 <= nth j v 0 / sqrt (sumSquares v) <= 1)%R.
Proof.
  intros Hpos. set (m := sqrt (sumSquares v)) in *.
  pose proof (sumSquares_ge_component v j) as Hc.
  assert (Hm : (m * m = sumSquares v)%R) by (apply sqrt_sqrt, sumSquares_nonneg).
  assert (Hle : (- m <= nth j v 0 <= m)%R) by (split; nra).
  split.
  - apply Rmult_le_reg_r with m; [exact Hpos|]. unfold Rdiv.
    rewrite Rmult_assoc, Rinv_l by lra. lra.
  - apply Rmult_le_reg_r with m; [exact Hpos|]. unfold Rdiv.
    rewrite Rmult_assoc, Rinv_l by lra. lra.
Qed.

Lemma nth_scaled m v : forall j,
  nth j (map (fun val => (val / m)%R) v) 0%R = (nth j v 0 / m)%R.
Proof.
  induction v as [|val rest IH]; intros [|j]; cbn [map nth];
    first [apply IH | reflexivity | unfold Rdiv; ring].
Qed.

(** X3 (size of the fallback embedding).  Every component of the fallback
    embedding lies between -1 and 1, at every index (0 outside the 1536
    components).  Before normalization a component is at most 0.01 times the
    length of the text in absolute value. *)
Theorem fallback_embedding_bounded text j :
  (-1 <= nth j (generateFallbackEmbedding text) 0 <= 1)%R
  /\ (Rabs (nth j (hashLoop 0 text (repeat 0%R 1536)) 0)
      <= 0.01 * INR (String.length text))%R.
Proof.
  split.
  - destruct (generateFallbackEmbedding_cases text) as [[Hpos ->]|[_ [_ ->]]]; cbv zeta in *.
    + rewrite nth_scaled. apply component_within_magnitude. exact Hpos.
    + rewrite nth_repeat. lra.
  - destruct (Nat.lt_ge_cases j 1536) as [Hj|Hj].
    + rewrite hashLoop_nth by (rewrite repeat_length; exact Hj).
      rewrite repeat_length, nth_repeat, Rplus_0_l. apply perturbation_bound.
    + rewrite nth_overflow by (rewrite hashLoop_length, repeat_length; exact Hj).
      rewrite Rabs_R0. pose proof (pos_INR (String.length text)). lra.
Qed.

(** *** Adding to the store *)

Lemma chromaRequest_at env st :
  chromaRequest env st
  = (if chromaUp env (chromaRequests st) then Returned tt else Raised chromaDown,
     set_chromaRequests (S (chromaRequests st)) st).
Proof. unfold chromaRequest. destruct (chromaUp env (chromaRequests st)); reflexivity. Qed.

(** [collection.add], whether it is served or not. *)
Lemma collectionAdd_run {Meta} env (store : Row Meta -> State -> State)
    id document (metadata : Meta) st :
  exists embedding st0,
    embeddingOf env document embedding /\
    storeView st0 = storeView st /\
    embeddingRequests st < embeddingRequests st0 <= embeddingRequests st + 3 /\
    collectionAdd env store id document metadata st
    = if chromaUp env (chromaRequests st)
      then (Returned tt,
            store (mkRow id document metadata embedding)
              (set_chromaRequests (S (chromaRequests st)) st0))
      else (Raised chromaDown, set_chromaRequests (S (chromaRequests st)) st0).
Proof.
  destruct (generate_one env document st) as (v & st0 & Hgen & Hemb & Hview & Hreq).
  exists v, st0. split; [exact Hemb|]. split; [exact Hview|]. split; [exact Hreq|].
  destruct (storeView_counters _ _ Hview) as (_ & Hc & _).
  unfold collectionAdd. rewrite bind_run, Hgen, bind_run, chromaRequest_at, Hc.
  destruct (chromaUp env (chromaRequests st)); reflexivity.
Qed.

Lemma forEach_disconnected_knowledge env items : forall st,
  isConnected st = false ->
  exists st',
    forEach items (addKnowledgeItem env) st = (Returned tt, st') /\
    uuids st' = uuids st + List.length items /\
    isConnected st' = false /\
    knowledge_base st' = knowledge_base st /\
    reply_templates st' = reply_templates st /\
    chromaRequests st' = chromaRequests st /\
    embeddingRequests st' = embeddingRequests st.
Proof.
  induction items as [|item rest IH]; intros st Hconn.
  - exists st. cbn. repeat split; auto.
  - assert (Hadd : addKnowledgeItem env item st
                   = (Returned (uuids st), set_uuids (S (uuids st)) st)).
    { unfold addKnowledgeItem, bind, uuidv4, gets.
      change (isConnected (set_uuids (S (uuids st)) st)) with (isConnected st).
      rewrite Hconn. reflexivity. }
    destruct (IH (set_uuids (S (uuids st)) st) Hconn) as (st' & Hrun & Hu & Hc & Hk & Ht & Hr & He).
    exists st'. cbn [forEach]. rewrite bind_run, Hadd.
    split; [exact Hrun|]. split; [rewrite Hu; cbn; lia|]. repeat split; assumption.
Qed.

Lemma forEach_disconnected_templates env templates : forall st,
  isConnected st = false ->
  exists st',
    forEach templates (addReplyTemplate env) st = (Returned tt, st') /\
    uuids st' = uuids st + List.length templates /\
    isConnected st' = false /\
    knowledge_base st' = knowledge_base st /\
    reply_templates st' = reply_templates st /\
    chromaRequests st' = chromaRequests st /\
    embeddingRequests st' = embeddingRequests st.
Proof.
  induction templates as [|t rest IH]; intros st Hconn.
  - exists st. cbn. repeat split; auto.
  - assert (Hadd : addReplyTemplate env t st
                   = (Returned (uuids st), set_uuids (S (uuids st)) st)).
    { unfold addReplyTemplate, bind, uuidv4, gets.
      change (isConnected (set_uuids (S (uuids st)) st)) with (isConnected st).
      rewrite Hconn. reflexivity. }
    destruct (IH (set_uuids (S (uuids st)) st) Hconn) as (st' & Hrun & Hu & Hc & Hk & Ht & Hr & He).
    exists st'. cbn [forEach]. rewrite bind_run, Hadd.
    split; [exact Hrun|]. split; [rewrite Hu; cbn; lia|]. repeat split; assumption.
Qed.

(** X4 (adding while disconnected).  In disconnected mode [addKnowledgeItem]
    and [addReplyTemplate] return a fresh id and drop what they are given:
    after any number of such calls the collections are unchanged, no request
    was sent to ChromaDB or to the embeddings endpoint, the service is still
    disconnected and [getStats] still reports zero items and templates. *)
Theorem disconnected_adds_are_dropped env items templates st :
  isConnected st = false ->
  exists st1 st2,
    forEach items (addKnowledgeItem env) st = (Returned tt, st1) /\
    forEach templates (addReplyTemplate env) st1 = (Returned tt, st2) /\
    uuids st2 = uuids st + List.length items + List.length templates /\
    knowledge_base st2 = knowledge_base st /\
    reply_templates st2 = reply_templates st /\
    chromaRequests st2 = chromaRequests st /\
    embeddingRequests st2 = embeddingRequests st /\
    isConnected st2 = false /\
    getStats env st2 = (Returned (mkStats 0 0 "disconnected"), st2).
Proof.
  intros Hconn.
  destruct (forEach_disconnected_knowledge env items st Hconn)
    as (st1 & H1 & Hu1 & Hc1 & Hk1 & Ht1 & Hr1 & He1).
  destruct (forEach_disconnected_templates env templates st1 Hc1)
    as (st2 & H2 & Hu2 & Hc2 & Hk2 & Ht2 & Hr2 & He2).
  exists st1, st2. split; [exact H1|]. split; [exact H2|].
  split; [lia|]. split; [congruence|]. split; [congruence|].
  split; [congruence|]. split; [congruence|]. split; [exact Hc2|].
  unfold getStats, bind, gets. rewrite Hc2. reflexivity.
Qed.

Lemma disconnected_adds_are_dropped_witness :
  isConnected sampleWorld = false
  /\ exists st1 st2,
       forEach productInfo (addKnowledgeItem outageEnv) sampleWorld = (Returned tt, st1) /\
       forEach outreachTemplates (addReplyTemplate outageEnv) st1 = (Returned tt, st2) /\
       uuids st2 = 7 /\
       knowledge_base st2 = [] /\
       reply_templates st2 = [].
Proof.
  split; [reflexivity|].
  destruct (disconnected_adds_are_dropped outageEnv productInfo outreachTemplates sampleWorld
              eq_refl) as (st1 & st2 & H1 & H2 & Hu & Hk & Ht & _).
  exists st1, st2. repeat split; assumption.
Defined.

(** [collection.query], whether it is served or not. *)
Lemma collectionQuery_run {Meta} env (ranking : nat -> string -> nat -> list (Hit Meta))
    query limit st :
  exists st0,
    storeView st0 = storeView st /\
    rateLimitDelay st0 = rateLimitDelay (snd (generate env [query] st)) /\
    collectionQuery env ranking query limit st
    = if chromaUp env (chromaRequests st)
      then (Returned (ranking (chromaRequests st) query limit),
            set_chromaRequests (S (chromaRequests st)) st0)
      else (Raised chromaDown, set_chromaRequests (S (chromaRequests st)) st0).
Proof.
  destruct (generate_one env query st) as (v & st0 & Hgen & _ & Hview & _).
  exists st0. split; [exact Hview|]. split; [rewrite Hgen; reflexivity|].
  destruct (storeView_counters _ _ Hview) as (_ & Hc & _).
  unfold collectionQuery. rewrite bind_run, Hgen, bind_run. unfold gets at 1.
  rewrite bind_run, chromaRequest_at, Hc.
  destruct (chromaUp env (chromaRequests st)); reflexivity.
Qed.

(** X5 (adding a knowledge item).  On a connected service [addKnowledgeItem]
    takes a fresh id, has the content embedded and sends one request to
    ChromaDB.  When the request is served, the knowledge collection gains
    exactly one row, at its end: the id returned, the content as document,
    the item's metadata and an embedding of the content; the item's category
    is not stored.  When it is not served, the call throws and the
    collection is as before.  The template collection is untouched either
    way. *)
Theorem addKnowledgeItem_stores_row env item st :
  isConnected st = true ->
  exists embedding out st',
    addKnowledgeItem env item st = (out, st') /\
    embeddingOf env (ki_content item) embedding /\
    (chromaUp env (chromaRequests st) = true ->
     out = Returned (uuids st) /\
     knowledge_base st'
     = (knowledge_base st
          ++ [mkRow (uuids st) (ki_content item) (ki_metadata item) embedding])%list) /\
    (chromaUp env (chromaRequests st) = false ->
     out = Raised chromaDown /\ knowledge_base st' = knowledge_base st) /\
    reply_templates st' = reply_templates st /\
    isConnected st' = true /\
    uuids st' = S (uuids st) /\
    chromaRequests st' = S (chromaRequests st).
Proof.
  intros Hconn. unfold addKnowledgeItem.
  rewrite bind_run. unfold uuidv4 at 1.
  set (st0 := set_uuids (S (uuids st)) st).
  rewrite bind_run. unfold gets at 1.
  change (isConnected st0) with (isConnected st). rewrite Hconn. cbn [negb].
  destruct (collectionAdd_run env
              (fun row st => set_knowledge_base (knowledge_base st ++ [row]) st)
              (uuids st) (ki_content item) (ki_metadata item) st0)
    as (v & st1 & Hemb & Hview & _ & Hadd).
  destruct (storeView_fields _ _ Hview) as (Hc & Hk & Ht).
  destruct (storeView_counters _ _ Hview) as (_ & Hr & Hu).
  rewrite bind_run, Hadd.
  change (chromaRequests st0) with (chromaRequests st).
  exists v.
  destruct (chromaUp env (chromaRequests st)) eqn:Hup.
  - eexists. eexists. split; [reflexivity|]. split; [exact Hemb|].
    split; [intros _; split; [reflexivity|]|].
    { change (knowledge_base
                (set_knowledge_base
                   (knowledge_base (set_chromaRequests (S (chromaRequests st)) st1)
                      ++ [mkRow (uuids st) (ki_content item) (ki_metadata item) v])
                   (set_chromaRequests (S (chromaRequests st)) st1)))
        with (knowledge_base st1
                ++ [mkRow (uuids st) (ki_content item) (ki_metadata item) v])%list.
      rewrite Hk. reflexivity. }
    split; [discriminate|].
    split; [exact Ht|]. split; [exact (eq_trans Hc Hconn)|]. split; [exact Hu | reflexivity].
  - eexists. eexists. split; [reflexivity|]. split; [exact Hemb|].
    split; [discriminate|]. split; [intros _; split; [reflexivity | exact Hk]|].
    split; [exact Ht|]. split; [exact (eq_trans Hc Hconn)|]. split; [exact Hu | reflexivity].
Qed.

Lemma addKnowledgeItem_stores_row_witness :
  let item := mkKnowledgeItem "Pricing starts at 10 USD." "pricing"
                (mkItemMetadata Faq ["pricing"] 1 None) in
  isConnected connectedWorld = true
  /\ exists st',
       snd (addKnowledgeItem (healthyEnv "" 0) item connectedWorld) = st' /\
       map row_document (knowledge_base st') = ["Pricing starts at 10 USD."].
Proof.
  cbv zeta. split; [reflexivity|].
  destruct (addKnowledgeItem_stores_row (healthyEnv "" 0)
              (mkKnowledgeItem "Pricing starts at 10 USD." "pricing"
                 (mkItemMetadata Faq ["pricing"] 1 None))
              connectedWorld eq_refl)
    as (v & out & st' & Hrun & _ & Hup & _).
  exists st'. rewrite Hrun. split; [reflexivity|].
  destruct (Hup eq_refl) as [_ Hk]. rewrite Hk. reflexivity.
Defined.

(** *** Searching the store *)

Lemma searchKnowledge_connected env query limit st :
  isConnected st = true ->
  exists st0,
    storeView st0 = storeView st /\
    searchKnowledge env query limit st
    = if chromaUp env (chromaRequests st)
      then (Returned
              (map (fun hit =>
                      mkKnowledgeResult (hit_document hit) (hit_metadata hit)
                        (1 - hit_distance hit))
                 (knowledgeRanking env (chromaRequests st) query limit)),
            set_chromaRequests (S (chromaRequests st)) st0)
      else (Raised chromaDown, set_chromaRequests (S (chromaRequests st)) st0).
Proof.
  intros Hconn. unfold searchKnowledge. rewrite bind_run. unfold gets at 1.
  rewrite Hconn. cbn [negb].
  destruct (collectionQuery_run env (knowledgeRanking env) query limit st)
    as (st0 & Hview & _ & Hq).
  exists st0. split; [exact Hview|]. rewrite bind_run, Hq.
  destruct (chromaUp env (chromaRequests st)); reflexivity.
Qed.

Lemma searchReplyTemplates_connected env query limit st :
  isConnected st = true ->
  exists st0,
    storeView st0 = storeView st /\
    searchReplyTemplates env query limit st
    = if chromaUp env (chromaRequests st)
      then (Returned
              (map (fun hit =>
                      mkTemplateResult (scenario (hit_metadata hit))
                        (template (hit_metadata hit)) (variables (hit_metadata hit))
                        (category (hit_metadata hit)) (1 - hit_distance hit))
                 (templateRanking env (chromaRequests st) query limit)),
            set_chromaRequests (S (chromaRequests st)) st0)
      else (Raised chromaDown, set_chromaRequests (S (chromaRequests st)) st0).
Proof.
  intros Hconn. unfold searchReplyTemplates. rewrite bind_run. unfold gets at 1.
  rewrite Hconn. cbn [negb].
  destruct (collectionQuery_run env (templateRanking env) query limit st)
    as (st0 & Hview & _ & Hq).
  exists st0. split; [exact Hview|]. rewrite bind_run, Hq.
  destruct (chromaUp env (chromaRequests st)); reflexivity.
Qed.

Lemma descending_similarity {Meta} (hits : list (Hit Meta)) :
  ascending (map hit_distance hits) ->
  descending (map (fun hit => (1 - hit_distance hit)%Q) hits).
Proof.
  induction hits as [|h rest IH]; cbn [map ascending descending]; [auto|].
  intros [Hhead Htail]. split; [|apply IH; exact Htail].
  destruct rest as [|h' rest']; cbn [map] in *; [exact I | lra].
Qed.

(** X6 (a template stored and read back).  On a connected service whose
    request is served, [addReplyTemplate] appends one row to the template
    collection: the id returned, the scenario and the text joined by a space
    as document, and scenario, text, variables and category as metadata; the
    knowledge collection is untouched.  When a later query is answered with
    that row, [searchReplyTemplates] gives back the template's four fields,
    with 1 minus the distance as similarity. *)
Theorem addReplyTemplate_round_trip env replyTemplate st :
  isConnected st = true ->
  chromaUp env (chromaRequests st) = true ->
  exists row st',
    addReplyTemplate env replyTemplate st = (Returned (uuids st), st') /\
    reply_templates st' = (reply_templates st ++ [row])%list /\
    knowledge_base st' = knowledge_base st /\
    row_id row = uuids st /\
    row_document row = scenario replyTemplate ++ " " ++ template replyTemplate /\
    row_metadata row = replyTemplate /\
    forall query limit distance,
      chromaUp env (chromaRequests st') = true ->
      templateRanking env (chromaRequests st') query limit
      = [mkHit (row_document row) (row_metadata row) distance] ->
      fst (searchReplyTemplates env query limit st')
      = Returned [mkTemplateResult (scenario replyTemplate) (template replyTemplate)
                    (variables replyTemplate) (category replyTemplate) (1 - distance)].
Proof.
  intros Hconn Hup. unfold addReplyTemplate.
  rewrite bind_run. unfold uuidv4 at 1.
  set (st0 := set_uuids (S (uuids st)) st).
  rewrite bind_run. unfold gets at 1.
  change (isConnected st0) with (isConnected st). rewrite Hconn. cbn [negb].
  match goal with
  | |- context [collectionAdd env ?store ?id ?doc ?meta] =>
      destruct (collectionAdd_run env store id doc meta st0)
        as (v & st1 & _ & Hview & _ & Hadd)
  end.
  destruct (storeView_fields _ _ Hview) as (Hc & Hk & Ht).
  rewrite bind_run, Hadd.
  change (chromaRequests st0) with (chromaRequests st). rewrite Hup.
  eexists. eexists. split; [reflexivity|].
  split; [cbn; rewrite Ht; reflexivity|]. split; [exact Hk|].
  split; [reflexivity|]. split; [reflexivity|].
  split; [cbn; destruct replyTemplate; reflexivity|].
  intros query limit distance Hup' Hrank.
  match goal with
  | |- fst (searchReplyTemplates env query limit ?s) = _ =>
      destruct (searchReplyTemplates_connected env query limit s (eq_trans Hc Hconn))
        as (s0 & _ & Hsearch)
  end.
  rewrite Hsearch, Hup', Hrank. cbn. destruct replyTemplate; reflexivity.
Qed.

Lemma addReplyTemplate_round_trip_witness :
  let t := sampleTemplate "Let us meet." in
  isConnected connectedWorld = true
  /\ chromaUp (healthyEnv "" 0) (chromaRequests connectedWorld) = true
  /\ exists st',
       addReplyTemplate (healthyEnv "" 0) t connectedWorld = (Returned 0, st') /\
       map row_document (reply_templates st') = ["Meeting request Let us meet."] /\
       map row_metadata (reply_templates st') = [t].
Proof.
  cbv zeta. split; [reflexivity|]. split; [reflexivity|].
  destruct (addReplyTemplate_round_trip (healthyEnv "" 0) (sampleTemplate "Let us meet.")
              connectedWorld eq_refl eq_refl)
    as (row & st' & Hrun & Ht & _ & _ & Hdoc & Hmeta & _).
  exists st'. split; [exact Hrun|]. rewrite Ht.
  change (reply_templates connectedWorld) with (@nil (Row ReplyTemplate)).
  cbn [map app]. rewrite Hdoc, Hmeta. split; reflexivity.
Defined.

Lemma knowledge_in_range a b q :
  (0.6 <= q <= 0.8)%Q -> (0.6 <= kr_similarity (mkKnowledgeResult a b q) <= 0.8)%Q.
Proof. intros H. exact H. Qed.

Lemma template_in_range a b c d q :
  (0.7 <= q <= 0.8)%Q -> (0.7 <= tr_similarity (mkTemplateResult a b c d q) <= 0.8)%Q.
Proof. intros H. exact H. Qed.

(** X7 (searching while disconnected).  In disconnected mode both searches
    return at once, without any request and without touching the state: the
    first [limit] entries of the built-in lists, so at most three knowledge
    results and at most two templates, sorted from the most similar to the
    least, with similarities from 0.6 to 0.8; the query plays no part. *)
Theorem disconnected_search env query limit st :
  isConnected st = false ->
  exists knowledge templates,
    searchKnowledge env query limit st = (Returned knowledge, st) /\
    searchReplyTemplates env query limit st = (Returned templates, st) /\
    List.length knowledge = Nat.min limit 3 /\
    List.length templates = Nat.min limit 2 /\
    descending (map kr_similarity knowledge) /\
    descending (map tr_similarity templates) /\
    Forall (fun r => (0.6 <= kr_similarity r <= 0.8)%Q) knowledge /\
    Forall (fun t => (0.7 <= tr_similarity t <= 0.8)%Q) templates /\
    forall env' query',
      searchKnowledge env' query' limit st = (Returned knowledge, st) /\
      searchReplyTemplates env' query' limit st = (Returned templates, st).
Proof.
  intros Hconn.
  assert (Hk : forall env' query',
             searchKnowledge env' query' limit st
             = (Returned (getFallbackKnowledge query' limit), st)).
  { intros env' query'. unfold searchKnowledge, bind, gets. rewrite Hconn. reflexivity. }
  assert (Ht : forall env' query',
             searchReplyTemplates env' query' limit st
             = (Returned (getFallbackReplyTemplates query' limit), st)).
  { intros env' query'. unfold searchReplyTemplates, bind, gets. rewrite Hconn. reflexivity. }
  exists (getFallbackKnowledge query limit), (getFallbackReplyTemplates query limit).
  split; [apply Hk|]. split; [apply Ht|].
  unfold getFallbackKnowledge, getFallbackReplyTemplates.
  split; [rewrite length_firstn; reflexivity|].
  split; [rewrite length_firstn; reflexivity|].
  split; [destruct limit as [|[|[|[|n]]]]; cbn [firstn map kr_similarity descending];
          repeat split; lra|].
  split; [destruct limit as [|[|[|n]]]; cbn [firstn map tr_similarity descending];
          repeat split; lra|].
  split.
  { destruct limit as [|[|[|[|n]]]]; cbn [firstn];
      repeat (first [apply Forall_nil | apply Forall_cons; [apply knowledge_in_range; lra|]]). }
  split.
  { destruct limit as [|[|[|n]]]; cbn [firstn];
      repeat (first [apply Forall_nil | apply Forall_cons; [apply template_in_range; lra|]]). }
  intros env' query'. split; [apply Hk | apply Ht].
Qed.

Lemma disconnected_search_witness :
  isConnected sampleWorld = false
  /\ map kr_similarity (returned [] (searchKnowledge outageEnv "pricing" 2 sampleWorld))
     = [0.8; 0.7]%Q
  /\ List.length (returned [] (searchReplyTemplates outageEnv "pricing" 5 sampleWorld)) = 2.
Proof.
  split; [reflexivity|].
  destruct (disconnected_search outageEnv "pricing" 2 sampleWorld eq_refl)
    as (k & t & Hk & _).
  destruct (disconnected_search outageEnv "pricing" 5 sampleWorld eq_refl)
    as (k' & t' & _ & Ht' & _ & Hlen & _).
  unfold returned. rewrite Hk, Ht'. cbn [fst]. split; [|exact Hlen].
  vm_compute in Hk. injection Hk as <-. reflexivity.
Defined.

(** X8 (searching while connected).  On a connected service
    [searchKnowledge] has the query embedded and sends one request to
    ChromaDB.  When the request is not served it throws; when it is served
    it returns one result per hit, in the order of the hits, with the hit's
    document and metadata and 1 minus its distance as similarity: as many
    results as the server gave, sorted from the most similar to the least
    when the hits come nearest first, and with similarities in [0, 1] when
    the distances are.  The collections are untouched. *)
Theorem connected_search env query limit st :
  isConnected st = true ->
  let hits := knowledgeRanking env (chromaRequests st) query limit in
  exists out st',
    searchKnowledge env query limit st = (out, st') /\
    (chromaUp env (chromaRequests st) = false -> out = Raised chromaDown) /\
    (chromaUp env (chromaRequests st) = true ->
     exists results,
       out = Returned results /\
       map kr_content results = map hit_document hits /\
       map kr_metadata results = map hit_metadata hits /\
       map kr_similarity results = map (fun hit => (1 - hit_distance hit)%Q) hits /\
       (ascending (map hit_distance hits) -> descending (map kr_similarity results)) /\
       (Forall (fun hit => (0 <= hit_distance hit <= 1)%Q) hits ->
        Forall (fun r => (0 <= kr_similarity r <= 1)%Q) results)) /\
    knowledge_base st' = knowledge_base st /\
    reply_templates st' = reply_templates st /\
    isConnected st' = true /\
    chromaRequests st' = S (chromaRequests st).
Proof.
  intros Hconn hits.
  destruct (searchKnowledge_connected env query limit st Hconn) as (st0 & Hview & Hrun).
  destruct (storeView_fields _ _ Hview) as (Hc & Hk & Ht).
  rewrite Hrun. fold hits.
  destruct (chromaUp env (chromaRequests st)) eqn:Hup.
  - eexists. eexists. split; [reflexivity|]. split; [discriminate|].
    split; [|repeat split; [exact Hk | exact Ht | exact (eq_trans Hc Hconn)]].
    intros _. eexists. split; [reflexivity|].
    rewrite !map_map. cbn [kr_content kr_metadata kr_similarity].
    split; [reflexivity|]. split; [reflexivity|]. split; [reflexivity|].
    split; [apply descending_similarity|].
    intros Hall. rewrite Forall_map. eapply Forall_impl; [|exact Hall].
    intros hit [Hlo Hhi]. cbn [kr_similarity]. split; lra.
  - eexists. eexists. split; [reflexivity|]. split; [reflexivity|].
    split; [discriminate|]. repeat split; [exact Hk | exact Ht | exact (eq_trans Hc Hconn)].
Qed.

Lemma connected_search_witness :
  isConnected connectedWorld = true
  /\ fst (searchKnowledge (healthyEnv "" 0) "pricing" 3 connectedWorld) = Returned []
  /\ chromaRequests (snd (searchKnowledge (healthyEnv "" 0) "pricing" 3 connectedWorld)) = 1.
Proof.
  split; [reflexivity|].
  destruct (connected_search (healthyEnv "" 0) "pricing" 3 connectedWorld eq_refl)
    as (out & st' & Hrun & _ & Hup & _ & _ & _ & Hreq).
  rewrite Hrun. cbn [fst snd]. split; [|exact Hreq].
  destruct (Hup eq_refl) as (results & -> & Hdoc & _).
  destruct results; [reflexivity | discriminate Hdoc].
Defined.

(** *** Statistics and initialization *)

(** X9 (statistics).  [getStats] never changes the collections, the
    connection flag or the embedding state.  In disconnected mode it reports
    zero items, zero templates and [disconnected] without any request,
    whatever the collections hold.  On a connected service it sends one
    count request per collection and reports the two sizes with [active];
    when the first or the second request is not served it throws. *)
Theorem getStats_behaviour env st :
  exists out st',
    getStats env st = (out, st') /\
    knowledge_base st' = knowledge_base st /\
    reply_templates st' = reply_templates st /\
    isConnected st' = isConnected st /\
    embeddingRequests st' = embeddingRequests st /\
    rateLimitDelay st' = rateLimitDelay st /\
    (isConnected st = false ->
     out = Returned (mkStats 0 0 "disconnected") /\
     chromaRequests st' = chromaRequests st) /\
    (isConnected st = true ->
     chromaUp env (chromaRequests st) = false ->
     out = Raised chromaDown /\ chromaRequests st' = chromaRequests st + 1) /\
    (isConnected st = true ->
     chromaUp env (chromaRequests st) = true ->
     chromaUp env (S (chromaRequests st)) = false ->
     out = Raised chromaDown /\ chromaRequests st' = chromaRequests st + 2) /\
    (isConnected st = true ->
     chromaUp env (chromaRequests st) = true ->
     chromaUp env (S (chromaRequests st)) = true ->
     out = Returned (mkStats (List.length (knowledge_base st))
                       (List.length (reply_templates st)) "active") /\
     chromaRequests st' = chromaRequests st + 2).
Proof.
  unfold getStats, collectionCount. rewrite bind_run. unfold gets at 1.
  destruct (isConnected st) eqn:Hconn; cbn [negb].
  - rewrite bind_run, bind_run, chromaRequest_at.
    destruct (chromaUp env (chromaRequests st)) eqn:H1.
    + unfold gets at 1. rewrite bind_run, bind_run, chromaRequest_at.
      change (chromaRequests (set_chromaRequests (S (chromaRequests st)) st))
        with (S (chromaRequests st)).
      destruct (chromaUp env (S (chromaRequests st))) eqn:H2.
      * unfold gets at 1. unfold ret. eexists. eexists. split; [reflexivity|].
        repeat split; intros; try reflexivity; try exact Hconn; try congruence; cbn; lia.
      * eexists. eexists. split; [reflexivity|].
        repeat split; intros; try reflexivity; try exact Hconn; try congruence; cbn; lia.
    + eexists. eexists. split; [reflexivity|].
      repeat split; intros; try reflexivity; try exact Hconn; try congruence; cbn; lia.
  - unfold ret. eexists. eexists. split; [reflexivity|].
    repeat split; intros; try reflexivity; try exact Hconn; congruence.
Qed.

Lemma servedUntil_tail env first k :
  servedUntil env first (S k) -> chromaUp env first = true /\ servedUntil env (S first) k.
Proof.
  intros H. split.
  - rewrite <- (Nat.add_0_r first). apply H. lia.
  - intros j Hj. replace (S first + j) with (first + S j) by lia. apply H. lia.
Qed.

Lemma servedFrom_until env first k : servedFrom env first -> servedUntil env first k.
Proof. intros H j _. apply H. lia. Qed.

(** A loop of additions to one collection: each turn sends one request to
    ChromaDB and, when served, adds one row to the collection measured by
    [grown]; the first request that is not served ends the loop. *)
Section AddingLoop.

Variable env : Env.
Variables A B : Type.
Variable add : A -> M B.
Variables grown other : State -> nat.

Hypothesis add_step : forall x st,
  isConnected st = true ->
  exists out st',
    add x st = (out, st') /\
    isConnected st' = true /\
    other st' = other st /\
    chromaRequests st' = S (chromaRequests st) /\
    ((chromaUp env (chromaRequests st) = true
      /\ (exists b, out = Returned b) /\ grown st' = S (grown st))
     \/ (chromaUp env (chromaRequests st) = false
         /\ out = Raised chromaDown /\ grown st' = grown st)).

Lemma forEach_adds items :
  forall st k,
  isConnected st = true ->
  servedUntil env (chromaRequests st) k ->
  exists out st',
    forEach items add st = (out, st') /\
    isConnected st' = true /\
    other st' = other st /\
    (List.length items <= k ->
     out = Returned tt /\
     grown st' = grown st + List.length items /\
     chromaRequests st' = chromaRequests st + List.length items) /\
    (k < List.length items ->
     chromaUp env (chromaRequests st + k) = false ->
     out = Raised chromaDown /\
     grown st' = grown st + k /\
     chromaRequests st' = chromaRequests st + S k).
Proof.
  induction items as [|x rest IH]; intros st k Hconn Hserved.
  - exists (Returned tt), st. split; [reflexivity|]. split; [exact Hconn|].
    split; [reflexivity|]. cbn [List.length]. split; [intros _; repeat split; lia | lia].
  - destruct (add_step x st Hconn) as (out1 & st1 & Hadd & Hc1 & Ho1 & Hr1 & Hcase).
    cbn [forEach List.length]. rewrite bind_run, Hadd.
    destruct Hcase as [(Hup & (b & ->) & Hg1)|(Hdown & -> & Hg1)].
    + destruct k as [|k].
      * destruct (IH st1 0 Hc1) as (out & st' & Hrun & Hc & Ho & _ & _);
          [intros j Hj; lia|].
        exists out, st'. split; [exact Hrun|]. split; [exact Hc|].
        split; [congruence|]. split; [lia|].
        intros _ Hfail. rewrite Nat.add_0_r in Hfail. congruence.
      * destruct (servedUntil_tail _ _ _ Hserved) as [_ Htail].
        rewrite <- Hr1 in Htail.
        destruct (IH st1 k Hc1 Htail) as (out & st' & Hrun & Hc & Ho & Hall & Hfail).
        exists out, st'. split; [exact Hrun|]. split; [exact Hc|].
        split; [congruence|]. split.
        -- intros Hle. destruct Hall as (-> & Hg & Hr); [lia|]. repeat split; lia.
        -- intros Hlt Hdown. destruct Hfail as (-> & Hg & Hr); [lia | |repeat split; lia].
           rewrite Hr1. replace (S (chromaRequests st) + k) with (chromaRequests st + S k)
             by lia. exact Hdown.
    + exists (Raised chromaDown), st1. split; [reflexivity|]. split; [exact Hc1|].
      split; [exact Ho1|].
      destruct k as [|k].
      * split; [lia|]. intros _ _. repeat split; lia.
      * destruct (servedUntil_tail _ _ _ Hserved) as [Hup _]. congruence.
Qed.

End AddingLoop.

Lemma addKnowledgeItem_step env item st :
  isConnected st = true ->
  exists out st',
    addKnowledgeItem env item st = (out, st') /\
    isConnected st' = true /\
    List.length (reply_templates st') = List.length (reply_templates st) /\
    chromaRequests st' = S (chromaRequests st) /\
    ((chromaUp env (chromaRequests st) = true
      /\ (exists b, out = Returned b)
      /\ List.length (knowledge_base st') = S (List.length (knowledge_base st)))
     \/ (chromaUp env (chromaRequests st) = false
         /\ out = Raised chromaDown
         /\ List.length (knowledge_base st') = List.length (knowledge_base st))).
Proof.
  intros Hconn. unfold addKnowledgeItem.
  rewrite bind_run. unfold uuidv4 at 1.
  set (st0 := set_uuids (S (uuids st)) st).
  rewrite bind_run. unfold gets at 1.
  change (isConnected st0) with (isConnected st). rewrite Hconn. cbn [negb].
  destruct (collectionAdd_run env
              (fun row st => set_knowledge_base (knowledge_base st ++ [row]) st)
              (uuids st) (ki_content item) (ki_metadata item) st0)
    as (v & st1 & _ & Hview & _ & Hadd).
  destruct (storeView_fields _ _ Hview) as (Hc & Hk & Ht).
  rewrite bind_run, Hadd. change (chromaRequests st0) with (chromaRequests st).
  destruct (chromaUp env (chromaRequests st)) eqn:Hup.
  - eexists. eexists. split; [reflexivity|]. split; [exact (eq_trans Hc Hconn)|].
    split; [cbn; rewrite Ht; reflexivity|]. split; [reflexivity|].
    left. split; [reflexivity|]. split; [eexists; reflexivity|].
    cbn. rewrite length_app, Hk. cbn. lia.
  - eexists. eexists. split; [reflexivity|]. split; [exact (eq_trans Hc Hconn)|].
    split; [cbn; rewrite Ht; reflexivity|]. split; [reflexivity|].
    right. split; [reflexivity|]. split; [reflexivity|]. cbn. rewrite Hk. reflexivity.
Qed.

Lemma addReplyTemplate_step env t st :
  isConnected st = true ->
  exists out st',
    addReplyTemplate env t st = (out, st') /\
    isConnected st' = true /\
    List.length (knowledge_base st') = List.length (knowledge_base st) /\
    chromaRequests st' = S (chromaRequests st) /\
    ((chromaUp env (chromaRequests st) = true
      /\ (exists b, out = Returned b)
      /\ List.length (reply_templates st') = S (List.length (reply_templates st)))
     \/ (chromaUp env (chromaRequests st) = false
         /\ out = Raised chromaDown
         /\ List.length (reply_templates st') = List.length (reply_templates st))).
Proof.
  intros Hconn. unfold addReplyTemplate.
  rewrite bind_run. unfold uuidv4 at 1.
  set (st0 := set_uuids (S (uuids st)) st).
  rewrite bind_run. unfold gets at 1.
  change (isConnected st0) with (isConnected st). rewrite Hconn. cbn [negb].
  match goal with
  | |- context [collectionAdd env ?store ?id ?doc ?meta] =>
      destruct (collectionAdd_run env store id doc meta st0)
        as (v & st1 & _ & Hview & _ & Hadd)
  end.
  destruct (storeView_fields _ _ Hview) as (Hc & Hk & Ht).
  rewrite bind_run, Hadd. change (chromaRequests st0) with (chromaRequests st).
  destruct (chromaUp env (chromaRequests st)) eqn:Hup.
  - eexists. eexists. split; [reflexivity|]. split; [exact (eq_trans Hc Hconn)|].
    split; [cbn; rewrite Hk; reflexivity|]. split; [reflexivity|].
    left. split; [reflexivity|]. split; [eexists; reflexivity|].
    cbn. rewrite length_app, Ht. cbn. lia.
  - eexists. eexists. split; [reflexivity|]. split; [exact (eq_trans Hc Hconn)|].
    split; [cbn; rewrite Hk; reflexivity|]. split; [reflexivity|].
    right. split; [reflexivity|]. split; [reflexivity|]. cbn. rewrite Ht. reflexivity.
Qed.

(** Seeding when the first [k] requests are served. *)
Lemma seedKnowledgeBase_until env st k :
  isConnected st = true ->
  servedUntil env (chromaRequests st) k ->
  exists out st',
    seedKnowledgeBase env st = (out, st') /\
    isConnected st' = true /\
    (7 <= k ->
     out = Returned tt /\
     List.length (knowledge_base st') = List.length (knowledge_base st) + 3 /\
     List.length (reply_templates st') = List.length (reply_templates st) + 4 /\
     chromaRequests st' = chromaRequests st + 7) /\
    (k < 7 ->
     chromaUp env (chromaRequests st + k) = false ->
     out = Raised chromaDown /\
     List.length (knowledge_base st') = List.length (knowledge_base st) + Nat.min k 3 /\
     List.length (reply_templates st') = List.length (reply_templates st) + (k - 3) /\
     chromaRequests st' = chromaRequests st + S k).
Proof.
  intros Hconn Hserved. unfold seedKnowledgeBase.
  rewrite bind_run. unfold gets at 1. rewrite Hconn. cbn [negb].
  destruct (forEach_adds env _ _ (addKnowledgeItem env)
              (fun st => List.length (knowledge_base st))
              (fun st => List.length (reply_templates st))
              (addKnowledgeItem_step env) productInfo st k Hconn Hserved)
    as (out1 & st1 & H1 & Hc1 & Ho1 & Hall1 & Hfail1).
  change (List.length productInfo) with 3 in *.
  rewrite bind_run, H1.
  destruct (Nat.le_gt_cases 3 k) as [Hk|Hk].
  - destruct Hall1 as (-> & Hg1 & Hr1); [exact Hk|].
    assert (Hserved2 : servedUntil env (chromaRequests st1) (k - 3)).
    { intros j Hj. rewrite Hr1. replace (chromaRequests st + 3 + j)
        with (chromaRequests st + (3 + j)) by lia. apply Hserved. lia. }
    destruct (forEach_adds env _ _ (addReplyTemplate env)
                (fun st => List.length (reply_templates st))
                (fun st => List.length (knowledge_base st))
                (addReplyTemplate_step env) outreachTemplates st1 (k - 3) Hc1 Hserved2)
      as (out2 & st2 & H2 & Hc2 & Ho2 & Hall2 & Hfail2).
    change (List.length outreachTemplates) with 4 in *.
    exists out2, st2. split; [exact H2|]. split; [exact Hc2|]. split.
    + intros H7. destruct Hall2 as (-> & Hg2 & Hr2); [lia|]. repeat split; lia.
    + intros H7 Hdown. destruct Hfail2 as (-> & Hg2 & Hr2); [lia | |].
      * rewrite Hr1. replace (chromaRequests st + 3 + (k - 3)) with (chromaRequests st + k)
          by lia. exact Hdown.
      * repeat split; lia.
  - destruct out1 as [[]|e].
    + destruct (forEach_adds env _ _ (addReplyTemplate env)
                  (fun st => List.length (reply_templates st))
                  (fun st => List.length (knowledge_base st))
                  (addReplyTemplate_step env) outreachTemplates st1 0 Hc1)
        as (out2 & st2 & H2 & Hc2 & _); [intros j Hj; lia|].
      exists out2, st2. split; [exact H2|]. split; [exact Hc2|]. split; [lia|].
      intros _ Hdown. destruct (Hfail1 Hk Hdown) as (Habs & _). discriminate Habs.
    + exists (Raised e), st1. split; [reflexivity|]. split; [exact Hc1|].
      split; [lia|]. intros _ Hdown.
      destruct (Hfail1 Hk Hdown) as (Heq & Hg1 & Hr1). rewrite Heq.
      repeat split; lia.
Qed.

(** X10 (seeding is not atomic).  On a connected service, when the first
    [k] requests of a seeding are served and the next one, among the seven,
    is not, [seedKnowledgeBase] throws and what it had added stays: the
    first [k] knowledge items, up to three, and the templates after them. *)
Theorem seeding_is_not_atomic env st k :
  isConnected st = true ->
  servedUntil env (chromaRequests st) k ->
  k < 7 ->
  chromaUp env (chromaRequests st + k) = false ->
  exists st',
    seedKnowledgeBase env st = (Raised chromaDown, st') /\
    List.length (knowledge_base st') = List.length (knowledge_base st) + Nat.min k 3 /\
    List.length (reply_templates st') = List.length (reply_templates st) + (k - 3) /\
    chromaRequests st' = chromaRequests st + S k /\
    isConnected st' = true.
Proof.
  intros Hconn Hserved Hk Hdown.
  destruct (seedKnowledgeBase_until env st k Hconn Hserved)
    as (out & st' & Hrun & Hc & _ & Hfail).
  destruct (Hfail Hk Hdown) as (-> & Hg & Ht & Hr).
  exists st'. repeat split; assumption.
Qed.

Lemma seeding_is_not_atomic_witness :
  let env := servingEnv (fun n => n <? 4) in
  isConnected connectedWorld = true
  /\ servedUntil env (chromaRequests connectedWorld) 4
  /\ 4 < 7
  /\ chromaUp env (chromaRequests connectedWorld + 4) = false
  /\ exists st',
       seedKnowledgeBase env connectedWorld = (Raised chromaDown, st') /\
       List.length (knowledge_base st') = 3 /\
       List.length (reply_templates st') = 1.
Proof.
  cbv zeta.
  assert (Hserved : servedUntil (servingEnv (fun n => n <? 4))
                      (chromaRequests connectedWorld) 4).
  { intros j Hj. cbn. apply Nat.leb_le. lia. }
  split; [reflexivity|]. split; [exact Hserved|]. split; [lia|]. split; [reflexivity|].
  destruct (seeding_is_not_atomic (servingEnv (fun n => n <? 4)) connectedWorld 4
              eq_refl Hserved ltac:(lia) eq_refl)
    as (st' & Hrun & Hk & Ht & _).
  exists st'. repeat split; assumption.
Defined.

(** The start of [initialize]: the two collection requests. *)
Lemma initialize_start env st :
  initialize env st =
  if chromaUp env (chromaRequests st)
  then
    if chromaUp env (S (chromaRequests st))
    then
      let st2 := set_isConnected true
                   (set_chromaRequests (S (S (chromaRequests st)))
                      (set_chromaRequests (S (chromaRequests st)) st)) in
      match tryCatch
              (stats <- getStats env ;;
               if knowledgeItems stats =? 0 then seedKnowledgeBase env else ret tt)
              (fun _ => seedKnowledgeBase env) st2 with
      | (Returned a, st') => (Returned a, st')
      | (Raised _, st') => (Returned tt, set_isConnected false st')
      end
    else
      (Returned tt,
       set_isConnected false
         (set_chromaRequests (S (S (chromaRequests st)))
            (set_chromaRequests (S (chromaRequests st)) st)))
  else (Returned tt, set_isConnected false (set_chromaRequests (S (chromaRequests st)) st)).
Proof.
  unfold initialize, initializeCollections. unfold tryCatch at 1.
  rewrite bind_run, bind_run, chromaRequest_at.
  destruct (chromaUp env (chromaRequests st)); [|reflexivity].
  rewrite chromaRequest_at.
  change (chromaRequests (set_chromaRequests (S (chromaRequests st)) st))
    with (S (chromaRequests st)).
  destruct (chromaUp env (S (chromaRequests st))); reflexivity.
Qed.

(** X11 (initialization never throws).  [initialize] always returns.  When
    the first or the second collection request is not served it leaves the
    service disconnected, with the collections as they were, after one or
    two requests; so a service that ends connected had both requests served.
    A service that ends disconnected answers searches from the built-in
    lists. *)
Theorem initialize_never_throws env st :
  exists st',
    initialize env st = (Returned tt, st') /\
    (chromaUp env (chromaRequests st) = false ->
     isConnected st' = false /\
     chromaRequests st' = chromaRequests st + 1 /\
     knowledge_base st' = knowledge_base st /\
     reply_templates st' = reply_templates st) /\
    (chromaUp env (chromaRequests st) = true ->
     chromaUp env (S (chromaRequests st)) = false ->
     isConnected st' = false /\
     chromaRequests st' = chromaRequests st + 2 /\
     knowledge_base st' = knowledge_base st /\
     reply_templates st' = reply_templates st) /\
    (isConnected st' = true ->
     chromaUp env (chromaRequests st) = true /\ chromaUp env (S (chromaRequests st)) = true) /\
    (isConnected st' = false ->
     forall query limit,
       searchKnowledge env query limit st'
       = (Returned (getFallbackKnowledge query limit), st') /\
       searchReplyTemplates env query limit st'
       = (Returned (getFallbackReplyTemplates query limit), st')).
Proof.
  assert (Hsearch : forall st',
             isConnected st' = false ->
             forall query limit,
               searchKnowledge env query limit st'
               = (Returned (getFallbackKnowledge query limit), st') /\
               searchReplyTemplates env query limit st'
               = (Returned (getFallbackReplyTemplates query limit), st')).
  { intros st' Hd query limit.
    unfold searchKnowledge, searchReplyTemplates, bind, gets. rewrite Hd. split; reflexivity. }
  rewrite initialize_start.
  destruct (chromaUp env (chromaRequests st)) eqn:H1.
  - destruct (chromaUp env (S (chromaRequests st))) eqn:H2.
    + cbv zeta.
      match goal with
      | |- context [tryCatch ?m ?h ?s] => destruct (tryCatch m h s) as [[[]|e] st'] eqn:Hrun
      end.
      * exists st'. split; [reflexivity|]. split; [discriminate|]. split; [discriminate|].
        split; [intros _; split; reflexivity | apply Hsearch].
      * eexists. split; [reflexivity|]. split; [discriminate|]. split; [discriminate|].
        split; [intros Habs; discriminate Habs | apply Hsearch].
    + eexists. split; [reflexivity|]. split; [discriminate|].
      split; [intros _ _; repeat split; cbn; lia|].
      split; [intros Habs; discriminate Habs | apply Hsearch].
  - eexists. split; [reflexivity|].
    split; [intros _; repeat split; cbn; lia|].
    split; [discriminate|].
    split; [intros Habs; discriminate Habs | apply Hsearch].
Qed.

(** X12 (a failed count makes [initialize] seed again).  When both
    collection requests are served, the first count request is not and every
    later request is, [initialize] takes the failure of [getStats] for an
    empty store and seeds: the service ends connected with three knowledge
    items and four templates more than it had, also when the store already
    held the catalog. *)
Theorem initialize_seeds_after_failed_count env st :
  chromaUp env (chromaRequests st) = true ->
  chromaUp env (S (chromaRequests st)) = true ->
  chromaUp env (S (S (chromaRequests st))) = false ->
  servedFrom env (chromaRequests st + 3) ->
  exists st',
    initialize env st = (Returned tt, st') /\
    isConnected st' = true /\
    List.length (knowledge_base st') = List.length (knowledge_base st) + 3 /\
    List.length (reply_templates st') = List.length (reply_templates st) + 4.
Proof.
  intros H1 H2 H3 Hfrom. rewrite initialize_start, H1, H2. cbv zeta.
  set (st2 := set_isConnected true
                (set_chromaRequests (S (S (chromaRequests st)))
                   (set_chromaRequests (S (chromaRequests st)) st))).
  unfold tryCatch. rewrite bind_run.
  unfold getStats at 1, collectionCount. rewrite bind_run. unfold gets at 1.
  change (isConnected st2) with true. cbn [negb].
  rewrite bind_run, bind_run, chromaRequest_at.
  change (chromaRequests st2) with (S (S (chromaRequests st))). rewrite H3.
  set (st3 := set_chromaRequests (S (S (S (chromaRequests st)))) st2).
  assert (Hserved : servedUntil env (chromaRequests st3) 7).
  { apply servedFrom_until. intros n Hn. apply Hfrom.
    change (chromaRequests st3) with (S (S (S (chromaRequests st)))) in Hn. lia. }
  destruct (seedKnowledgeBase_until env st3 7 eq_refl Hserved)
    as (out & st' & Hrun & Hc & Hall & _).
  destruct (Hall (le_n 7)) as (-> & Hk & Ht & _).
  rewrite Hrun. exists st'. split; [reflexivity|]. split; [exact Hc|].
  split; [exact Hk | exact Ht].
Qed.

Lemma initialize_seeds_after_failed_count_witness :
  let env := servingEnv (fun n => negb (n =? 13)) in
  let seeded := snd (initialize env sampleWorld) in
  List.length (knowledge_base seeded) = 3
  /\ chromaRequests seeded = 11
  /\ chromaUp env (chromaRequests seeded) = true
  /\ chromaUp env (S (chromaRequests seeded)) = true
  /\ chromaUp env (S (S (chromaRequests seeded))) = false
  /\ servedFrom env (chromaRequests seeded + 3)
  /\ exists st',
       initialize env seeded = (Returned tt, st') /\
       isConnected st' = true /\
       List.length (knowledge_base st') = 6 /\
       List.length (reply_templates st') = 8.
Proof.
  cbv zeta.
  set (env := servingEnv (fun n => negb (n =? 13))).
  assert (Hk : List.length (knowledge_base (snd (initialize env sampleWorld))) = 3)
    by (vm_compute; reflexivity).
  assert (Ht : List.length (reply_templates (snd (initialize env sampleWorld))) = 4)
    by (vm_compute; reflexivity).
  assert (Hr : chromaRequests (snd (initialize env sampleWorld)) = 11)
    by (vm_compute; reflexivity).
  assert (Hfrom : servedFrom env (chromaRequests (snd (initialize env sampleWorld)) + 3)).
  { intros n Hn. rewrite Hr in Hn. cbn. destruct (Nat.eqb_spec n 13); [lia | reflexivity]. }
  split; [exact Hk|]. split; [exact Hr|].
  split; [rewrite Hr; reflexivity|]. split; [rewrite Hr; reflexivity|].
  split; [rewrite Hr; reflexivity|]. split; [exact Hfrom|].
  destruct (initialize_seeds_after_failed_count env (snd (initialize env sampleWorld)))
    as (st' & Hrun & Hc & Hk' & Ht'); try (rewrite Hr; reflexivity); [exact Hfrom|].
  exists st'. rewrite Hk in Hk'. rewrite Ht in Ht'. repeat split; assumption.
Defined.

(* ------------------------------------------------------------------ *)
(** ** Further properties of the reply service *)

(** *** Trimming *)

Lemma trimStart_first s c : firstChar (JS.trimStart s) = Some c -> JS.isWhite c = false.
Proof.
  induction s as [|a rest IH]; cbn [JS.trimStart]; [discriminate|].
  destruct (JS.isWhite a) eqn:Ha; [exact IH|].
  cbn [firstChar]. intros H. injection H as <-. exact Ha.
Qed.

Lemma trimEnd_first s c : firstChar (JS.trimEnd s) = Some c -> firstChar s = Some c.
Proof.
  destruct s as [|a rest]; cbn [JS.trimEnd]; [discriminate|].
  destruct (JS.trimEnd rest); [destruct (JS.isWhite a); [discriminate|]|]; intros H; exact H.
Qed.

Lemma trimEnd_last s c : lastChar (JS.trimEnd s) = Some c -> JS.isWhite c = false.
Proof.
  induction s as [|a rest IH]; cbn [JS.trimEnd]; [discriminate|].
  destruct (JS.trimEnd rest) as [|k kept] eqn:E.
  - destruct (JS.isWhite a) eqn:Ha; [discriminate|].
    cbn [lastChar]. intros H. injection H as <-. exact Ha.
  - intros H. apply IH. exact H.
Qed.

Lemma trim_ends s :
  (forall c, firstChar (JS.trim s) = Some c -> JS.isWhite c = false)
  /\ (forall c, lastChar (JS.trim s) = Some c -> JS.isWhite c = false).
Proof.
  unfold JS.trim. split; intros c H.
  - apply (trimStart_first s). apply trimEnd_first. exact H.
  - apply (trimEnd_last (JS.trimStart s)). exact H.
Qed.

Lemma trimmedOr_cases content fallback :
  trimmedOr content fallback
  = match content with
    | Some c => if blank c then fallback else JS.trim c
    | None => fallback
    end.
Proof.
  destruct content as [c|]; [|reflexivity].
  unfold trimmedOr, blank, JS.orElse. destruct (JS.trim c); reflexivity.
Qed.

Lemma analyzeEmailIntent_run env email st :
  analyzeEmailIntent env email st
  = (Returned (match chatCreate env (chatRequests st) (intentPrompt email) with
               | ChatContent content => trimmedOr content "General inquiry"
               | ChatFailed _ => "General inquiry"
               end),
     set_chatRequests (S (chatRequests st)) st).
Proof.
  unfold analyzeEmailIntent, tryCatch, bind, chatRequest, ret. fold (intentPrompt email).
  destruct (chatCreate env (chatRequests st) (intentPrompt email)); reflexivity.
Qed.

(** X13 (the intent is never blank).  [analyzeEmailIntent] never throws and
    sends exactly one chat request.  Its result is [General inquiry] when the
    request fails, when the reply has no content and when the content is
    white space only; otherwise it is the content without its leading and
    trailing white space.  So the intent is never empty and neither starts
    nor ends with white space. *)
Theorem analyzeEmailIntent_never_blank env email st :
  exists intent,
    analyzeEmailIntent env email st
    = (Returned intent, set_chatRequests (S (chatRequests st)) st) /\
    intent <> "" /\
    (forall c, firstChar intent = Some c -> JS.isWhite c = false) /\
    (forall c, lastChar intent = Some c -> JS.isWhite c = false) /\
    intent
    = match chatCreate env (chatRequests st) (intentPrompt email) with
      | ChatContent (Some content) =>
          if blank content then "General inquiry" else JS.trim content
      | _ => "General inquiry"
      end.
Proof.
  eexists. split; [apply analyzeEmailIntent_run|].
  assert (Hdefault : "General inquiry" <> ""
                     /\ (forall c, firstChar "General inquiry" = Some c -> JS.isWhite c = false)
                     /\ (forall c, lastChar "General inquiry" = Some c -> JS.isWhite c = false)).
  { split; [discriminate|]. split; intros c H; injection H as <-; reflexivity. }
  destruct (chatCreate env (chatRequests st) (intentPrompt email)) as [[content|]|e];
    try (destruct Hdefault as (H1 & H2 & H3); repeat split; assumption).
  rewrite trimmedOr_cases. unfold blank.
  destruct (JS.trim content) as [|a rest] eqn:E.
  - destruct Hdefault as (H1 & H2 & H3). repeat split; assumption.
  - destruct (trim_ends content) as [Hf Hl]. rewrite E in Hf, Hl.
    split; [discriminate|]. split; [exact Hf|]. split; [exact Hl | reflexivity].
Qed.

(** *** The shape of the output *)

Lemma kindOf_id r1 r2 : kindOf r1 <> kindOf r2 -> reply_id r1 <> reply_id r2.
Proof.
  intros Hne Heq. apply Hne.
  unfold kindOf, isTemplateSuggestion, isAISuggestion, isQuickSuggestion.
  rewrite Heq. reflexivity.
Qed.

Lemma templatePart_kinds env email knowledgeResults templateResults st tp :
  templatePart env email knowledgeResults templateResults st tp ->
  tp = [] \/ exists r, tp = [r] /\ kindOf r = TemplateKind.
Proof.
  unfold templatePart. destruct templateResults as [|top rest]; [left; assumption|].
  destruct (Qgtb (tr_similarity top) 0.7); [|left; assumption].
  intros (r & Hr & ->). right. exists r. split; [reflexivity|].
  destruct (generateTemplateBasedReply_returns env email top knowledgeResults st)
    as (r0 & Hr0 & Hid & _).
  rewrite Hr in Hr0. injection Hr0 as <-. unfold kindOf. rewrite Hid. reflexivity.
Qed.

Lemma quickPart_kinds email intent st qp :
  quickPart email intent st qp ->
  qp = [] \/ exists r, qp = [r] /\ kindOf r = QuickKind.
Proof.
  intros (q & Hq & ->). unfold generateQuickResponse in Hq.
  destruct (JS.includes (JS.toLowerCase (subject email)) "thank"
            || JS.includes (JS.toLowerCase (body email)) "thank you").
  - injection Hq as <-. right. eexists. split; reflexivity.
  - destruct (JS.includes (JS.toLowerCase (subject email)) "confirm"
              || JS.includes (JS.toLowerCase (body email)) "confirm").
    + injection Hq as <-. right. eexists. split; reflexivity.
    + injection Hq as <-. left. reflexivity.
Qed.

Lemma aiReply_kind env email knowledgeResults templateResults intent st ai st' :
  generateAIContextualReply env email knowledgeResults templateResults intent st
  = (Returned ai, st') ->
  kindOf ai = AIKind.
Proof.
  intros Ha.
  destruct (generateAIContextualReply_cases env email knowledgeResults templateResults
              intent st) as [(r & s & Hr & Hai & Hnt & _)|(e & s & Hr & _)];
    rewrite Ha in Hr; [injection Hr as <- <- | discriminate Hr].
  unfold kindOf. rewrite Hnt, Hai. reflexivity.
Qed.

(** X14 (shape of the output).  The list [generateReplySuggestions] returns
    is the fallback reply alone, or an optional template-based suggestion,
    the AI-contextual suggestion and an optional quick response, in this
    order: it has one, two or three entries, at most one of each strategy,
    and the ids of its entries are pairwise different. *)
Theorem suggestions_shape env email st :
  let output := returned [] (generateReplySuggestions env email st) in
  In (map kindOf output)
    [ [FallbackKind]; [AIKind]; [TemplateKind; AIKind]; [AIKind; QuickKind];
      [TemplateKind; AIKind; QuickKind] ]
  /\ 1 <= List.length output <= 3
  /\ NoDup (map reply_id output)
  /\ (map kindOf output = [FallbackKind] -> output = [fallbackReply]).
Proof.
  cbv zeta. unfold returned. rewrite generateReplySuggestions_run.
  pose proof (suggest_trace env email st) as T.
  destruct (suggest env email st) as [res stF].
  assert (Hfallback :
            In (map kindOf [fallbackReply])
              [ [FallbackKind]; [AIKind]; [TemplateKind; AIKind]; [AIKind; QuickKind];
                [TemplateKind; AIKind; QuickKind] ]
            /\ 1 <= List.length [fallbackReply] <= 3
            /\ NoDup (map reply_id [fallbackReply])
            /\ (map kindOf [fallbackReply] = [FallbackKind]
                -> [fallbackReply] = [fallbackReply])).
  { split; [left; reflexivity|]. split; [cbn; lia|].
    split; [repeat constructor; intros []|reflexivity]. }
  inversion T as [i s1 e s2 Hi Hk
                 | i s1 kn s2 e s3 Hi Hk Ht
                 | i s1 kn s2 tpl s3 e s4 Hi Hk Ht Ha
                 | i s1 kn s2 tpl s3 ai s4 tp qp Hi Hk Ht Htp Ha Hqp]; subst;
    cbn [fst]; try exact Hfallback.
  pose proof (aiReply_kind _ _ _ _ _ _ _ _ Ha) as Hai.
  destruct (templatePart_kinds _ _ _ _ _ _ Htp) as [->|(t & -> & Hkt)];
    destruct (quickPart_kinds _ _ _ _ Hqp) as [->|(q & -> & Hkq)];
    cbn [app map List.length]; rewrite ?Hai, ?Hkt, ?Hkq.
  - split; [right; left; reflexivity|]. split; [lia|].
    split; [repeat constructor; intros []|discriminate].
  - split; [do 3 right; left; reflexivity|]. split; [lia|].
    split; [|discriminate].
    repeat constructor; [|intros []].
    intros [H|[]]. revert H. apply not_eq_sym, kindOf_id. rewrite Hai, Hkq. discriminate.
  - split; [do 2 right; left; reflexivity|]. split; [lia|].
    split; [|discriminate].
    repeat constructor; [|intros []].
    intros [H|[]]. revert H. apply not_eq_sym, kindOf_id. rewrite Hai, Hkt. discriminate.
  - split; [do 4 right; left; reflexivity|]. split; [lia|].
    split; [|discriminate].
    repeat constructor; [| |intros []].
    + intros [H|[H|[]]]; revert H; apply not_eq_sym, kindOf_id;
        rewrite Hkt, ?Hai, ?Hkq; discriminate.
    + intros [H|[]]. revert H. apply not_eq_sym, kindOf_id. rewrite Hai, Hkq. discriminate.
Qed.

(** *** The pipeline in disconnected mode *)

Lemma searchKnowledge_disconnected env query limit st :
  isConnected st = false ->
  searchKnowledge env query limit st = (Returned (getFallbackKnowledge "" limit), st).
Proof. intros H. unfold searchKnowledge, bind, gets. rewrite H. reflexivity. Qed.

Lemma searchReplyTemplates_disconnected env query limit st :
  isConnected st = false ->
  searchReplyTemplates env query limit st
  = (Returned (getFallbackReplyTemplates "" limit), st).
Proof. intros H. unfold searchReplyTemplates, bind, gets. rewrite H. reflexivity. Qed.

Lemma generateTemplateBasedReply_context env email t knowledgeResults st r :
  generateTemplateBasedReply env email t knowledgeResults st = (Returned r, st) ->
  relevantKnowledge (reply_context r) = firstn 2 knowledgeResults.
Proof.
  intros H. apply (f_equal fst) in H. cbn [fst] in H.
  unfold generateTemplateBasedReply, dateNow, bind, gets, ret in H. cbn [fst] in H.
  injection H as <-. reflexivity.
Qed.

Lemma replaceScan_absent pat repl : forall rest before,
  JS.includes rest pat = false -> JS.replaceScan pat repl 0 before rest = rest.
Proof.
  induction rest as [|c rest IH]; intros before H; [reflexivity|].
  cbn [JS.includes] in H. apply orb_false_iff in H. destruct H as [Hs Hi].
  cbn [JS.replaceScan]. rewrite Hs. rewrite IH by exact Hi. reflexivity.
Qed.

Lemma replaceAll_absent pat repl s :
  JS.includes s pat = false -> JS.replaceAll pat repl s = s.
Proof. apply replaceScan_absent. Qed.

(** X15 (the pipeline in disconnected mode).  When the vector service is
    disconnected, [generateReplySuggestions] sends two chat requests and
    nothing else.  If the second one, the request of the AI strategy, fails,
    the answer is the fallback reply alone.  Otherwise the answer starts,
    whatever the email says, with a template suggestion made of the first
    built-in template (the job-interview follow-up): its text unchanged,
    confidence 0.8, category [job_interview], [action_required] true and the
    first two built-in knowledge entries as context; then the AI suggestion;
    then the quick response, if there is one. *)
Theorem disconnected_suggestions env email st :
  isConnected st = false ->
  exists intent,
    let st1 := set_chatRequests (S (chatRequests st)) st in
    let knowledge := getFallbackKnowledge "" 3 in
    let templates := getFallbackReplyTemplates "" 2 in
    let output := returned [] (generateReplySuggestions env email st) in
    analyzeEmailIntent env email st = (Returned intent, st1) /\
    snd (generateReplySuggestions env email st)
    = set_chatRequests (S (S (chatRequests st))) st /\
    match fst (generateAIContextualReply env email knowledge templates intent st1) with
    | Raised _ => output = [fallbackReply]
    | Returned ai =>
        exists t,
          output
          = t :: ai :: match returned None (generateQuickResponse email intent st) with
                       | Some quick => [quick]
                       | None => []
                       end /\
          kindOf t = TemplateKind /\
          matchedTemplate (reply_context t) = hd_error templates /\
          Some (content t) = option_map tr_template (hd_error templates) /\
          confidence t = 0.8%Q /\
          reply_category (reply_metadata t) = "job_interview" /\
          action_required (reply_metadata t) = true /\
          relevantKnowledge (reply_context t) = firstn 2 knowledge
    end.
Proof.
  intros Hconn. eexists. cbv zeta.
  split; [apply analyzeEmailIntent_run|].
  set (intent := match chatCreate env (chatRequests st) (intentPrompt email) with
                 | ChatContent content => trimmedOr content "General inquiry"
                 | ChatFailed _ => "General inquiry"
                 end).
  set (st1 := set_chatRequests (S (chatRequests st)) st).
  assert (Hconn1 : isConnected st1 = false) by exact Hconn.
  assert (Hrun :
            suggest env email st
            = bind (templateSuggestion <-
                      generateTemplateBasedReply env email
                        (hd (mkTemplateResult "" "" [] "" 0) (getFallbackReplyTemplates "" 2))
                        (getFallbackKnowledge "" 3) ;;
                    ret [templateSuggestion])
                (fun suggestions =>
                   aiSuggestion <-
                     generateAIContextualReply env email (getFallbackKnowledge "" 3)
                       (getFallbackReplyTemplates "" 2) intent ;;
                   quickResponse <- generateQuickResponse email intent ;;
                   ret (match quickResponse with
                        | Some quick => ((suggestions ++ [aiSuggestion]) ++ [quick])%list
                        | None => (suggestions ++ [aiSuggestion])%list
                        end)) st1).
  { unfold suggest. rewrite bind_run, analyzeEmailIntent_run. fold intent. fold st1.
    rewrite bind_run, (searchKnowledge_disconnected _ _ _ _ Hconn1).
    rewrite bind_run, (searchReplyTemplates_disconnected _ _ _ _ Hconn1).
    reflexivity. }
  set (top := hd (mkTemplateResult "" "" [] "" 0) (getFallbackReplyTemplates "" 2)).
  destruct (generateTemplateBasedReply_returns env email top (getFallbackKnowledge "" 3) st1)
    as (t & Ht & Hid & Hconf & Hmatched & Hcat & Haction & Hcontent).
  pose proof (generateTemplateBasedReply_context _ _ _ _ _ _ Ht) as Hknow.
  assert (Htext : content t = tr_template top).
  { rewrite Hcontent. subst top. cbn [hd getFallbackReplyTemplates firstn tr_template].
    rewrite !replaceAll_absent by (vm_compute; reflexivity). reflexivity. }
  assert (Hfacts :
            kindOf t = TemplateKind /\
            matchedTemplate (reply_context t) = hd_error (getFallbackReplyTemplates "" 2) /\
            Some (content t)
            = option_map tr_template (hd_error (getFallbackReplyTemplates "" 2)) /\
            confidence t = 0.8%Q /\
            reply_category (reply_metadata t) = "job_interview" /\
            action_required (reply_metadata t) = true /\
            relevantKnowledge (reply_context t) = firstn 2 (getFallbackKnowledge "" 3)).
  { split; [unfold kindOf; rewrite Hid; reflexivity|].
    split; [rewrite Hmatched; reflexivity|].
    split; [rewrite Htext; reflexivity|].
    split; [rewrite Hconf; reflexivity|].
    split; [rewrite Hcat; reflexivity|].
    split; [rewrite Haction, Htext; vm_compute; reflexivity | exact Hknow]. }
  clear Hid Hconf Hmatched Hcat Haction Hcontent Hknow Htext. subst top.
  assert (Hgen :
            generateReplySuggestions env email st
            = match generateAIContextualReply env email (getFallbackKnowledge "" 3)
                      (getFallbackReplyTemplates "" 2) intent st1 with
              | (Returned ai, st2) =>
                  (Returned
                     (t :: ai :: match returned None (generateQuickResponse email intent st2)
                                 with
                                 | Some quick => [quick]
                                 | None => []
                                 end), st2)
              | (Raised _, st2) => (Returned [fallbackReply], st2)
              end).
  { rewrite generateReplySuggestions_run, Hrun, bind_run.
    rewrite (bind_run (generateTemplateBasedReply _ _ _ _)), Ht. unfold ret at 1.
    rewrite bind_run.
    destruct (generateAIContextualReply env email (getFallbackKnowledge "" 3)
                (getFallbackReplyTemplates "" 2) intent st1) as [[ai|e] st2];
      [|reflexivity].
    destruct (generateQuickResponse_returns email intent st2) as (q & Hq & _).
    unfold returned. rewrite bind_run, Hq. unfold ret. cbn [fst].
    destruct q; reflexivity. }
  clear Hrun Ht. unfold returned at 1 3. rewrite Hgen. clear Hgen.
  destruct (generateAIContextualReply env email (getFallbackKnowledge "" 3)
              (getFallbackReplyTemplates "" 2) intent st1) as [[ai|e] st2] eqn:Ha.
  - assert (Hst2 : st2 = set_chatRequests (S (S (chatRequests st))) st).
    { revert Ha. unfold generateAIContextualReply, tryCatch, bind, chatRequest.
      match goal with |- context [chatCreate env (chatRequests st1) ?p] =>
        destruct (chatCreate env (chatRequests st1) p) as [c|e] end;
        intros Ha; [|discriminate Ha].
      apply (f_equal snd) in Ha. symmetry. exact Ha. }
    cbn [fst snd]. split; [exact Hst2|]. exists t. split; [|exact Hfacts].
    do 2 f_equal. rewrite Hst2. unfold returned, generateQuickResponse, dateNow, bind, gets, ret.
    destruct (JS.includes (JS.toLowerCase (subject email)) "thank"
              || JS.includes (JS.toLowerCase (body email)) "thank you");
      [|destruct (JS.includes (JS.toLowerCase (subject email)) "confirm"
                  || JS.includes (JS.toLowerCase (body email)) "confirm")];
      reflexivity.
  - cbn [fst snd]. split; [|reflexivity].
    revert Ha. unfold generateAIContextualReply, tryCatch, bind, chatRequest.
    match goal with |- context [chatCreate env (chatRequests st1) ?p] =>
      destruct (chatCreate env (chatRequests st1) p) as [c|e'] end;
      intros Ha; [discriminate Ha|].
    apply (f_equal snd) in Ha. symmetry. exact Ha.
Qed.

Lemma disconnected_suggestions_witness :
  isConnected sampleWorld = false
  /\ chatRequests (snd (generateReplySuggestions (healthyEnv "" 0.29) sampleEmail sampleWorld))
     = 2.
Proof.
  split; [reflexivity|].
  destruct (disconnected_suggestions (healthyEnv "" 0.29) sampleEmail sampleWorld eq_refl)
    as (intent & _ & Hsnd & _).
  rewrite Hsnd. reflexivity.
Defined.

(** *** Substitution of the placeholders *)

Lemma string_app_assoc (a b c : string) : ((a ++ b) ++ c)%string = (a ++ b ++ c)%string.
Proof. induction a as [|x a IH]; simpl; [reflexivity | rewrite IH; reflexivity]. Qed.

Lemma without_app c a b : without c (a ++ b) = without c a && without c b.
Proof.
  induction a as [|x a IH]; simpl; [reflexivity|].
  rewrite IH, andb_assoc. reflexivity.
Qed.

Lemma startsWith_prefix p rest : JS.startsWith (p ++ rest) p = true.
Proof.
  induction p as [|c p IH]; simpl; [destruct rest; reflexivity|].
  rewrite Ascii.eqb_refl. exact IH.
Qed.

(** Another key does not match: the closing braces come too early or too
    late. *)
Lemma startsWith_other_key key : forall k rest,
  String.eqb k key = false -> without "}" k = true -> without "}" key = true ->
  JS.startsWith (k ++ "}}" ++ rest) (key ++ "}}") = false.
Proof.
  induction key as [|a key IH]; intros k rest Hne Hk Hkey.
  - destruct k as [|c k]; [discriminate Hne|].
    cbn [without] in Hk. apply andb_true_iff in Hk. destruct Hk as [Hc _].
    apply negb_true_iff in Hc.
    cbn [append JS.startsWith]. rewrite Ascii.eqb_sym, Hc. reflexivity.
  - cbn [without] in Hkey. apply andb_true_iff in Hkey. destruct Hkey as [Ha Hkey].
    apply negb_true_iff in Ha.
    destruct k as [|c k].
    + cbn [append JS.startsWith]. rewrite Ha. reflexivity.
    + cbn [without] in Hk. apply andb_true_iff in Hk. destruct Hk as [_ Hk].
      cbn [String.eqb] in Hne. cbn [append JS.startsWith].
      destruct (Ascii.eqb_spec a c) as [->|Hac]; [|reflexivity].
      rewrite Ascii.eqb_refl in Hne. cbn [andb]. apply IH; assumption.
Qed.

Lemma startsWith_no_brace k rest q :
  without "{" k = true -> JS.startsWith (k ++ "}}" ++ rest) (String "{" q) = false.
Proof.
  intros Hk. destruct k as [|c k]; [reflexivity|].
  cbn [without] in Hk. apply andb_true_iff in Hk. destruct Hk as [Hc _].
  apply negb_true_iff in Hc. cbn [append JS.startsWith]. rewrite Ascii.eqb_sym, Hc.
  reflexivity.
Qed.

Lemma startsWith_cons c s p pat :
  JS.startsWith (String c s) (String p pat) = Ascii.eqb p c && JS.startsWith s pat.
Proof. reflexivity. Qed.

(** Where the pattern does not match, the character is copied. *)
Lemma replaceScan_copies pat repl before c rest :
  JS.startsWith (String c rest) pat = false ->
  JS.replaceScan pat repl 0 before (String c rest)
  = String c (JS.replaceScan pat repl 0 (before ++ String c "") rest).
Proof. intros H. cbn [JS.replaceScan]. rewrite H. reflexivity. Qed.

Section OnePass.

Variables (pat' repl rest out : string).
Hypothesis scanned : forall before, JS.replaceScan (String "{" pat') repl 0 before rest = out.

(** A text without opening brace is copied. *)
Lemma scan_plain : forall text before,
  without "{" text = true ->
  JS.replaceScan (String "{" pat') repl 0 before (text ++ rest) = (text ++ out)%string.
Proof.
  induction text as [|c text IH]; intros before H; [apply scanned|].
  cbn [without] in H. apply andb_true_iff in H. destruct H as [Hc H].
  apply negb_true_iff in Hc.
  change (String c text ++ rest)%string with (String c (text ++ rest)).
  cbn [JS.replaceScan JS.startsWith]. rewrite Ascii.eqb_sym, Hc. cbn [andb].
  rewrite IH by exact H. reflexivity.
Qed.

(** The characters of a match are passed over. *)
Lemma scan_skip : forall p before,
  JS.replaceScan (String "{" pat') repl (String.length p) before (p ++ rest) = out.
Proof.
  induction p as [|c p IH]; intros before; [apply scanned|].
  change (String c p ++ rest)%string with (String c (p ++ rest)).
  cbn [String.length JS.replaceScan]. apply IH.
Qed.

(** A match gives the replacement text. *)
Lemma scan_match before :
  noDollar repl = true ->
  JS.replaceScan (String "{" pat') repl 0 before (String "{" pat' ++ rest)
  = (repl ++ out)%string.
Proof.
  intros Hd.
  change (String "{" pat' ++ rest)%string with (String "{" (pat' ++ rest)).
  cbn [JS.replaceScan].
  change (String "{" (pat' ++ rest)) with (String "{" pat' ++ rest)%string.
  rewrite startsWith_prefix, getSubstitution_noDollar by exact Hd.
  cbn [String.length]. rewrite Nat.sub_succ, Nat.sub_0_r.
  cbn [append]. rewrite scan_skip. reflexivity.
Qed.

End OnePass.

(** One call of [replace] on a well-formed template fills the placeholders
    of its key and leaves everything else. *)
Lemma replaceAll_fill key value :
  without "{" key = true -> without "}" key = true -> noDollar value = true ->
  forall pieces,
    forallb wellFormed pieces = true ->
    forall before,
      JS.replaceScan ("{{" ++ key ++ "}}") value 0 before (render pieces)
      = render (fill key value pieces).
Proof.
  intros Hk1 Hk2 Hd.
  induction pieces as [|[text|k] pieces IH]; intros Hwf before; [reflexivity| |];
    cbn [forallb wellFormed] in Hwf; apply andb_true_iff in Hwf; destruct Hwf as [Hp Hwf];
    specialize (IH Hwf).
  - cbn [render fill map]. apply scan_plain; [exact IH | exact Hp].
  - apply andb_true_iff in Hp. destruct Hp as [Hp1 Hp2].
    change (fill key value (Placeholder k :: pieces))
      with ((if String.eqb k key then Plain value else Placeholder k)
              :: fill key value pieces).
    set (out := render (fill key value pieces)) in *.
    destruct (String.eqb k key) eqn:E.
    + apply String.eqb_eq in E. subst k.
      change (render (Plain value :: fill key value pieces)) with (value ++ out)%string.
      change (render (Placeholder key :: pieces))
        with (String "{" (String "{" (key ++ "}}" ++ render pieces))).
      rewrite <- (string_app_assoc key "}}" (render pieces)).
      change (String "{" (String "{" ((key ++ "}}") ++ render pieces)))
        with (String "{" (String "{" (key ++ "}}")) ++ render pieces)%string.
      apply (scan_match (String "{" (key ++ "}}"))); [exact IH | exact Hd].
    + change (render (Placeholder k :: fill key value pieces))
        with (String "{" (String "{" (k ++ "}}" ++ out))).
      change (render (Placeholder k :: pieces))
        with (String "{" (String "{" (k ++ "}}" ++ render pieces))).
      change ("{{" ++ key ++ "}}")%string with (String "{" (String "{" (key ++ "}}"))).
      rewrite replaceScan_copies.
      2: { rewrite !startsWith_cons, Ascii.eqb_refl. cbn [andb].
           exact (startsWith_other_key key k (render pieces) E Hp2 Hk2). }
      rewrite replaceScan_copies.
      2: { rewrite startsWith_cons, Ascii.eqb_refl. cbn [andb].
           exact (startsWith_no_brace k (render pieces) _ Hp1). }
      do 2 f_equal.
      rewrite <- !string_app_assoc.
      apply (scan_plain (String "{" (key ++ "}}"))); [exact IH|].
      rewrite without_app, Hp1. reflexivity.
Qed.

Lemma fill_wellFormed key value pieces :
  without "{" value = true ->
  forallb wellFormed pieces = true -> forallb wellFormed (fill key value pieces) = true.
Proof.
  intros Hv. induction pieces as [|[text|k] pieces IH]; cbn [fill map forallb]; [auto| |];
    intros H; apply andb_true_iff in H; destruct H as [Hp H]; apply andb_true_iff; split;
    try (apply IH; exact H).
  - exact Hp.
  - destruct (String.eqb k key); [exact Hv | exact Hp].
Qed.

Lemma fill_instantiate env email pieces :
  render (fill "sender_name" (senderName email)
            (fill "product_name" "OneBox-AI"
               (fill "meeting_link" (meetingLink env) pieces)))
  = instantiate (templateVariables env email) pieces.
Proof.
  induction pieces as [|[text|k] pieces IH]; [reflexivity| |]; unfold fill in *;
    cbn [map instantiate templateVariables lookup].
  - cbn [render]. rewrite IH. reflexivity.
  - destruct (String.eqb k "meeting_link"); [cbn [render]; rewrite IH; reflexivity|].
    destruct (String.eqb k "product_name"); [cbn [render]; rewrite IH; reflexivity|].
    destruct (String.eqb k "sender_name"); cbn [render]; rewrite IH; [reflexivity|].
    rewrite !string_app_assoc. reflexivity.
Qed.

(** X16 (the placeholders are filled).  Let the text of a template be a
    sequence of plain texts without opening brace and of placeholders
    [{{key}}] whose keys have no brace, and let the meeting link and the
    sender's name have no dollar sign and the meeting link no opening brace.
    Then the content of the template suggestion is the template with every
    placeholder [meeting_link], [product_name] and [sender_name] replaced by
    the variable's value, all other placeholders and all plain text being
    kept as they are. *)
Theorem template_substitution env email t knowledgeResults st pieces :
  tr_template t = render pieces ->
  forallb wellFormed pieces = true ->
  noDollar (meetingLink env) = true ->
  without "{" (meetingLink env) = true ->
  noDollar (senderName email) = true ->
  exists r,
    generateTemplateBasedReply env email t knowledgeResults st = (Returned r, st) /\
    content r = instantiate (templateVariables env email) pieces.
Proof.
  intros Htext Hwf Hd1 Hb1 Hd2.
  destruct (generateTemplateBasedReply_returns env email t knowledgeResults st)
    as (r & Hr & _ & _ & _ & _ & _ & Hcontent).
  exists r. split; [exact Hr|]. rewrite Hcontent, Htext. unfold JS.replaceAll.
  rewrite (replaceAll_fill "meeting_link" (meetingLink env) eq_refl eq_refl Hd1 pieces Hwf).
  rewrite (replaceAll_fill "product_name" "OneBox-AI" eq_refl eq_refl eq_refl).
  2: { apply fill_wellFormed; [exact Hb1 | exact Hwf]. }
  rewrite (replaceAll_fill "sender_name" (senderName email) eq_refl eq_refl Hd2).
  2: { apply fill_wellFormed; [reflexivity|]. apply fill_wellFormed; [exact Hb1 | exact Hwf]. }
  apply fill_instantiate.
Qed.

Lemma template_substitution_witness :
  content
    (returned fallbackReply
       (generateTemplateBasedReply (healthyEnv "" 0.29) sampleEmail
          (mkTemplateResult "Meeting request"
             "Hi {{sender_name}}, {{first_name}} can meet: {{meeting_link}}"
             ["sender_name"] "meeting" 0.9)
          [] sampleWorld))
  = "Hi alice, {{first_name}} can meet: https://cal.com/example".
Proof.
  destruct (template_substitution (healthyEnv "" 0.29) sampleEmail
              (mkTemplateResult "Meeting request"
                 "Hi {{sender_name}}, {{first_name}} can meet: {{meeting_link}}"
                 ["sender_name"] "meeting" 0.9)
              [] sampleWorld
              [Plain "Hi "; Placeholder "sender_name"; Plain ", ";
               Placeholder "first_name"; Plain " can meet: "; Placeholder "meeting_link"]
              eq_refl eq_refl eq_refl eq_refl eq_refl)
    as (r & Hr & Hcontent).
  unfold returned. rewrite Hr. cbn [fst]. rewrite Hcontent. reflexivity.
Defined.

(* ------------------------------------------------------------------ *)
(** ** The endpoints of the API server *)

Import Server.

Lemma generateReplySuggestions_returns env email st :
  exists suggestions st',
    generateReplySuggestions env email st = (Returned suggestions, st') /\
    1 <= List.length suggestions <= 3.
Proof.
  rewrite generateReplySuggestions_run.
  pose proof (suggest_trace env email st) as T.
  destruct (suggest env email st) as [res stF].
  inversion T as [i s1 e s2 Hi Hk
                 | i s1 kn s2 e s3 Hi Hk Ht
                 | i s1 kn s2 tpl s3 e s4 Hi Hk Ht Ha
                 | i s1 kn s2 tpl s3 ai s4 tp qp Hi Hk Ht Htp Ha Hqp]; subst;
    try (eexists; eexists; split; [reflexivity | cbn; lia]).
  eexists. eexists. split; [reflexivity|].
  destruct (templatePart_kinds _ _ _ _ _ _ Htp) as [->|(t & -> & _)];
    destruct (quickPart_kinds _ _ _ _ Hqp) as [->|(q & -> & _)]; cbn; lia.
Qed.

(** X17 (the suggestion endpoint).  On a request whose body is a JSON
    object with texts, if anything, as subject, body and sender, the handler
    of [/api/suggest-replies] always answers, with status 400 or 200 and
    never with 500: its [catch] branch is not reached.  The status is 400,
    with the fixed error text and without any call of the reply service,
    exactly when the subject, the body or the sender is absent or empty.  Otherwise it is 200, with
    [success] true, the subject as [email_id] and the one to three
    suggestions of the reply service for the email of the request. *)
Theorem suggestReplies_answers env body st :
  exists response st',
    suggestReplies env body st = (Returned response, st') /\
    (statusCode response = 400 \/ statusCode response = 200) /\
    (statusCode response = 400 <->
     missing (body_subject body) || missing (body_body body) || missing (body_from body)
     = true) /\
    (statusCode response = 400 ->
     st' = st /\
     payload response = Failure "Missing required email fields: subject, body, from" None) /\
    (statusCode response = 200 ->
     exists suggestions,
       generateReplySuggestions env (emailOf body) st = (Returned suggestions, st') /\
       1 <= List.length suggestions <= 3 /\
       payload response
       = Suggestions true (orEmpty (body_subject body)) suggestions (Qfloor (now st'))).
Proof.
  unfold suggestReplies, tryCatch.
  destruct (missing (body_subject body) || missing (body_body body)
            || missing (body_from body)) eqn:Hmissing.
  - unfold ret. eexists. eexists. split; [reflexivity|]. cbn [statusCode payload].
    split; [left; reflexivity|]. split; [split; reflexivity|].
    split; [intros _; split; reflexivity | discriminate].
  - destruct (generateReplySuggestions_returns env (emailOf body) st)
      as (suggestions & st' & Hrun & Hlen).
    rewrite bind_run, Hrun. unfold dateNow, bind, gets, ret.
    eexists. eexists. split; [reflexivity|]. cbn [statusCode payload].
    split; [right; reflexivity|]. split; [split; discriminate|].
    split; [discriminate|]. intros _. exists suggestions.
    split; [reflexivity|]. split; [exact Hlen | reflexivity].
Qed.

(** X18 (the statistics endpoint).  The handler of [/api/rag-stats] always
    answers and leaves the collections as they are.  In disconnected mode it
    answers 200 without any request, with zero items, zero templates and the
    vector status [disconnected] next to the fixed [ragService] value
    [active].  On a connected service it answers 200 with the sizes of the
    two collections when both count requests are served, and 500 with the
    error [Failed to get RAG statistics] and the message of the failure as
    details when one of them is not. *)
Theorem ragStats_answers env st :
  exists response st',
    ragStats env st = (Returned response, st') /\
    knowledge_base st' = knowledge_base st /\
    reply_templates st' = reply_templates st /\
    (isConnected st = false ->
     st' = st /\
     response
     = mkResponse 200
         (Statistics (mkRagStats (mkStats 0 0 "disconnected") "active" "gpt-3.5-turbo"
                        "text-embedding-ada-002"))) /\
    (isConnected st = true ->
     response
     = if chromaUp env (chromaRequests st) && chromaUp env (S (chromaRequests st))
       then mkResponse 200
              (Statistics
                 (mkRagStats
                    (mkStats (List.length (knowledge_base st))
                       (List.length (reply_templates st)) "active")
                    "active" "gpt-3.5-turbo" "text-embedding-ada-002"))
       else mkResponse 500
              (Failure "Failed to get RAG statistics" (Some "Failed to connect to chromadb"))).
Proof.
  unfold ragStats, ragGetStats, tryCatch, getStats, collectionCount.
  rewrite !bind_run. unfold gets at 1.
  destruct (isConnected st) eqn:Hconn; cbn [negb].
  - rewrite bind_run, bind_run, chromaRequest_at.
    destruct (chromaUp env (chromaRequests st)) eqn:H1; cbn [andb].
    + unfold gets at 1. rewrite bind_run, bind_run, chromaRequest_at.
      change (chromaRequests (set_chromaRequests (S (chromaRequests st)) st))
        with (S (chromaRequests st)).
      destruct (chromaUp env (S (chromaRequests st))) eqn:H2.
      * unfold gets at 1. unfold ret. eexists. eexists. split; [reflexivity|].
        split; [reflexivity|]. split; [reflexivity|].
        split; [discriminate | reflexivity].
      * unfold ret. eexists. eexists. split; [reflexivity|].
        split; [reflexivity|]. split; [reflexivity|].
        split; [discriminate | reflexivity].
    + unfold ret. eexists. eexists. split; [reflexivity|].
      split; [reflexivity|]. split; [reflexivity|].
      split; [discriminate | reflexivity].
  - unfold ret. eexists. eexists. split; [reflexivity|].
    split; [reflexivity|]. split; [reflexivity|].
    split; [intros _; split; reflexivity | discriminate].
Qed.

(* ------------------------------------------------------------------ *)
(** ** The frontend over the suggestion endpoint *)

Lemma suggestReplies_run env body st :
  suggestReplies env body st
  = if missing (body_subject body) || missing (body_body body) || missing (body_from body)
    then (Returned
            (mkResponse 400
               (Failure "Missing required email fields: subject, body, from" None)), st)
    else match generateReplySuggestions env (emailOf body) st with
         | (Returned suggestions, st') =>
             (Returned
                (mkResponse 200
                   (Suggestions true (orEmpty (body_subject body)) suggestions
                      (Qfloor (now st')))), st')
         | (Raised error, st') =>
             (Returned
                (mkResponse 500
                   (Failure "Failed to generate reply suggestions" (Some (message error)))),
              st')
         end.
Proof.
  unfold suggestReplies, tryCatch.
  destruct (missing (body_subject body) || missing (body_body body)
            || missing (body_from body)); [reflexivity|].
  rewrite bind_run.
  destruct (generateReplySuggestions env (emailOf body) st) as [[l|e] st']; reflexivity.
Qed.

Lemma generateSuggestions_success previous email_id suggestions generated_at :
  Frontend.generateSuggestions previous
    (Frontend.Answered
       (mkResponse 200 (Suggestions true email_id suggestions generated_at)))
  = (suggestions,
     if 0 <? List.length suggestions
     then Frontend.ToastSuccess
            ("Generated " ++ Frontend.showCount (List.length suggestions)
               ++ " reply suggestions")
     else Frontend.ToastInfo "No reply suggestions available for this email").
Proof. reflexivity. Qed.

(** X19 (what the reply panel shows).  When the panel's request is answered
    by the handler of [/api/suggest-replies], the panel never shows the
    notice [No reply suggestions available for this email].  If the
    subject, the body or the sender is absent or empty, it keeps the
    suggestions it had and shows the error [Failed to generate suggestions:
    Failed to generate reply suggestions: Missing required email fields:
    subject, body, from].  Otherwise it shows the one to three suggestions
    of the reply service and the success notice with their number.  When
    the request gets no answer, it keeps the suggestions it had and shows
    the error with the message of the failure. *)
Theorem panel_shows env body st previous :
  let response := returned (mkResponse 0 (Failure "" None)) (suggestReplies env body st) in
  let shown := fst (Frontend.generateSuggestions previous (Frontend.Answered response)) in
  let toast := snd (Frontend.generateSuggestions previous (Frontend.Answered response)) in
  (forall text, toast <> Frontend.ToastInfo text) /\
  (if missing (body_subject body) || missing (body_body body) || missing (body_from body)
   then shown = previous /\
        toast
        = Frontend.ToastError
            "Failed to generate suggestions: Failed to generate reply suggestions: Missing required email fields: subject, body, from"
   else shown = returned [] (generateReplySuggestions env (emailOf body) st) /\
        1 <= List.length shown <= 3 /\
        toast
        = Frontend.ToastSuccess
            ("Generated " ++ Frontend.showCount (List.length shown) ++ " reply suggestions")) /\
  (forall message,
     Frontend.generateSuggestions previous (Frontend.NoResponse message)
     = (previous,
        Frontend.ToastError
          ("Failed to generate suggestions: Failed to generate reply suggestions: "
             ++ message))).
Proof.
  cbv zeta. unfold returned at 1 2 3. rewrite suggestReplies_run.
  destruct (missing (body_subject body) || missing (body_body body)
            || missing (body_from body)).
  - cbn [fst]. split; [intros text; discriminate|]. split; [split; reflexivity|].
    intros message. reflexivity.
  - destruct (generateReplySuggestions_returns env (emailOf body) st)
      as (suggestions & st' & Hrun & Hlen).
    unfold returned. rewrite Hrun. cbn [fst].
    rewrite generateSuggestions_success.
    assert (Hpos : (0 <? List.length suggestions) = true) by (apply Nat.ltb_lt; lia).
    rewrite Hpos. cbn [fst snd].
    split; [intros text; discriminate|]. split; [|intros message; reflexivity].
    split; [reflexivity|]. split; [exact Hlen | reflexivity].
Qed.

Lemma kindOf_fallback r : r = fallbackReply -> kindOf r = FallbackKind.
Proof. intros ->. reflexivity. Qed.

(** X20 (the colour of the confidence).  Among the suggestions
    [generateReplySuggestions] returns, the panel paints the confidence red
    exactly for the fallback reply.  The AI suggestion and the quick
    response are painted green; a template suggestion is green or amber,
    never red, because its similarity passed the gate at 0.7. *)
Theorem confidence_colour env email st r :
  In r (returned [] (generateReplySuggestions env email st)) ->
  let colour := Frontend.getConfidenceColor (confidence r) in
  (colour = "#ef4444" <-> r = fallbackReply) /\
  (kindOf r = AIKind \/ kindOf r = QuickKind -> colour = "#10b981") /\
  (kindOf r = TemplateKind -> colour = "#10b981" \/ colour = "#f59e0b").
Proof.
  intros Hin. cbv zeta.
  destruct (returned_suggestions env email st r Hin)
    as [->|(intent & st1 & kn & st2 & tpl & st3 & ai & st4 & tp & qp
            & Htp & Ha & Hqp & _ & _ & _ & Hr)].
  { split; [split; reflexivity|]. split; [intros [H|H]; discriminate H | discriminate]. }
  destruct Hr as [Hr|[->|Hr]].
  - unfold templatePart in Htp. destruct tpl as [|top rest]; [subst tp; destruct Hr|].
    destruct (Qgtb (tr_similarity top) 0.7) eqn:G; [|subst tp; destruct Hr].
    destruct Htp as (r0 & Hr0 & ->). destruct Hr as [<-|[]].
    destruct (generateTemplateBasedReply_returns env email top kn st3)
      as (r1 & Hr1 & Hid & Hconf & _).
    rewrite Hr0 in Hr1. injection Hr1 as <-.
    assert (Hkind : kindOf r0 = TemplateKind) by (unfold kindOf; rewrite Hid; reflexivity).
    apply Qgtb_true in G.
    assert (Hamber : Qle_bool 0.6 (confidence r0) = true).
    { apply Qle_bool_iff. rewrite Hconf. lra. }
    unfold Frontend.getConfidenceColor. rewrite Hamber.
    split.
    + split.
      * destruct (Qle_bool 0.8 (confidence r0)); discriminate.
      * intros H. apply kindOf_fallback in H. rewrite Hkind in H. discriminate H.
    + split; [rewrite Hkind; intros [H|H]; discriminate H|].
      intros _. destruct (Qle_bool 0.8 (confidence r0)); [left | right]; reflexivity.
  - pose proof (aiReply_kind _ _ _ _ _ _ _ _ Ha) as Hkind.
    destruct (generateAIContextualReply_cases env email kn tpl intent st3)
      as [(r1 & s & Hr1 & _ & _ & Hconf & _)|(e & s & Hr1 & _)];
      rewrite Ha in Hr1; [injection Hr1 as <- <- | discriminate Hr1].
    rewrite Hconf.
    split.
    + split; [discriminate|].
      intros H. apply kindOf_fallback in H. rewrite Hkind in H. discriminate H.
    + split; [intros _; reflexivity | rewrite Hkind; discriminate].
  - destruct (quickPart_kinds _ _ _ _ Hqp) as [->|(q & -> & Hkind)]; [destruct Hr|].
    destruct Hr as [<-|[]].
    destruct Hqp as (q' & Hq' & Hqp).
    destruct (generateQuickResponse_returns email intent st4) as (q1 & Hq1 & Hfacts & _).
    rewrite Hq' in Hq1. injection Hq1 as <-.
    destruct q' as [q0|]; [|discriminate Hqp]. injection Hqp as ->.
    destruct (Hfacts q0 eq_refl) as (_ & _ & _ & Hconf & _).
    assert (Hgreen : Frontend.getConfidenceColor (confidence q0) = "#10b981")
      by (destruct Hconf as [-> | ->]; reflexivity).
    rewrite Hgreen.
    split.
    + split; [discriminate|].
      intros H. apply kindOf_fallback in H. rewrite Hkind in H. discriminate H.
    + split; [intros _; reflexivity | rewrite Hkind; discriminate].
Qed.

Lemma confidence_colour_witness :
  In fallbackReply (returned [] (generateReplySuggestions outageEnv sampleEmail sampleWorld))
  /\ Frontend.getConfidenceColor (confidence fallbackReply) = "#ef4444".
Proof.
  assert (Hin : In fallbackReply
                  (returned [] (generateReplySuggestions outageEnv sampleEmail sampleWorld)))
    by (vm_compute; left; reflexivity).
  split; [exact Hin|].
  destruct (confidence_colour outageEnv sampleEmail sampleWorld fallbackReply Hin)
    as [[_ Hred] _].
  apply Hred. reflexivity.
Defined.

(* ------------------------------------------------------------------ *)
(** ** From the start of the service to the statistics endpoint *)

Lemma ragStats_run env st :
  ragStats env st
  = match getStats env st with
    | (Returned stats, st') =>
        (Returned
           (mkResponse 200
              (Statistics (mkRagStats stats "active" "gpt-3.5-turbo" "text-embedding-ada-002"))),
         st')
    | (Raised error, st') =>
        (Returned
           (mkResponse 500 (Failure "Failed to get RAG statistics" (Some (message error)))),
         st')
    end.
Proof.
  unfold ragStats, ragGetStats, tryCatch. rewrite !bind_run.
  destruct (getStats env st) as [[stats|e] st']; reflexivity.
Qed.

(** X21 (statistics after the start).  A service is constructed over empty
    collections and initialized, as the server does when it starts; then
    [/api/rag-stats] is asked.  If ChromaDB serves every request, the answer
    is 200 with 3 knowledge items, 4 reply templates and the status
    [active]: the catalog has been seeded.  If ChromaDB does not serve the
    first request, the answer is 200 all the same, with zero items, zero
    templates and the status [disconnected]. *)
Theorem stats_after_start env w :
  knowledge_base w = [] ->
  reply_templates w = [] ->
  let answer :=
    returned (mkResponse 0 (Failure "" None))
      ((initialize env ;;; ragStats env) (construct w)) in
  (chromaServes env ->
   answer
   = mkResponse 200
       (Statistics
          (mkRagStats (mkStats 3 4 "active") "active" "gpt-3.5-turbo"
             "text-embedding-ada-002"))) /\
  (chromaUp env (chromaRequests w) = false ->
   answer
   = mkResponse 200
       (Statistics
          (mkRagStats (mkStats 0 0 "disconnected") "active" "gpt-3.5-turbo"
             "text-embedding-ada-002"))).
Proof.
  intros Hk Ht. cbv zeta. unfold returned. rewrite bind_run. split.
  - intros Hup.
    destruct (initialize_served env (construct w) Hup) as (st1 & Hinit & Hc1 & Hk1 & Ht1).
    rewrite Hinit, ragStats_run.
    destruct (getStats_connected env st1 Hup Hc1) as (st2 & Hstats & _).
    rewrite Hstats. cbn [fst]. rewrite Hk1, Ht1.
    change (knowledge_base (construct w)) with (knowledge_base w).
    change (reply_templates (construct w)) with (reply_templates w).
    rewrite Hk, Ht. reflexivity.
  - intros Hdown. rewrite initialize_start.
    change (chromaRequests (construct w)) with (chromaRequests w).
    rewrite Hdown, ragStats_run. reflexivity.
Qed.

Lemma stats_after_start_witness :
  statusCode
    (returned (mkResponse 0 (Failure "" None))
       ((initialize outageEnv ;;; ragStats outageEnv) (construct sampleWorld)))
  = 200
  /\ payload
       (returned (mkResponse 0 (Failure "" None))
          ((initialize (servingEnv (fun _ => true)) ;;; ragStats (servingEnv (fun _ => true)))
             (construct sampleWorld)))
     = Statistics
         (mkRagStats (mkStats 3 4 "active") "active" "gpt-3.5-turbo" "text-embedding-ada-002").
Proof.
  split.
  - destruct (stats_after_start outageEnv sampleWorld eq_refl eq_refl) as [_ Hdown].
    rewrite (Hdown eq_refl). reflexivity.
  - destruct (stats_after_start (servingEnv (fun _ => true)) sampleWorld eq_refl eq_refl)
      as [Hup _].
    rewrite (Hup (fun n => eq_refl)). reflexivity.
Defined.
